(** * Sepolia crowdfunding test harness: a shallow embedding

    The harness drives the [cast] command-line client against deployed
    contracts.  Its three Python modules are embedded here:

    - [cast_interactor.py]  as [CastInteractor]
    - [uniswap_helper.py]   as [UniswapV2Helper]
    - [sepolia_test.py]     as [SepoliaTestSuite]

    Python values are modelled as follows.  A [str] is a [string] whose
    characters are the code points below 256; [int] is [Z]; [Optional[str]]
    is [option string]; a raised exception is the [Raise] result of the
    harness monad [M].  The outside world (the [cast] subprocess, the wall
    clock, the logger) is explicit state: a [world] records the clock, the
    commands handed to [subprocess.run] and the logger calls, and a [chain]
    oracle answers each subprocess invocation.  The pictographs of a few log
    messages are written as their UTF-8 bytes. *)

From Stdlib Require Import ZArith List String Ascii Bool Lia DecimalString.
Import ListNotations.

Local Open Scope string_scope.
Local Open Scope Z_scope.

(* ================================================================== *)
(** * Python built-ins used by the harness *)
(* ================================================================== *)

Module Py.

(** ** Slicing *)

(** [s[n:]] *)
Fixpoint drop (n : nat) (s : string) : string :=
  match n, s with
  | O, _ => s
  | S _, EmptyString => EmptyString
  | S n', String _ s' => drop n' s'
  end.

(** [s[:n]] *)
Fixpoint take (n : nat) (s : string) : string :=
  match n, s with
  | O, _ => EmptyString
  | S _, EmptyString => EmptyString
  | S n', String c s' => String c (take n' s')
  end.

(** [s[-n:]] for a positive literal [n]: the whole string when it has
    fewer than [n] characters. *)
Definition last_n (n : nat) (s : string) : string :=
  drop (String.length s - n) s.

(** ['0' * n] *)
Fixpoint zeros (n : nat) : string :=
  match n with
  | O => EmptyString
  | S n' => String "0" (zeros n')
  end.

(** [s.startswith(p)] *)
Definition startswith (p s : string) : bool := String.prefix p s.

Definition is_sign (c : ascii) : bool :=
  (Ascii.eqb c "+" || Ascii.eqb c "-")%char.

(** [s.zfill(width)]: zeros are inserted after a leading sign. *)
Definition zfill (width : nat) (s : string) : string :=
  if Nat.leb width (String.length s) then s
  else
    let fill := zeros (width - String.length s) in
    match s with
    | String c s' => if is_sign c then String c (fill ++ s') else fill ++ s
    | EmptyString => fill
    end.

(** ** Truthiness *)

(** [bool(s)] for a [str] *)
Definition truthy (s : string) : bool :=
  match s with EmptyString => false | _ => true end.

(** [bool(r)] for an [Optional[str]] *)
Definition truthy_opt (r : option string) : bool :=
  match r with Some s => truthy s | None => false end.

(** ** Lists of strings *)

(** [x in l] *)
Definition contains_token (x : string) (l : list string) : bool :=
  existsb (String.eqb x) l.

(** [sep.join(l)] *)
Definition join (sep : string) (l : list string) : string :=
  String.concat sep l.

(** ** Whitespace and stripping *)

(** [c.isspace()] on code points below 256 *)
Definition isspace (c : ascii) : bool :=
  let n := nat_of_ascii c in
  ((9 <=? n) && (n <=? 13) || (28 <=? n) && (n <=? 32)
   || (n =? 133) || (n =? 160))%nat.

Fixpoint lstrip_by (p : ascii -> bool) (s : string) : string :=
  match s with
  | String c s' => if p c then lstrip_by p s' else s
  | EmptyString => EmptyString
  end.

Fixpoint rstrip_by (p : ascii -> bool) (s : string) : string :=
  match s with
  | String c s' =>
      match rstrip_by p s' with
      | EmptyString => if p c then EmptyString else String c EmptyString
      | r => String c r
      end
  | EmptyString => EmptyString
  end.

Definition strip_by (p : ascii -> bool) (s : string) : string :=
  rstrip_by p (lstrip_by p s).

(** [s.strip()] *)
Definition strip (s : string) : string := strip_by isspace s.

Fixpoint mem_char (c : ascii) (chars : string) : bool :=
  match chars with
  | String d r => Ascii.eqb c d || mem_char c r
  | EmptyString => false
  end.

(** [s.strip(chars)] *)
Definition strip_chars (chars s : string) : string :=
  strip_by (fun c => mem_char c chars) s.

(** [s.split(sep)] for a one-character separator *)
Fixpoint split (sep : ascii) (s : string) : list string :=
  match s with
  | EmptyString => [EmptyString]
  | String c s' =>
      if Ascii.eqb c sep then EmptyString :: split sep s'
      else match split sep s' with
           | h :: t => String c h :: t
           | [] => [String c EmptyString]
           end
  end.

(** ** Case mapping on code points below 256

    Besides the ASCII letters, the letters 192-222 and 224-254 (without the
    signs 215 and 247) are pairs of an upper-case and a lower-case form.
    [lower] stays below 256.  [upper] turns the sharp s (223) into [SS]; the
    upper-case forms of the micro sign (181) and of y with diaeresis (255)
    are the code points 924 and 376, which a [string] cannot hold: [upper]
    leaves these two in place, and [upper_in_range] tells whether a string
    is free of them, that is, whether [upper] is [s.upper()] on it. *)

Definition lower_char (c : ascii) : ascii :=
  let n := nat_of_ascii c in
  if ((65 <=? n) && (n <=? 90)
      || (192 <=? n) && (n <=? 222) && negb (n =? 215))%nat
  then ascii_of_nat (n + 32) else c.

Definition upper_char (c : ascii) : string :=
  let n := nat_of_ascii c in
  if (n =? 223)%nat then "SS"
  else if ((97 <=? n) && (n <=? 122)
           || (224 <=? n) && (n <=? 254) && negb (n =? 247))%nat
  then String (ascii_of_nat (n - 32)) EmptyString
  else String c EmptyString.

Fixpoint map_chars (f : ascii -> ascii) (s : string) : string :=
  match s with
  | String c s' => String (f c) (map_chars f s')
  | EmptyString => EmptyString
  end.

(** [s.lower()] *)
Definition lower : string -> string := map_chars lower_char.

(** [s.upper()] *)
Fixpoint upper (s : string) : string :=
  match s with
  | String c s' => upper_char c ++ upper s'
  | EmptyString => EmptyString
  end.

Fixpoint upper_in_range (s : string) : bool :=
  match s with
  | String c s' =>
      negb ((nat_of_ascii c =? 181) || (nat_of_ascii c =? 255))%nat
      && upper_in_range s'
  | EmptyString => true
  end.

(** ** Substring occurrence: [needle in hay] *)

Fixpoint occurs_in (needle hay : string) : bool :=
  String.prefix needle hay ||
  match hay with
  | String _ hay' => occurs_in needle hay'
  | EmptyString => false
  end.

(** ** [str(n)] for an [int] *)

Definition str_of_int (n : Z) : string :=
  NilZero.string_of_int (Z.to_int n).

(** ** [repr(s)] for a [str]

    The quote is the apostrophe, unless the string holds an apostrophe and
    no double quote.  The quote and the backslash are escaped with a
    backslash; tab, line feed and carriage return are written [\t], [\n],
    [\r]; every other character that is not printable is written [\xhh]
    with two lower-case hexadecimal digits. *)

Definition apostrophe : ascii := ascii_of_nat 39.
Definition double_quote : ascii := ascii_of_nat 34.
Definition backslash : ascii := ascii_of_nat 92.

(** [c.isprintable()] on code points below 256 *)
Definition isprintable (c : ascii) : bool :=
  let n := nat_of_ascii c in
  ((32 <=? n) && (n <=? 126) || (161 <=? n) && negb (n =? 173))%nat.

Definition hex_digit (n : nat) : ascii :=
  ascii_of_nat (if (n <? 10)%nat then 48 + n else 87 + n).

Definition repr_char (quote c : ascii) : string :=
  let n := nat_of_ascii c in
  if (Ascii.eqb c quote || Ascii.eqb c backslash)%char then
    String backslash (String c EmptyString)
  else if (n =? 9)%nat then String backslash "t"
  else if (n =? 10)%nat then String backslash "n"
  else if (n =? 13)%nat then String backslash "r"
  else if isprintable c then String c EmptyString
  else String backslash
         (String "x" (String (hex_digit (n / 16))
                        (String (hex_digit (n mod 16)) EmptyString))).

Fixpoint repr_chars (quote : ascii) (s : string) : string :=
  match s with
  | String c s' => repr_char quote c ++ repr_chars quote s'
  | EmptyString => EmptyString
  end.

Definition repr (s : string) : string :=
  let quote :=
    if mem_char apostrophe s && negb (mem_char double_quote s)
    then double_quote else apostrophe in
  String quote (repr_chars quote s ++ String quote EmptyString).

(** ** [int(s, base)] for [base] 10 and 16

    The literal is stripped of whitespace, may carry one sign, for base 16
    may carry a [0x]/[0X] prefix (followed by at most one underscore), and
    then is a non-empty run of digits in which single underscores may
    separate digits.  [None] stands for the [ValueError]. *)

Definition digit_value (c : ascii) : option Z :=
  let n := nat_of_ascii c in
  if ((48 <=? n) && (n <=? 57))%nat then Some (Z.of_nat (n - 48))
  else if ((97 <=? n) && (n <=? 122))%nat then Some (Z.of_nat (n - 87))
  else if ((65 <=? n) && (n <=? 90))%nat then Some (Z.of_nat (n - 55))
  else None.

(** Scans the digits; [prev_us] tells whether the previous character was an
    underscore, [seen] whether a digit has been read. *)
Fixpoint scan_digits (base : Z) (acc : Z) (prev_us seen : bool) (s : string)
  : option Z :=
  match s with
  | EmptyString => if seen && negb prev_us then Some acc else None
  | String c s' =>
      if Ascii.eqb c "_" then
        if prev_us then None else scan_digits base acc true seen s'
      else
        match digit_value c with
        | Some d =>
            if d <? base then scan_digits base (acc * base + d) false true s'
            else None
        | None => None
        end
  end.

Definition skip_base_prefix (base : Z) (s : string) : string :=
  match s with
  | String "0" (String x rest) =>
      if (base =? 16) && (Ascii.eqb x "x" || Ascii.eqb x "X")%char then
        match rest with
        | String "_" rest' => rest'
        | _ => rest
        end
      else s
  | _ => s
  end.

Definition parse_int (base : Z) (s : string) : option Z :=
  let t := strip s in
  let '(neg, t1) :=
    match t with
    | String "-" r => (true, r)
    | String "+" r => (false, r)
    | _ => (false, t)
    end in
  let t2 := skip_base_prefix base t1 in
  match t2 with
  | String "_" _ => None
  | _ =>
      match scan_digits base 0 false false t2 with
      | Some v => Some (if neg then - v else v)
      | None => None
      end
  end.

End Py.

(* ================================================================== *)
(** * The outside world and the harness monad *)
(* ================================================================== *)

(** Python exceptions that the harness can meet.  [TimeoutExpired] is
    [subprocess.TimeoutExpired]; [OtherException] covers every other subclass
    of [Exception], named by its class. *)
Inductive exn : Type :=
| TimeoutExpired
| ValueError (msg : string)
| OverflowError (msg : string)
| OSError (msg : string)
| OtherException (class msg : string).

(** [str(e)] *)
Definition exn_str (e : exn) : string :=
  match e with
  | TimeoutExpired => "Command timed out"
  | ValueError msg | OverflowError msg | OSError msg => msg
  | OtherException _ msg => msg
  end.

(** What one [subprocess.run(..., capture_output=True, text=True)] does. *)
Inductive proc_outcome : Type :=
| Completed (returncode : Z) (stdout stderr : string)
| Raised (e : exn).

(** The answer of the outside world to one subprocess invocation: how long it
    took (milliseconds) and how it ended. *)
Record reply : Type := Reply { elapsed : N; outcome : proc_outcome }.

Inductive level : Type := DEBUG | INFO | WARNING | ERROR.

(** Observable state: the wall clock in milliseconds, the commands handed to
    [subprocess.run] so far, and the logger calls so far (both oldest
    first). *)
Record world : Type := World {
  clock : Z;
  trace : list (list string);
  log : list (level * string)
}.

(** The result of running a piece of the harness: a value, a raised Python
    exception, or [OutOfFuel] when the bounded unrolling of a loop was too
    short.  [OutOfFuel] is not a Python exception and no handler catches
    it. *)
Inductive res (A : Type) : Type :=
| Ok (a : A)
| Raise (e : exn)
| OutOfFuel.
Arguments Ok {A} a.
Arguments Raise {A} e.
Arguments OutOfFuel {A}.

Definition M (A : Type) : Type := world -> res A * world.

Definition ret {A} (a : A) : M A := fun w => (Ok a, w).

Definition raise {A} (e : exn) : M A := fun w => (Raise e, w).

Definition bind {A B} (m : M A) (k : A -> M B) : M B :=
  fun w =>
    match m w with
    | (Ok a, w') => k a w'
    | (Raise e, w') => (Raise e, w')
    | (OutOfFuel, w') => (OutOfFuel, w')
    end.

(** [try: m  except Exception as e: handler e] *)
Definition try_except {A} (m : M A) (handler : exn -> M A) : M A :=
  fun w =>
    match m w with
    | (Raise e, w') => handler e w'
    | r => r
    end.

(** [returns m]: [m] ends with a value from every world.  [settles m]: [m]
    ends with a value or a raised exception from every world, so its loops
    were unrolled far enough. *)
Definition returns {A} (m : M A) : Prop :=
  forall w, exists a w', m w = (Ok a, w').

Definition settles {A} (m : M A) : Prop :=
  forall w, fst (m w) <> OutOfFuel.

Declare Scope harness_scope.
Delimit Scope harness_scope with harness.
Notation "x <- m ;; k" := (bind m (fun x => k))
  (at level 61, m at next level, right associativity) : harness_scope.
Notation "m ;; k" := (bind m (fun _ => k))
  (at level 61, right associativity) : harness_scope.
Local Open Scope harness_scope.

(** The world after one more logger call. *)
Definition add_log (w : world) (lvl : level) (msg : string) : world :=
  World (clock w) (trace w) (log w ++ [(lvl, msg)]).

(** [logger.<lvl>(msg)] *)
Definition logger (lvl : level) (msg : string) : M unit :=
  fun w => (Ok tt, add_log w lvl msg).

(** [time.time()], in milliseconds *)
Definition time_time : M Z := fun w => (Ok (clock w), w).

(** The world [secs] seconds later. *)
Definition pass_time (w : world) (secs : Z) : world :=
  World (clock w + 1000 * secs) (trace w) (log w).

(** [time.sleep(secs)] *)
Definition time_sleep (secs : Z) : M unit :=
  fun w => (Ok tt, pass_time w secs).

(** [int(s, base)], raising [ValueError] on a malformed literal; the
    message shows at most 200 characters of [repr(s)]. *)
Definition py_int (base : Z) (s : string) : M Z :=
  match Py.parse_int base s with
  | Some v => ret v
  | None =>
      raise (ValueError ("invalid literal for int() with base "
                           ++ Py.str_of_int base ++ ": "
                           ++ Py.take 200 (Py.repr s)))
  end.

(** Arithmetic that the source does in floating point.  The harness only
    prints or forwards these values, so they are taken as given:
    [true_div_1e6 n] renders [n / 10**6], [fixed6_div_1e6 n] renders
    [n / 10**6] with format [.6f], [int_mul_095 n] is [int(n * 0.95)].  The
    first two are [None] when the quotient is too large for a float, the
    third when [n] is, where Python raises [OverflowError]. *)
Record float_ops : Type := FloatOps {
  true_div_1e6 : Z -> option string;
  fixed6_div_1e6 : Z -> option string;
  int_mul_095 : Z -> option Z
}.

(** An [int] brought into a float operation, as in [n * 0.95]. *)
Definition float_result {A} (r : option A) : M A :=
  match r with
  | Some a => ret a
  | None => raise (OverflowError "int too large to convert to float")
  end.

(** The true division of two [int]s, as in [n / 10**6]. *)
Definition true_division {A} (r : option A) : M A :=
  match r with
  | Some a => ret a
  | None => raise (OverflowError "integer division result too large for a float")
  end.

(** The dataclasses of [sepolia_test.py]. *)
Record ContractAddresses : Type := mkContractAddresses {
  factory : string;
  usdc : string
}.

Module TestConfig.
Record t : Type := mk {
  rpc_url : string;
  creator_private_key : string;
  donor_private_key : string;
  addresses : ContractAddresses;
  funding_goal : Z;
  campaign_duration : Z;
  min_contribution : Z
}.
End TestConfig.

Section Harness.

(** The outside world: the reply to the [n]-th subprocess invocation, given
    the command line. *)
Variable chain : nat -> list string -> reply.

Variable fl : float_ops.

(** [subprocess.run(cmd, capture_output=True, text=True, timeout=...)] *)
Definition subprocess_run (cmd : list string) : M (Z * string * string) :=
  fun w =>
    let r := chain (List.length (trace w)) cmd in
    let w' := World (clock w + Z.of_N (elapsed r)) (trace w ++ [cmd]) (log w) in
    match outcome r with
    | Completed rc out err => (Ok (rc, out, err), w')
    | Raised e => (Raise e, w')
    end.

(* ================================================================ *)
(** * cast_interactor.py *)
(* ================================================================ *)

Record CastInteractor : Type := mkCastInteractor {
  rpc_url : string;
  private_key : string
}.

(** The command line assembled by [run_cast_command] (source lines
    30-35). *)
Definition assemble_command (self : CastInteractor) (command : list string)
  : list string :=
  let full_command :=
    (["cast"] ++ command ++ ["--rpc-url"; rpc_url self])%list in
  if existsb (fun cmd => Py.contains_token cmd command) ["send"; "call"] then
    if Py.contains_token "send" command then
      (full_command ++ ["--private-key"; private_key self])%list
    else full_command
  else full_command.

(** What [run_cast_command] returns and what it logs, by the way the
    subprocess ended; [shown] is the part of the command line that is
    logged. *)
Definition executor_result (o : proc_outcome) : option string :=
  match o with
  | Completed returncode stdout _ =>
      if negb (returncode =? 0) then None else Some (Py.strip stdout)
  | Raised _ => None
  end.

Definition executor_log (caller : string) (shown : list string)
    (o : proc_outcome) : list (level * string) :=
  [(DEBUG, "[" ++ caller ++ "] Executing: " ++ Py.join " " shown ++ " ...");
   match o with
   | Completed returncode stdout stderr =>
       if negb (returncode =? 0) then
         (ERROR, "[" ++ caller ++ "] Cast command failed: " ++ stderr)
       else (DEBUG, "[" ++ caller ++ "] Cast result: " ++ Py.strip stdout)
   | Raised TimeoutExpired =>
       (ERROR, "[" ++ caller ++ "] Cast command timed out")
   | Raised e =>
       (ERROR, "[" ++ caller ++ "] Error executing cast command: " ++ exn_str e)
   end].

(** [run_cast_command].  [caller] is the text [filename:line_number] of the
    calling frame, which the source reads with [inspect]; the unused
    [decode_output] flag is left out. *)
Definition run_cast_command (self : CastInteractor) (caller : string)
    (command : list string) : M (option string) :=
  let full_command := assemble_command self command in
  try_except
    (logger DEBUG ("[" ++ caller ++ "] Executing: "
                     ++ Py.join " " (firstn 3 full_command) ++ " ...") ;;
     result <- subprocess_run full_command ;;
     let '(returncode, stdout, stderr) := result in
     if negb (returncode =? 0) then
       logger ERROR ("[" ++ caller ++ "] Cast command failed: " ++ stderr) ;;
       ret None
     else
       let output := Py.strip stdout in
       logger DEBUG ("[" ++ caller ++ "] Cast result: " ++ output) ;;
       ret (Some output))
    (fun e =>
       match e with
       | TimeoutExpired =>
           logger ERROR ("[" ++ caller ++ "] Cast command timed out") ;;
           ret None
       | _ =>
           logger ERROR ("[" ++ caller ++ "] Error executing cast command: "
                           ++ exn_str e) ;;
           ret None
       end).

(** [get_balance] *)
Definition get_balance (self : CastInteractor) (token_address account : string)
  : M Z :=
  result <- run_cast_command self "cast_interactor.py:58"
              ["call"; token_address; "balanceOf(address)(uint256)"; account] ;;
  match result with
  | Some r => if Py.truthy r then py_int 16 r else ret 0
  | None => ret 0
  end.

(** [approve_token] *)
Definition approve_token (self : CastInteractor) (token_address spender : string)
    (amount : Z) : M bool :=
  result <- run_cast_command self "cast_interactor.py:66"
              ["send"; token_address; "approve(address,uint256)"; spender;
               Py.str_of_int amount] ;;
  ret (match result with Some _ => true | None => false end).

(** The canonicalization that [get_campaign_address] applies to the
    executor's result (source lines 97-107). *)
Definition canonical_address (result : option string) : option string :=
  match result with
  | Some r =>
      if Py.truthy r && Py.startswith "0x" r then
        let hex_part := Py.drop 2 r in
        let hex_part :=
          if (40 <? String.length hex_part)%nat then Py.last_n 40 hex_part
          else if (String.length hex_part <? 40)%nat then Py.zfill 40 hex_part
          else hex_part in
        Some ("0x" ++ hex_part)
      else result
  | None => result
  end.

(** [get_campaign_address] *)
Definition get_campaign_address (self : CastInteractor) (factory_address : string)
    (campaign_id : Z) : M (option string) :=
  result <- run_cast_command self "cast_interactor.py:92"
              ["call"; factory_address; "getCampaignAddress(uint256)";
               Py.str_of_int campaign_id] ;;
  ret (canonical_address result).

(** [get_account_address]: no RPC flag, its own subprocess call. *)
Definition get_account_address (self : CastInteractor) : M (option string) :=
  let full_command := ["cast"; "wallet"; "address"; private_key self] in
  try_except
    (logger DEBUG "Executing: cast wallet address ..." ;;
     result <- subprocess_run full_command ;;
     let '(returncode, stdout, stderr) := result in
     if negb (returncode =? 0) then
       logger ERROR ("Cast wallet command failed: " ++ stderr) ;;
       ret None
     else
       let output := Py.strip stdout in
       logger DEBUG ("Account address: " ++ output) ;;
       ret (Some output))
    (fun e =>
       match e with
       | TimeoutExpired =>
           logger ERROR "Cast wallet command timed out" ;; ret None
       | _ =>
           logger ERROR ("Error executing cast wallet command: " ++ exn_str e) ;;
           ret None
       end).

(* ================================================================ *)
(** * uniswap_helper.py *)
(* ================================================================ *)

Definition ROUTER_ADDRESS : string := "0xeE567Fe1712Faf6149d80dA1E6934E354124CfE3".
Definition FACTORY_ADDRESS : string := "0xF62c03E08ada871A0bEb309762E260a7a6a880E6".

Record UniswapV2Helper : Type := mkUniswapV2Helper { cast : CastInteractor }.

Definition ZERO_ADDRESS : string := "0x0000000000000000000000000000000000000000".

(** What [get_pair_address] makes of the executor's result (source lines
    32-36). *)
Definition pair_address_of (result : option string) : option string :=
  match result with
  | Some r =>
      if Py.truthy r && negb (String.eqb r ZERO_ADDRESS) then
        let clean_addr := Py.zfill 40 (Py.drop 2 r) in
        Some ("0x" ++ clean_addr)
      else None
  | None => None
  end.

(** [get_pair_address] *)
Definition get_pair_address (self : UniswapV2Helper) (token_a token_b : string)
  : M (option string) :=
  result <- run_cast_command (cast self) "uniswap_helper.py:27"
              ["call"; FACTORY_ADDRESS; "getPair(address,address)(address)";
               token_a; token_b] ;;
  ret (pair_address_of result).

(** [get_reserves] *)
Definition get_reserves (self : UniswapV2Helper) (pair_address : string)
  : M (option (Z * Z)) :=
  result <- run_cast_command (cast self) "uniswap_helper.py:40"
              ["call"; pair_address; "getReserves()(uint112,uint112,uint32)"] ;;
  match result with
  | Some r =>
      if negb (Py.truthy r) then ret None
      else
        try_except
          (match Py.split "," (Py.strip_chars "()" r) with
           | p0 :: p1 :: _ =>
               reserve0 <- py_int 16 (Py.strip p0) ;;
               reserve1 <- py_int 16 (Py.strip p1) ;;
               ret (Some (reserve0, reserve1))
           | _ => ret None
           end)
          (fun e =>
             logger ERROR ("Error parsing reserves: " ++ exn_str e) ;;
             ret None)
  | None => ret None
  end.

(** [get_amount_out]; [//] is floor division, as is [Z.div]. *)
Definition get_amount_out (amount_in reserve_in reserve_out : Z) : Z :=
  if (reserve_in =? 0) || (reserve_out =? 0) then 0
  else
    let amount_in_with_fee := amount_in * 997 in
    let numerator := amount_in_with_fee * reserve_out in
    let denominator := reserve_in * 1000 + amount_in_with_fee in
    if 0 <? denominator then numerator / denominator else 0.

(** [swap_tokens_for_usdc] *)
Definition swap_tokens_for_usdc (self : UniswapV2Helper)
    (token_address usdc_address : string) (token_amount min_usdc_out : Z)
  : M bool :=
  logger INFO ("Swapping " ++ Py.str_of_int token_amount ++ " tokens for USDC") ;;
  approved <- approve_token (cast self) token_address ROUTER_ADDRESS token_amount ;;
  if negb approved then
    logger ERROR "Failed to approve token spending for router" ;;
    ret false
  else
    account_result <- run_cast_command (cast self) "uniswap_helper.py:84"
                        ["wallet"; "address"; private_key (cast self)] ;;
    match account_result with
    | Some account =>
        if negb (Py.truthy account) then
          logger ERROR "Failed to get account address" ;; ret false
        else
          let account_address := Py.strip account in
          now <- time_time ;;
          let deadline := Z.quot now 1000 + 600 in
          result <- run_cast_command (cast self) "uniswap_helper.py:99"
                      ["send"; ROUTER_ADDRESS;
                       "swapExactTokensForTokens(uint256,uint256,address[],address,uint256)";
                       Py.str_of_int token_amount;
                       Py.str_of_int min_usdc_out;
                       "[" ++ token_address ++ "," ++ usdc_address ++ "]";
                       account_address;
                       Py.str_of_int deadline] ;;
          match result with
          | Some r =>
              if Py.truthy r then
                logger INFO ("Token swap successful: " ++ r) ;; ret true
              else logger ERROR "Token swap failed" ;; ret false
          | None => logger ERROR "Token swap failed" ;; ret false
          end
    | None => logger ERROR "Failed to get account address" ;; ret false
    end.

(** [test_token_swap]: the whole body sits in one [try]. *)
Definition test_token_swap (self : UniswapV2Helper)
    (campaign_token_address usdc_address : string) (swap_amount : Z) : M bool :=
  logger INFO "Testing token swap functionality" ;;
  try_except
    (pair <- get_pair_address self campaign_token_address usdc_address ;;
     match pair with
     | None => logger ERROR "No Uniswap pair found for campaign token" ;; ret false
     | Some pair_address =>
       if negb (Py.truthy pair_address) then
         logger ERROR "No Uniswap pair found for campaign token" ;; ret false
       else
         logger INFO ("Found Uniswap pair at: " ++ pair_address) ;;
         reserves <- get_reserves self pair_address ;;
         match reserves with
         | None => logger ERROR "Could not get pair reserves" ;; ret false
         | Some (reserve0, reserve1) =>
           logger INFO ("Pair reserves: " ++ Py.str_of_int reserve0 ++ ", "
                          ++ Py.str_of_int reserve1) ;;
           if (reserve0 =? 0) || (reserve1 =? 0) then
             logger ERROR "Pair has no liquidity" ;; ret false
           else
             token0_result <- run_cast_command (cast self) "uniswap_helper.py:183"
                                ["call"; pair_address; "token0()(address)"] ;;
             match token0_result with
             | None => logger ERROR "Could not get token0 address" ;; ret false
             | Some token0_text =>
             if negb (Py.truthy token0_text) then
               logger ERROR "Could not get token0 address" ;; ret false
             else
               let token0 := Py.lower token0_text in
               let is_token0_campaign_token :=
                 String.eqb (Py.lower campaign_token_address) token0 in
               let '(token_reserve, usdc_reserve) :=
                 if is_token0_campaign_token then (reserve0, reserve1)
                 else (reserve1, reserve0) in
               let expected_usdc_out :=
                 get_amount_out swap_amount token_reserve usdc_reserve in
               min_usdc_out <- float_result (int_mul_095 fl expected_usdc_out) ;;
               expected_txt <- true_division (fixed6_div_1e6 fl expected_usdc_out) ;;
               logger INFO ("Expected USDC out: " ++ expected_txt ++ " USDC") ;;
               minimum_txt <- true_division (fixed6_div_1e6 fl min_usdc_out) ;;
               logger INFO ("Minimum USDC out: " ++ minimum_txt ++ " USDC") ;;
               swap_tokens_for_usdc self campaign_token_address usdc_address
                 swap_amount min_usdc_out
             end
         end
     end)
    (fun e =>
       logger ERROR ("Token swap test failed: " ++ exn_str e) ;;
       ret false).

(* ================================================================ *)
(** * sepolia_test.py *)
(* ================================================================ *)

Record SepoliaTestSuite : Type := mkSepoliaTestSuite {
  config : TestConfig.t;
  creator_cast : CastInteractor;
  donor_cast : CastInteractor;
  uniswap : UniswapV2Helper
}.

(** [create_campaign] *)
Definition create_campaign (self : SepoliaTestSuite) (name : string)
    (liquidity_percentage : Z) : M (option (Z * string)) :=
  let cfg := config self in
  let factory_address := factory (TestConfig.addresses cfg) in
  logger INFO ("Creating campaign: " ++ name ++ " with "
                 ++ Py.str_of_int liquidity_percentage ++ "% liquidity") ;;
  result <- run_cast_command (creator_cast self) "sepolia_test.py:93"
              ["send"; factory_address;
               "createCampaign(string,string,uint256,uint256,uint256,uint256,string,string)";
               name;
               "ipfs://test-metadata";
               Py.str_of_int (TestConfig.funding_goal cfg);
               Py.str_of_int (TestConfig.campaign_duration cfg);
               "25";
               Py.str_of_int liquidity_percentage;
               name ++ " Token";
               Py.upper (Py.take 4 name)] ;;
  match result with
  | None => logger ERROR "Failed to create campaign" ;; ret None
  | Some tx =>
    if negb (Py.truthy tx) then
      logger ERROR "Failed to create campaign" ;; ret None
    else
      logger INFO ("Campaign creation transaction: " ++ tx) ;;
      time_sleep 10 ;;
      campaign_count_result <-
        run_cast_command (creator_cast self) "sepolia_test.py:115"
          ["call"; factory_address; "getCampaignCount()(uint256)"] ;;
      match campaign_count_result with
      | None => logger ERROR "Failed to get campaign count" ;; ret None
      | Some count =>
        if negb (Py.truthy count) then
          logger ERROR "Failed to get campaign count" ;; ret None
        else
          n <- py_int 10 count ;;
          let campaign_id := n - 1 in
          campaign_address <-
            get_campaign_address (creator_cast self) factory_address campaign_id ;;
          match campaign_address with
          | None => logger ERROR "Failed to get campaign address" ;; ret None
          | Some address =>
            if negb (Py.truthy address) then
              logger ERROR "Failed to get campaign address" ;; ret None
            else
              logger INFO ("Campaign created - ID: " ++ Py.str_of_int campaign_id
                             ++ ", Address: " ++ address) ;;
              ret (Some (campaign_id, address))
          end
      end
  end.

(** A signed transaction whose only outcome of interest is whether the
    executor returned text: the shape shared by [contribute],
    [claim_tokens], [withdraw_funds], [create_liquidity_pool] and
    [refund_contribution] after their own logging. *)
Definition report (result : option string) (ok_prefix failed : string) : M bool :=
  match result with
  | Some r =>
      if Py.truthy r then logger INFO (ok_prefix ++ r) ;; ret true
      else logger ERROR failed ;; ret false
  | None => logger ERROR failed ;; ret false
  end.

(** [contribute_to_campaign] *)
Definition contribute_to_campaign (self : SepoliaTestSuite)
    (campaign_address : string) (amount : Z) : M bool :=
  shown <- true_division (true_div_1e6 fl amount) ;;
  logger INFO ("Contributing " ++ shown ++ " USDC to campaign at "
                 ++ campaign_address) ;;
  approved <- approve_token (donor_cast self)
                (usdc (TestConfig.addresses (config self))) campaign_address amount ;;
  if negb approved then
    logger ERROR "Failed to approve USDC spending" ;; ret false
  else
    time_sleep 5 ;;
    result <- run_cast_command (donor_cast self) "sepolia_test.py:146"
                ["send"; campaign_address; "contribute(uint256)";
                 Py.str_of_int amount] ;;
    report result "Contribution successful: " "Contribution failed".

(** The first half of a pass through the polling loop of
    [wait_for_campaign_end] (source lines 164-178): the state refresh and
    the state read, whose result it returns. *)
Definition refresh_and_read (self : SepoliaTestSuite) (campaign_address : string)
  : M (option string) :=
  update_result <- run_cast_command (creator_cast self) "sepolia_test.py:165"
                     ["send"; campaign_address; "updateCampaignState()"] ;;
  match update_result with
  | Some u =>
      if Py.truthy u then
        logger DEBUG ("Campaign state updated: " ++ u) ;;
        time_sleep 5
      else ret tt
  | None => ret tt
  end ;;
  run_cast_command (creator_cast self) "sepolia_test.py:175"
    ["call"; campaign_address; "getCampaignState()(uint8)"].

(** The second half (source lines 180-193): [Some b] when the loop body
    returns [b], [None] when the loop goes round again. *)
Definition on_state (state_result : option string) : M (option bool) :=
  let fall_through := time_sleep 10 ;; ret None in
  match state_result with
  | Some text =>
      if Py.truthy text then
        state <- py_int 16 text ;;
        if state =? 0 then
          logger INFO "Campaign still active, waiting..." ;;
          time_sleep 10 ;;
          ret None
        else if state =? 1 then
          logger INFO "Campaign succeeded!" ;;
          ret (Some true)
        else if state =? 2 then
          logger INFO "Campaign failed!" ;;
          ret (Some false)
        else fall_through
      else fall_through
  | None => fall_through
  end.

Definition poll_once (self : SepoliaTestSuite) (campaign_address : string)
  : M (option bool) :=
  state_result <- refresh_and_read self campaign_address ;;
  on_state state_result.

(** The [while] loop of [wait_for_campaign_end], unrolled at most [fuel]
    times.  [max_wait] is in seconds, the clock in milliseconds. *)
Fixpoint wait_loop (fuel : nat) (self : SepoliaTestSuite)
    (campaign_address : string) (start_time max_wait : Z) : M bool :=
  now <- time_time ;;
  if now - start_time <? 1000 * max_wait then
    match fuel with
    | O => fun w => (OutOfFuel, w)
    | S fuel' =>
        verdict <- poll_once self campaign_address ;;
        match verdict with
        | Some b => ret b
        | None => wait_loop fuel' self campaign_address start_time max_wait
        end
    end
  else
    logger WARNING "Timeout waiting for campaign to end" ;;
    ret false.

(** Every pass that goes round again sleeps ten seconds, so the loop body
    runs at most [max_wait / 10 + 1] times. *)
Definition wait_fuel (max_wait : Z) : nat := Z.to_nat (max_wait / 10 + 1).

(** [wait_for_campaign_end] *)
Definition wait_for_campaign_end (self : SepoliaTestSuite)
    (campaign_address : string) (max_wait : Z) : M bool :=
  logger INFO "Waiting for campaign to end..." ;;
  start_time <- time_time ;;
  wait_loop (wait_fuel max_wait) self campaign_address start_time max_wait.

(** The command line of the state read of [wait_for_campaign_end]. *)
Definition state_read_command (self : SepoliaTestSuite)
    (campaign_address : string) : list string :=
  assemble_command (creator_cast self)
    ["call"; campaign_address; "getCampaignState()(uint8)"].

(** A reply to the state read that fails, is empty, or reads as state 0. *)
Definition reads_active_or_fails (r : reply) : bool :=
  match executor_result (outcome r) with
  | None => true
  | Some text =>
      negb (Py.truthy text)
      || match Py.parse_int 16 text with
         | Some state => state =? 0
         | None => false
         end
  end.

(** [fuel] passes are enough to reach the end of the window from [w]. *)
Definition enough_fuel (fuel : nat) (start_time max_wait : Z) (w : world) : Prop :=
  1000 * max_wait - (clock w - start_time) <= 10000 * Z.of_nat fuel.

(** The default of the [max_wait] parameter. *)
Definition default_max_wait : Z := 150.

(** [claim_tokens] *)
Definition claim_tokens (self : SepoliaTestSuite) (campaign_address : string)
  : M bool :=
  logger INFO "Claiming tokens from campaign" ;;
  result <- run_cast_command (donor_cast self) "sepolia_test.py:202"
              ["send"; campaign_address; "claimTokens()"] ;;
  report result "Token claim successful: " "Token claim failed".

(** [withdraw_funds] *)
Definition withdraw_funds (self : SepoliaTestSuite) (campaign_address : string)
  : M bool :=
  logger INFO "Withdrawing funds from campaign" ;;
  result <- run_cast_command (creator_cast self) "sepolia_test.py:218"
              ["send"; campaign_address; "withdrawFunds()"] ;;
  report result "Fund withdrawal successful: " "Fund withdrawal failed".

(** [create_liquidity_pool] *)
Definition create_liquidity_pool (self : SepoliaTestSuite)
    (campaign_address : string) : M bool :=
  logger INFO "Creating liquidity pool" ;;
  result <- run_cast_command (creator_cast self) "sepolia_test.py:234"
              ["send"; campaign_address; "createLiquidityPool()"] ;;
  report result "Liquidity pool creation successful: "
    "Liquidity pool creation failed".

(** [refund_contribution] *)
Definition refund_contribution (self : SepoliaTestSuite)
    (campaign_address : string) : M bool :=
  logger INFO "Requesting refund from failed campaign" ;;
  result <- run_cast_command (donor_cast self) "sepolia_test.py:250"
              ["send"; campaign_address; "refund()"] ;;
  report result "Refund successful: " "Refund failed".

(** The 40-digit formatting that [get_campaign_token_address] applies to
    the ninth field (source lines 279-288). *)
Definition canonical_token_address (token_addr : string) : option string :=
  if Py.startswith "0x" token_addr then
    let hex_part := Py.drop 2 token_addr in
    let hex_part :=
      if (40 <? String.length hex_part)%nat then Py.last_n 40 hex_part
      else if (String.length hex_part <? 40)%nat then Py.zfill 40 hex_part
      else hex_part in
    Some ("0x" ++ hex_part)
  else None.

(** [get_campaign_token_address] *)
Definition get_campaign_token_address (self : SepoliaTestSuite)
    (campaign_id : Z) : M (option string) :=
  result <- run_cast_command (creator_cast self) "sepolia_test.py:264"
              ["call"; factory (TestConfig.addresses (config self));
               "getCampaign(uint256)"; Py.str_of_int campaign_id] ;;
  match result with
  | None => ret None
  | Some r =>
    if negb (Py.truthy r) then ret None
    else
      try_except
        (let parts := Py.split "," (Py.strip_chars "()" r) in
         match nth_error parts 8 with
         | Some field => ret (canonical_token_address (Py.strip field))
         | None => ret None
         end)
        (fun e =>
           logger ERROR ("Error parsing token address: " ++ exn_str e) ;;
           ret None)
  end.

(** [test_scenario_1_success_no_liquidity] *)
Definition test_scenario_1_success_no_liquidity (self : SepoliaTestSuite)
  : M bool :=
  logger INFO "=== TEST SCENARIO 1: Success with 0% liquidity ===" ;;
  try_except
    (result <- create_campaign self "Test Campaign 1" 0 ;;
     match result with
     | None => ret false
     | Some (_, campaign_address) =>
       contributed <- contribute_to_campaign self campaign_address
                        (TestConfig.funding_goal (config self)) ;;
       if negb contributed then ret false else
       ended <- wait_for_campaign_end self campaign_address default_max_wait ;;
       if negb ended then ret false else
       claimed <- claim_tokens self campaign_address ;;
       if negb claimed then ret false else
       withdrawn <- withdraw_funds self campaign_address ;;
       if negb withdrawn then ret false else
       logger INFO "✅ Scenario 1 completed successfully!" ;;
       ret true
     end)
    (fun e =>
       logger ERROR ("❌ Scenario 1 failed: " ++ exn_str e) ;;
       ret false).

(** The best-effort swap probe of scenario 2 (source lines 362-392), run
    once the tokens are claimed. *)
Definition swap_probe (self : SepoliaTestSuite) (campaign_token_address : string)
  : M bool :=
  logger INFO "Testing token swap functionality..." ;;
  time_sleep 10 ;;
  donor_address <- get_account_address (donor_cast self) ;;
  match donor_address with
  | None => logger ERROR "Failed to get donor account address" ;; ret false
  | Some donor =>
    if negb (Py.truthy donor) then
      logger ERROR "Failed to get donor account address" ;; ret false
    else
      token_balance <- get_balance (donor_cast self) campaign_token_address donor ;;
      (if 0 <? token_balance then
         let swap_amount := token_balance / 10 in
         if 0 <? swap_amount then
           success <- test_token_swap (uniswap self) campaign_token_address
                        (usdc (TestConfig.addresses (config self))) swap_amount ;;
           if success then logger INFO "✅ Token swap test successful!"
           else logger WARNING "⚠️ Token swap test failed, but campaign succeeded"
         else logger WARNING "Token balance too small for swap test"
       else logger WARNING "No tokens received for swap test") ;;
      logger INFO "✅ Scenario 2 completed successfully!" ;;
      ret true
  end.

(** The lifecycle of scenario 2 through "claim tokens" (source lines
    333-360): [Some token] when every step succeeded, with the campaign's
    token address. *)
Definition lifecycle_2 (self : SepoliaTestSuite) : M (option string) :=
  result <- create_campaign self "Test Campaign 2" 50 ;;
  match result with
  | None => ret None
  | Some (campaign_id, campaign_address) =>
    contributed <- contribute_to_campaign self campaign_address
                     (TestConfig.funding_goal (config self)) ;;
    if negb contributed then ret None else
    ended <- wait_for_campaign_end self campaign_address default_max_wait ;;
    if negb ended then ret None else
    pooled <- create_liquidity_pool self campaign_address ;;
    if negb pooled then ret None else
    campaign_token_address <- get_campaign_token_address self campaign_id ;;
    match campaign_token_address with
    | None => logger ERROR "Failed to get campaign token address" ;; ret None
    | Some token =>
      if negb (Py.truthy token) then
        logger ERROR "Failed to get campaign token address" ;; ret None
      else
        claimed <- claim_tokens self campaign_address ;;
        if negb claimed then ret None else ret (Some token)
    end
  end.

(** [test_scenario_2_success_with_liquidity] *)
Definition test_scenario_2_success_with_liquidity (self : SepoliaTestSuite)
  : M bool :=
  logger INFO "=== TEST SCENARIO 2: Success with 50% liquidity ===" ;;
  try_except
    (reached <- lifecycle_2 self ;;
     match reached with
     | None => ret false
     | Some campaign_token_address => swap_probe self campaign_token_address
     end)
    (fun e =>
       logger ERROR ("❌ Scenario 2 failed: " ++ exn_str e) ;;
       ret false).

(** [test_scenario_3_failure_and_refund] *)
Definition test_scenario_3_failure_and_refund (self : SepoliaTestSuite)
  : M bool :=
  logger INFO "=== TEST SCENARIO 3: Campaign failure and refund ===" ;;
  try_except
    (result <- create_campaign self "Test Campaign 3" 0 ;;
     match result with
     | None => ret false
     | Some (_, campaign_address) =>
       let partial_amount := TestConfig.funding_goal (config self) / 2 in
       contributed <- contribute_to_campaign self campaign_address partial_amount ;;
       if negb contributed then ret false else
       ended <- wait_for_campaign_end self campaign_address default_max_wait ;;
       if negb ended then ret false else
       refunded <- refund_contribution self campaign_address ;;
       if negb refunded then ret false else
       logger INFO "✅ Scenario 3 completed successfully!" ;;
       ret true
     end)
    (fun e =>
       logger ERROR ("❌ Scenario 3 failed: " ++ exn_str e) ;;
       ret false).

End Harness.

(* ================================================================== *)
(** * Configuration loading *)
(* ================================================================== *)

Definition REQUIRED_VARIABLES : list string :=
  ["RPC_URL"; "CREATOR_PRIVATE_KEY"; "DONOR_PRIVATE_KEY";
   "CROWDFUNDING_FACTORY_ADDRESS"; "USDC_TOKEN_ADDRESS"].

(** The names that [_load_config] reports: the required variables whose
    value is unset or empty, in order. *)
Definition missing_variables (getenv : string -> option string) : list string :=
  filter (fun name => negb (Py.truthy_opt (getenv name))) REQUIRED_VARIABLES.

(** [_load_config]; [getenv] is [os.getenv] on the process environment.  The
    dataclass defaults fill the last three fields. *)
Definition _load_config (getenv : string -> option string) : res TestConfig.t :=
  let rpc_url := getenv "RPC_URL" in
  let creator_private_key := getenv "CREATOR_PRIVATE_KEY" in
  let donor_private_key := getenv "DONOR_PRIVATE_KEY" in
  let factory_address := getenv "CROWDFUNDING_FACTORY_ADDRESS" in
  let usdc_address := getenv "USDC_TOKEN_ADDRESS" in
  let missing :=
    map fst
      (filter (fun p => negb (Py.truthy_opt (snd p)))
         [("RPC_URL", rpc_url);
          ("CREATOR_PRIVATE_KEY", creator_private_key);
          ("DONOR_PRIVATE_KEY", donor_private_key);
          ("CROWDFUNDING_FACTORY_ADDRESS", factory_address);
          ("USDC_TOKEN_ADDRESS", usdc_address)]) in
  let error :=
    ValueError ("Missing environment variables: " ++ Py.join ", " missing) in
  if negb (forallb Py.truthy_opt
             [rpc_url; creator_private_key; donor_private_key;
              factory_address; usdc_address]) then
    Raise error
  else
    match rpc_url, creator_private_key, donor_private_key,
          factory_address, usdc_address with
    | Some rpc, Some creator, Some donor, Some fac, Some tok =>
        let addresses := mkContractAddresses fac tok in
        Ok (TestConfig.mk rpc creator donor addresses (1000 * 10 ^ 6) 120 (1 * 10 ^ 6))
    | _, _, _, _, _ => Raise error
    end.

(** [SepoliaTestSuite.__init__] *)
Definition init_suite (getenv : string -> option string) : res SepoliaTestSuite :=
  match _load_config getenv with
  | Ok cfg =>
      let creator :=
        mkCastInteractor (TestConfig.rpc_url cfg) (TestConfig.creator_private_key cfg) in
      let donor :=
        mkCastInteractor (TestConfig.rpc_url cfg) (TestConfig.donor_private_key cfg) in
      Ok (mkSepoliaTestSuite cfg creator donor (mkUniswapV2Helper donor))
  | Raise e => Raise e
  | OutOfFuel => OutOfFuel
  end.

(* ================================================================== *)
(** * The remaining operations and the entry points *)
(* ================================================================== *)

(** [str(r)] for an [Optional[str]], as an f-string prints it. *)
Definition py_str_opt (r : option string) : string :=
  match r with Some text => text | None => "None" end.

(** The line feed of the summary messages. *)
Definition newline : string := String (ascii_of_nat 10) EmptyString.

(** The command line of [get_account_address] and the two lines it logs, by
    the way the subprocess ended. *)
Definition wallet_command (self : CastInteractor) : list string :=
  ["cast"; "wallet"; "address"; private_key self].

Definition account_log (o : proc_outcome) : list (level * string) :=
  [(DEBUG, "Executing: cast wallet address ...");
   match o with
   | Completed returncode stdout stderr =>
       if negb (returncode =? 0) then
         (ERROR, "Cast wallet command failed: " ++ stderr)
       else (DEBUG, "Account address: " ++ Py.strip stdout)
   | Raised TimeoutExpired => (ERROR, "Cast wallet command timed out")
   | Raised e => (ERROR, "Error executing cast wallet command: " ++ exn_str e)
   end].

Section EntryPoints.

Variable chain : nat -> list string -> reply.

Variable fl : float_ops.

(** [CastInteractor.get_campaign_details]; the dict with the one key ["raw"]
    is an association list. *)
Definition get_campaign_details (self : CastInteractor) (factory_address : string)
    (campaign_id : Z) : M (option (list (string * string))) :=
  result <- run_cast_command chain self "cast_interactor.py:74"
              ["call"; factory_address; "getCampaign(uint256)";
               Py.str_of_int campaign_id] ;;
  match result with
  | None => ret None
  | Some r =>
      if negb (Py.truthy r) then ret None
      else
        try_except
          (ret (Some [("raw", r)]))
          (fun e =>
             logger ERROR ("Error parsing campaign details: " ++ exn_str e) ;;
             ret None)
  end.

(** [UniswapV2Helper.add_liquidity] *)
Definition add_liquidity (self : UniswapV2Helper) (token_a token_b : string)
    (amount_a amount_b min_a min_b : Z) : M bool :=
  logger INFO ("Adding liquidity: " ++ Py.str_of_int amount_a ++ " tokenA + "
                 ++ Py.str_of_int amount_b ++ " tokenB") ;;
  approved_a <- approve_token chain (cast self) token_a ROUTER_ADDRESS amount_a ;;
  if negb approved_a then ret false else
  approved_b <- approve_token chain (cast self) token_b ROUTER_ADDRESS amount_b ;;
  if negb approved_b then ret false else
  account_result <- run_cast_command chain (cast self) "uniswap_helper.py:129"
                      ["wallet"; "address"; private_key (cast self)] ;;
  match account_result with
  | None => ret false
  | Some account =>
      if negb (Py.truthy account) then ret false
      else
        let account_address := Py.strip account in
        now <- time_time ;;
        let deadline := Z.quot now 1000 + 600 in
        result <- run_cast_command chain (cast self) "uniswap_helper.py:143"
                    ["send"; ROUTER_ADDRESS;
                     "addLiquidity(address,address,uint256,uint256,uint256,uint256,address,uint256)";
                     token_a; token_b;
                     Py.str_of_int amount_a; Py.str_of_int amount_b;
                     Py.str_of_int min_a; Py.str_of_int min_b;
                     account_address;
                     Py.str_of_int deadline] ;;
        ret (match result with Some _ => true | None => false end)
  end.

(** The opening of [run_all_tests] (source lines 432-440): the addresses in
    use and the two accounts. *)
Definition announce (self : SepoliaTestSuite) : M unit :=
  logger INFO "Starting Sepolia Integration Tests" ;;
  logger INFO ("Factory Address: " ++ factory (TestConfig.addresses (config self))) ;;
  logger INFO ("USDC Address: " ++ usdc (TestConfig.addresses (config self))) ;;
  creator_address <- get_account_address chain (creator_cast self) ;;
  donor_address <- get_account_address chain (donor_cast self) ;;
  logger INFO ("Creator Account: " ++ py_str_opt creator_address) ;;
  logger INFO ("Donor Account: " ++ py_str_opt donor_address).

(** The [for] loop over [results.items()] (source lines 450-452). *)
Fixpoint log_results (results : list (string * bool)) : M unit :=
  match results with
  | [] => ret tt
  | (scenario, passed) :: rest =>
      let status := if passed then "✅ PASSED" else "❌ FAILED" in
      logger INFO (scenario ++ ": " ++ status) ;;
      log_results rest
  end.

(** [run_all_tests]; the result dict is an association list in insertion
    order.  Only scenario 2 is in it: the other two entries are commented
    out in the source. *)
Definition run_all_tests (self : SepoliaTestSuite) : M (list (string * bool)) :=
  announce self ;;
  passed_2 <- test_scenario_2_success_with_liquidity chain fl self ;;
  let results := [("scenario_2_success_with_liquidity", passed_2)] in
  logger INFO (newline ++ "=== TEST RESULTS SUMMARY ===") ;;
  log_results results ;;
  let total_passed := List.length (filter snd results) in
  logger INFO (newline ++ "Total: " ++ Py.str_of_int (Z.of_nat total_passed) ++ "/"
                 ++ Py.str_of_int (Z.of_nat (List.length results))
                 ++ " scenarios passed") ;;
  ret results.

(** [main], returning the exit status of the process: [exit(1)] raises
    [SystemExit], which [except Exception] does not catch, and a normal
    return is status 0.  [getenv] is the environment after [load_dotenv]. *)
Definition main (getenv : string -> option string) : M Z :=
  try_except
    (test_suite <- (fun w => (init_suite getenv, w)) ;;
     results <- run_all_tests test_suite ;;
     if negb (forallb snd results) then ret 1 else ret 0)
    (fun e =>
       logger ERROR ("Test suite failed to initialize: " ++ exn_str e) ;;
       ret 1).

(** One guarded step of [test_wallet_address]: the function body is a single
    [try] whose only calls that can raise are the address derivations, so the
    handler is attached to each of them, with the lines printed so far. *)
Definition attempt {A} (m : M A) (printed : list string)
    (k : A -> M (bool * list string)) : M (bool * list string) :=
  fun w =>
    match m w with
    | (Ok a, w') => k a w'
    | (Raise e, w') =>
        let line := "❌ Error testing wallet address: " ++ exn_str e in
        (Ok (false, (printed ++ [line])%list), w')
    | (OutOfFuel, w') => (OutOfFuel, w')
    end.

(** [test_cast_fix.test_wallet_address]: the returned boolean and the lines
    printed to standard output. *)
Definition test_wallet_address (getenv : string -> option string)
  : M (bool * list string) :=
  let missing := ret (false, ["❌ Missing environment variables"]) in
  match getenv "CREATOR_PRIVATE_KEY", getenv "DONOR_PRIVATE_KEY", getenv "RPC_URL" with
  | Some creator_key, Some donor_key, Some url =>
      if Py.truthy creator_key && Py.truthy donor_key && Py.truthy url then
        attempt (get_account_address chain (mkCastInteractor url creator_key)) []
          (fun creator_address =>
             match creator_address with
             | Some creator =>
                 if Py.truthy creator && Py.startswith "0x" creator then
                   let printed := ["✅ Creator address: " ++ creator] in
                   attempt (get_account_address chain (mkCastInteractor url donor_key))
                     printed
                     (fun donor_address =>
                        match donor_address with
                        | Some donor =>
                            if Py.truthy donor && Py.startswith "0x" donor then
                              let line := "✅ Donor address: " ++ donor in
                              ret (true,
                                   (printed ++
                                    [line;
                                     "✅ Cast wallet address fix working correctly!"])%list)
                            else
                              ret (false,
                                   (printed ++ ["❌ Failed to get donor address"])%list)
                        | None =>
                            ret (false,
                                 (printed ++ ["❌ Failed to get donor address"])%list)
                        end)
                 else ret (false, ["❌ Failed to get creator address"])
             | None => ret (false, ["❌ Failed to get creator address"])
             end)
      else missing
  | _, _, _ => missing
  end.

End EntryPoints.

(* ================================================================== *)
(** * Concrete worlds used to run the harness *)
(* ================================================================== *)

(** Decimal rendering of [n / 10**6] for amounts that a double represents
    exactly (below [2^52]); larger amounts are not needed by the runs
    below. *)
Definition render_micro (n : Z) : string :=
  let a := Z.abs n in
  let frac := Py.str_of_int (a mod 1000000) in
  (if n <? 0 then "-" else "") ++ Py.str_of_int (a / 1000000) ++ "."
    ++ Py.zeros (6 - String.length frac) ++ frac.

(** The same with the trailing zeros of the fraction dropped, as [repr]
    prints a float. *)
Definition render_micro_short (n : Z) : string :=
  let a := Z.abs n in
  let frac := Py.str_of_int (a mod 1000000) in
  let digits := Py.zeros (6 - String.length frac) ++ frac in
  let kept := Py.rstrip_by (Ascii.eqb "0") digits in
  (if n <? 0 then "-" else "") ++ Py.str_of_int (a / 1000000) ++ "."
    ++ (if Py.truthy kept then kept else "0").

Definition small_float_ops : float_ops :=
  FloatOps (fun n => Some (render_micro_short n))
           (fun n => Some (render_micro n))
           (fun n => Some (Z.quot (n * 95) 100)).

Definition initial_world : world := World 0 [] [].

Definition completed (ms : N) (stdout : string) : reply :=
  Reply ms (Completed 0 stdout "").

Definition failed (ms : N) (stderr : string) : reply :=
  Reply ms (Completed 1 "" stderr).

(** The fourth token of a [cast call]/[cast send] line is the function
    signature. *)
Definition signature_of (cmd : list string) : string := nth 3 cmd "".

Definition sample_campaign : string := "0x00000000000000000000000000000000000c0ffe".
Definition sample_token : string := "0x0000000000000000000000000000000000070ce2".

(** A chain on which a campaign succeeds at once; [wallet] answers the
    address derivation and [state] the state read. *)
Definition scripted_chain (wallet state : reply) (n : nat) (cmd : list string)
  : reply :=
  let sig := signature_of cmd in
  if String.eqb (nth 1 cmd "") "wallet" then wallet
  else if String.eqb sig "getCampaignCount()(uint256)" then completed 200 "1"
  else if String.eqb sig "getCampaignAddress(uint256)" then
    completed 200 "0x00000000000000000000000000000000000000000000000000000000000c0ffe"
  else if String.eqb sig "getCampaignState()(uint8)" then state
  else if String.eqb sig "getCampaign(uint256)" then
    completed 200
      ("(0x00000000000000000000000000000000000000aa, Test Campaign 2, ipfs://test-metadata, "
       ++ "1000000000, 1700000000, 0, 25, 50, " ++ sample_token ++ ", 1, 1000000000)")
  else if String.eqb sig "balanceOf(address)(uint256)" then completed 200 "0x3e8"
  else if String.eqb sig "getPair(address,address)(address)" then completed 200 "0x0"
  else completed 1500 "0x5ea1ed".

Definition sample_config : TestConfig.t :=
  TestConfig.mk "http://localhost:8545" "0xc0de01" "0xc0de02"
    (mkContractAddresses "0x00000000000000000000000000000000000000fa"
                         "0x00000000000000000000000000000000000000dc")
    (1000 * 10 ^ 6) 120 (1 * 10 ^ 6).

Definition sample_suite : SepoliaTestSuite :=
  let creator := mkCastInteractor "http://localhost:8545" "0xc0de01" in
  let donor := mkCastInteractor "http://localhost:8545" "0xc0de02" in
  mkSepoliaTestSuite sample_config creator donor (mkUniswapV2Helper donor).

Definition sample_environ (name : string) : option string :=
  if String.eqb name "RPC_URL" then Some "http://localhost:8545"
  else if String.eqb name "CREATOR_PRIVATE_KEY" then Some "0xc0de01"
  else if String.eqb name "DONOR_PRIVATE_KEY" then Some "0xc0de02"
  else if String.eqb name "CROWDFUNDING_FACTORY_ADDRESS" then
    Some "0x00000000000000000000000000000000000000fa"
  else if String.eqb name "USDC_TOKEN_ADDRESS" then
    Some "0x00000000000000000000000000000000000000dc"
  else None.

(** The same environment with [DONOR_PRIVATE_KEY] unset and
    [USDC_TOKEN_ADDRESS] empty. *)
Definition partial_environ (name : string) : option string :=
  if String.eqb name "DONOR_PRIVATE_KEY" then None
  else if String.eqb name "USDC_TOKEN_ADDRESS" then Some ""
  else sample_environ name.

(** Every character is a hexadecimal digit. *)
Fixpoint all_hex (s : string) : bool :=
  match s with
  | String c s' =>
      match Py.digit_value c with
      | Some d => (d <? 16) && all_hex s'
      | None => false
      end
  | EmptyString => true
  end.

(* ================================================================== *)
(** * Running the model on small inputs *)
(* ================================================================== *)

Example py_zfill_sign : Py.zfill 5 "-ab" = "-00ab".
Proof. reflexivity. Qed.

Example py_parse_hex : Py.parse_int 16 " 0x_1F " = Some 31.
Proof. reflexivity. Qed.

Example py_parse_error : Py.parse_int 16 "error" = None.
Proof. reflexivity. Qed.

Example py_split : Py.split "," (Py.strip_chars "()" "(a,b,,c)") = ["a"; "b"; ""; "c"].
Proof. reflexivity. Qed.

Example py_str : Py.str_of_int (-120) = "-120" /\ Py.str_of_int 0 = "0".
Proof. split; reflexivity. Qed.

Example run_init_suite : init_suite sample_environ = Ok sample_suite.
Proof. reflexivity. Qed.

Example run_scenario_2 :
  fst (test_scenario_2_success_with_liquidity
         (scripted_chain (completed 50 "0xd0707") (completed 200 "1"))
         small_float_ops sample_suite initial_world) = Ok true.
Proof. vm_compute. reflexivity. Qed.

Example run_scenario_3 :
  fst (test_scenario_3_failure_and_refund
         (scripted_chain (completed 50 "0xd0707") (completed 200 "2"))
         small_float_ops sample_suite initial_world) = Ok false.
Proof. vm_compute. reflexivity. Qed.

Example run_render :
  render_micro_short 1000000000 = "1000.0" /\ render_micro_short 1500000 = "1.5"
  /\ render_micro 1974316 = "1.974316".
Proof. repeat split; reflexivity. Qed.

(* ================================================================== *)
(** * Facts about the string primitives *)
(* ================================================================== *)

Lemma length_append (a b : string) :
  String.length (a ++ b) = (String.length a + String.length b)%nat.
Proof. induction a as [|c a IH]; simpl; [reflexivity | now rewrite IH]. Qed.

Lemma append_empty_r (a : string) : a ++ "" = a.
Proof. induction a as [|c a IH]; simpl; [reflexivity | now rewrite IH]. Qed.

Lemma append_assoc (a b c : string) : (a ++ b) ++ c = a ++ (b ++ c).
Proof. induction a as [|x a IH]; simpl; [reflexivity | now rewrite IH]. Qed.

Lemma length_drop (n : nat) (s : string) :
  String.length (Py.drop n s) = (String.length s - n)%nat.
Proof.
  revert s; induction n as [|n IH]; intros s.
  - simpl. lia.
  - destruct s as [|c s]; simpl; [reflexivity | apply IH].
Qed.

Lemma take_drop (n : nat) (s : string) : Py.take n s ++ Py.drop n s = s.
Proof.
  revert s; induction n as [|n IH]; intros s.
  - reflexivity.
  - destruct s as [|c s]; simpl; [reflexivity | now rewrite IH].
Qed.

Lemma drop_all (n : nat) (s : string) :
  (String.length s <= n)%nat -> Py.drop n s = "".
Proof.
  revert s; induction n as [|n IH]; intros s Hle.
  - destruct s; simpl in *; [reflexivity | lia].
  - destruct s as [|c s]; simpl in *; [reflexivity | apply IH; lia].
Qed.

Lemma length_zeros (n : nat) : String.length (Py.zeros n) = n.
Proof. induction n as [|n IH]; simpl; [reflexivity | now rewrite IH]. Qed.

Lemma length_last_n (n : nat) (s : string) :
  (n <= String.length s)%nat -> String.length (Py.last_n n s) = n.
Proof. intros Hle. unfold Py.last_n. rewrite length_drop. lia. Qed.

(** [s[-n:]] is what remains of [s] once a prefix is cut off. *)
Lemma last_n_suffix (n : nat) (s : string) :
  exists cut, s = cut ++ Py.last_n n s.
Proof.
  unfold Py.last_n. exists (Py.take (String.length s - n) s).
  now rewrite take_drop.
Qed.

Lemma length_zfill (width : nat) (s : string) :
  String.length (Py.zfill width s) = Nat.max width (String.length s).
Proof.
  unfold Py.zfill. destruct (Nat.leb width (String.length s)) eqn:Hw.
  - apply Nat.leb_le in Hw. lia.
  - apply Nat.leb_gt in Hw.
    destruct s as [|c s]; simpl in *.
    + rewrite length_zeros. lia.
    + destruct (Py.is_sign c); simpl; rewrite length_append, length_zeros;
        simpl; lia.
Qed.

Lemma zfill_long (width : nat) (s : string) :
  (width <= String.length s)%nat -> Py.zfill width s = s.
Proof.
  intros Hle. unfold Py.zfill.
  apply Nat.leb_le in Hle. now rewrite Hle.
Qed.

(** A hexadecimal digit is not a sign, so [zfill] pads a run of hexadecimal
    digits on the left. *)
Lemma zfill_hex (width : nat) (s : string) :
  all_hex s = true ->
  (String.length s < width)%nat ->
  Py.zfill width s = Py.zeros (width - String.length s) ++ s.
Proof.
  intros Hhex Hlt. unfold Py.zfill.
  apply Nat.leb_gt in Hlt. rewrite Hlt.
  destruct s as [|c s].
  - now rewrite append_empty_r.
  - assert (Hs : Py.is_sign c = false).
    { simpl in Hhex. unfold Py.is_sign.
      destruct (Ascii.eqb_spec c "+") as [->|_]; [discriminate Hhex|].
      destruct (Ascii.eqb_spec c "-") as [->|_]; [discriminate Hhex|].
      reflexivity. }
    now rewrite Hs.
Qed.

Lemma startswith_split (p s : string) :
  Py.startswith p s = true -> s = p ++ Py.drop (String.length p) s.
Proof.
  unfold Py.startswith. revert s; induction p as [|c p IH]; intros s H.
  - reflexivity.
  - destruct s as [|d s]; simpl in H; [discriminate|].
    destruct (ascii_dec c d) as [->|]; [|discriminate].
    simpl. f_equal. apply IH, H.
Qed.

Lemma startswith_append (p s : string) : Py.startswith p (p ++ s) = true.
Proof.
  unfold Py.startswith. induction p as [|c p IH]; simpl.
  - now destruct s.
  - destruct (ascii_dec c c); [exact IH | congruence].
Qed.

Lemma all_hex_append (a b : string) :
  all_hex (a ++ b) = all_hex a && all_hex b.
Proof.
  induction a as [|c a IH]; simpl; [reflexivity|].
  destruct (Py.digit_value c) as [d|]; [|reflexivity].
  now rewrite IH, andb_assoc.
Qed.

Lemma all_hex_zeros (n : nat) : all_hex (Py.zeros n) = true.
Proof. induction n as [|n IH]; simpl; [reflexivity | exact IH]. Qed.

Lemma all_hex_drop (n : nat) (s : string) :
  all_hex s = true -> all_hex (Py.drop n s) = true.
Proof.
  revert s; induction n as [|n IH]; intros s H; [exact H|].
  destruct s as [|c s]; [reflexivity|].
  simpl in *. destruct (Py.digit_value c); [|discriminate].
  apply andb_true_iff in H. apply IH, H.
Qed.

(** ** Occurrence of one string in another *)

Lemma occurs_in_unfold (x hay : string) :
  Py.occurs_in x hay =
  Py.startswith x hay ||
  match hay with String _ hay' => Py.occurs_in x hay' | EmptyString => false end.
Proof. destruct hay; reflexivity. Qed.

Lemma occurs_in_here (x post : string) : Py.occurs_in x (x ++ post) = true.
Proof. rewrite occurs_in_unfold, startswith_append. reflexivity. Qed.

Lemma occurs_in_later (x pre rest : string) :
  Py.occurs_in x rest = true -> Py.occurs_in x (pre ++ rest) = true.
Proof.
  intros H. induction pre as [|c pre IH]; [exact H|].
  simpl. rewrite IH. apply orb_true_r.
Qed.

Lemma occurs_in_join (sep x : string) (l : list string) :
  In x l -> Py.occurs_in x (Py.join sep l) = true.
Proof.
  unfold Py.join. induction l as [|y l IH]; intros Hin; [destruct Hin|].
  destruct Hin as [->|Hin].
  - destruct l as [|z l]; simpl.
    + rewrite <- (append_empty_r x) at 2. apply occurs_in_here.
    + apply occurs_in_here.
  - destruct l as [|z l]; [destruct Hin|].
    change (String.concat sep (y :: z :: l))
      with (y ++ sep ++ String.concat sep (z :: l)).
    rewrite <- append_assoc. apply occurs_in_later, IH, Hin.
Qed.

(* ================================================================== *)
(** * The pricing formula *)
(* ================================================================== *)

(** C2, as amended.  For non-negative arguments [get_amount_out] is 0 when a
    reserve is 0 and otherwise the floor of
    [amountIn * 997 * reserveOut / (reserveIn * 1000 + amountIn * 997)];
    for 1_000_000 in against reserves 100_000_000 and 200_000_000 that is
    1_974_316. *)
Theorem get_amount_out_formula :
  forall amount_in reserve_in reserve_out : Z,
    0 <= amount_in -> 0 <= reserve_in -> 0 <= reserve_out ->
    (reserve_in = 0 \/ reserve_out = 0 ->
     get_amount_out amount_in reserve_in reserve_out = 0)
    /\ (reserve_in <> 0 -> reserve_out <> 0 ->
        get_amount_out amount_in reserve_in reserve_out
        = (amount_in * 997 * reserve_out) / (reserve_in * 1000 + amount_in * 997))
    /\ get_amount_out 1000000 100000000 200000000 = 1974316.
Proof.
  intros a ri ro Ha Hri Hro. unfold get_amount_out. repeat split.
  - intros [-> | ->]; [reflexivity | now rewrite orb_true_r].
  - intros Hri' Hro'.
    destruct (Z.eqb_spec ri 0) as [|_]; [contradiction|].
    destruct (Z.eqb_spec ro 0) as [|_]; [contradiction|].
    simpl. destruct (Z.ltb_spec 0 (ri * 1000 + a * 997)) as [_|Hd];
      [reflexivity | lia].
Qed.

Lemma get_amount_out_formula_witness :
  get_amount_out 5 10 20 = (5 * 997 * 20) / (10 * 1000 + 5 * 997).
Proof.
  apply (get_amount_out_formula 5 10 20); lia.
Defined.

(** C2 as stated gives 1_982_713 for the sample swap; the formula gives
    1_974_316. *)
Lemma get_amount_out_sample_differs :
  ~ (forall amount_in reserve_in reserve_out : Z,
        0 <= amount_in -> 0 <= reserve_in -> 0 <= reserve_out ->
        (reserve_in = 0 \/ reserve_out = 0 ->
         get_amount_out amount_in reserve_in reserve_out = 0)
        /\ (reserve_in <> 0 -> reserve_out <> 0 ->
            get_amount_out amount_in reserve_in reserve_out
            = (amount_in * 997 * reserve_out)
              / (reserve_in * 1000 + amount_in * 997))
        /\ get_amount_out 1000000 100000000 200000000 = 1982713).
Proof.
  intros H.
  destruct (H 0 0 0) as (_ & _ & Hsample); try lia.
  vm_compute in Hsample. discriminate Hsample.
Qed.

(* ================================================================== *)
(** * Assembling the command line *)
(* ================================================================== *)

Lemma contains_token_In (x : string) (l : list string) :
  Py.contains_token x l = true <-> In x l.
Proof.
  unfold Py.contains_token. rewrite existsb_exists. split.
  - intros (y & Hin & Heq). apply String.eqb_eq in Heq. now subst.
  - intros Hin. exists x. split; [exact Hin | apply String.eqb_refl].
Qed.

Lemma assemble_command_cases (self : CastInteractor) (command : list string) :
  assemble_command self command
  = ((["cast"] ++ command ++ ["--rpc-url"; rpc_url self])
       ++ (if Py.contains_token "send" command
           then ["--private-key"; private_key self] else []))%list.
Proof.
  unfold assemble_command.
  destruct (Py.contains_token "send" command) eqn:Hsend.
  - cbn [existsb]. rewrite Hsend. reflexivity.
  - destruct (existsb _ _); now rewrite app_nil_r.
Qed.

Lemma trace_run_cast_command chain self caller command w :
  trace (snd (run_cast_command chain self caller command w))
  = (trace w ++ [assemble_command self command])%list.
Proof.
  unfold run_cast_command, try_except, bind, subprocess_run, logger, add_log, ret.
  cbn [clock trace log].
  destruct (outcome (chain _ _)) as [rc out err | e]; cbn.
  - destruct (negb (rc =? 0)); reflexivity.
  - destruct e; reflexivity.
Qed.

(** C3.  The command line handed to the subprocess is
    [cast], the arguments, the endpoint flag, and then the signing-key flag
    exactly when the token ["send"] is an element of the arguments; a
    ["call"] whose arguments merely contain the text "send" gets no key. *)
Theorem signing_key_iff_send_token :
  forall (chain : nat -> list string -> reply) (self : CastInteractor)
         (caller : string) (command : list string) (w : world),
    let base := (["cast"] ++ command ++ ["--rpc-url"; rpc_url self])%list in
    let signed := (base ++ ["--private-key"; private_key self])%list in
    trace (snd (run_cast_command chain self caller command w))
      = (trace w ++ [assemble_command self command])%list
    /\ (assemble_command self command = signed <-> In "send" command)
    /\ (assemble_command self command = base <-> ~ In "send" command)
    /\ assemble_command self ["call"; "0xfa"; "sendTokens(address)"; "resend"]
       = ["cast"; "call"; "0xfa"; "sendTokens(address)"; "resend";
          "--rpc-url"; rpc_url self].
Proof.
  intros chain self caller command w base signed.
  split; [apply trace_run_cast_command|].
  pose proof (assemble_command_cases self command) as Hc.
  fold base in Hc.
  assert (Hlen : base <> signed).
  { intros Heq. apply (f_equal (@List.length string)) in Heq.
    unfold signed in Heq. rewrite length_app in Heq. simpl in Heq. lia. }
  destruct (Py.contains_token "send" command) eqn:Hsend.
  - assert (Hin : In "send" command) by now apply contains_token_In.
    fold signed in Hc.
    split; [tauto|]. split; [|reflexivity].
    rewrite Hc. split; [intros Heq; now symmetry in Heq | tauto].
  - assert (Hnot : ~ In "send" command).
    { rewrite <- contains_token_In, Hsend. discriminate. }
    rewrite app_nil_r in Hc.
    split; [|split; [tauto | reflexivity]].
    rewrite Hc. tauto.
Qed.

Lemma signing_key_iff_send_token_witness :
  assemble_command (mkCastInteractor "http://localhost:8545" "0xc0de01")
    ["send"; "0xfa"; "refund()"]
  = ["cast"; "send"; "0xfa"; "refund()"; "--rpc-url"; "http://localhost:8545";
     "--private-key"; "0xc0de01"].
Proof.
  apply (signing_key_iff_send_token (fun _ _ => completed 0 "")
           (mkCastInteractor "http://localhost:8545" "0xc0de01") ""
           ["send"; "0xfa"; "refund()"] initial_world).
  simpl. auto.
Defined.

(* ================================================================== *)
(** * Address canonicalization *)
(* ================================================================== *)

(** The digits that [canonical_address] keeps from [hex_part]. *)
Lemma canonical_address_0x (r : string) :
  Py.startswith "0x" r = true ->
  exists digits,
    canonical_address (Some r) = Some ("0x" ++ digits)
    /\ String.length digits = 40%nat
    /\ ((40 < String.length (Py.drop 2 r))%nat ->
        digits = Py.last_n 40 (Py.drop 2 r))
    /\ ((String.length (Py.drop 2 r) < 40)%nat ->
        digits = Py.zfill 40 (Py.drop 2 r))
    /\ (String.length (Py.drop 2 r) = 40%nat -> digits = Py.drop 2 r).
Proof.
  intros H0x. unfold canonical_address. rewrite H0x.
  assert (Ht : Py.truthy r = true) by (destruct r; [discriminate H0x | reflexivity]).
  rewrite Ht. cbn [andb].
  set (hex_part := Py.drop 2 r).
  destruct (Nat.ltb_spec 40 (String.length hex_part)) as [Hlong|Hle].
  - exists (Py.last_n 40 hex_part). repeat split; try lia.
    apply length_last_n. lia.
  - destruct (Nat.ltb_spec (String.length hex_part) 40) as [Hshort|Hge].
    + exists (Py.zfill 40 hex_part). repeat split; try lia.
      rewrite length_zfill. lia.
    + exists hex_part. repeat split; lia.
Qed.

Lemma canonical_address_fixed (digits : string) :
  String.length digits = 40%nat ->
  canonical_address (Some ("0x" ++ digits)) = Some ("0x" ++ digits).
Proof.
  intros Hlen. unfold canonical_address.
  rewrite (startswith_append "0x" digits).
  change (Py.truthy ("0x" ++ digits)) with true.
  change (Py.drop 2 ("0x" ++ digits)) with digits.
  rewrite Hlen. reflexivity.
Qed.

Lemma canonical_address_idempotent (result : option string) :
  canonical_address (canonical_address result) = canonical_address result.
Proof.
  destruct result as [r|]; [|reflexivity].
  destruct (Py.startswith "0x" r) eqn:H0x.
  - destruct (canonical_address_0x r H0x) as (digits & -> & Hlen & _).
    now apply canonical_address_fixed.
  - assert (Hsame : canonical_address (Some r) = Some r).
    { unfold canonical_address. rewrite H0x, andb_false_r. reflexivity. }
    now rewrite !Hsame.
Qed.

(** C5.  For an executor result that starts with "0x",
    [get_campaign_address] returns "0x" and exactly 40 characters: the last
    40 of the digits when there are more, the digits behind zeros when there
    are fewer (hexadecimal digits stay hexadecimal digits); "0xABC" becomes
    "0x", 37 zeros and "ABC".  The padding is that of [zfill], which for
    characters other than digits puts the zeros after a leading sign.
    Canonicalizing twice is canonicalizing once, a result that does not
    start with "0x" is returned as it is, and the token-address formatting
    of [get_campaign_token_address] is the same function on such results. *)
Theorem canonical_address_normalizes :
  (forall r : string,
      Py.startswith "0x" r = true ->
      exists digits,
        canonical_address (Some r) = Some ("0x" ++ digits)
        /\ canonical_token_address r = Some ("0x" ++ digits)
        /\ String.length digits = 40%nat
        /\ ((40 < String.length (Py.drop 2 r))%nat ->
            exists dropped, Py.drop 2 r = dropped ++ digits)
        /\ ((String.length (Py.drop 2 r) < 40)%nat ->
            digits = Py.zfill 40 (Py.drop 2 r))
        /\ ((String.length (Py.drop 2 r) <= 40)%nat ->
            all_hex (Py.drop 2 r) = true ->
            digits = Py.zeros (40 - String.length (Py.drop 2 r)) ++ Py.drop 2 r)
        /\ (all_hex (Py.drop 2 r) = true -> all_hex digits = true))
  /\ (forall result : option string,
         canonical_address (canonical_address result) = canonical_address result)
  /\ (forall r : string,
         Py.startswith "0x" r = false -> canonical_address (Some r) = Some r)
  /\ canonical_address None = None
  /\ canonical_address (Some "0xABC")
     = Some "0x0000000000000000000000000000000000000ABC"
  /\ (forall chain self factory_address campaign_id w result w',
         run_cast_command chain self "cast_interactor.py:92"
           ["call"; factory_address; "getCampaignAddress(uint256)";
            Py.str_of_int campaign_id] w = (Ok result, w') ->
         get_campaign_address chain self factory_address campaign_id w
         = (Ok (canonical_address result), w')).
Proof.
  split; [|split; [|split; [|split; [|split]]]].
  - intros r H0x.
    destruct (canonical_address_0x r H0x) as (digits & Hc & Hlen & Hlong & Hshort & Heq).
    exists digits. split; [exact Hc|]. split.
    { assert (Ht : Py.truthy r = true)
        by (destruct r; [discriminate H0x | reflexivity]).
      unfold canonical_address in Hc. unfold canonical_token_address.
      rewrite H0x, Ht in Hc. rewrite H0x. exact Hc. }
    split; [exact Hlen|]. split; [|split; [exact Hshort|split]].
    + intros Hgt. rewrite (Hlong Hgt). apply last_n_suffix.
    + intros Hle Hhex.
      destruct (Nat.eq_dec (String.length (Py.drop 2 r)) 40) as [E|NE].
      * rewrite (Heq E), E. reflexivity.
      * rewrite Hshort by lia. apply zfill_hex; [exact Hhex | lia].
    + intros Hhex.
      destruct (Nat.lt_trichotomy (String.length (Py.drop 2 r)) 40) as [Hlt|[E|Hgt]].
      * rewrite (Hshort Hlt), zfill_hex by assumption.
        now rewrite all_hex_append, all_hex_zeros.
      * now rewrite (Heq E).
      * rewrite (Hlong Hgt). unfold Py.last_n. now apply all_hex_drop.
  - apply canonical_address_idempotent.
  - intros r H0x. unfold canonical_address. rewrite H0x, andb_false_r. reflexivity.
  - reflexivity.
  - reflexivity.
  - intros chain self factory_address campaign_id w result w' Hrun.
    unfold get_campaign_address, bind, ret. now rewrite Hrun.
Qed.

Lemma canonical_address_normalizes_witness :
  exists digits,
    canonical_address
      (Some "0x00000000000000000000AbCdEf0123456789aBCdEf0123456789aBCdEf012345")
    = Some ("0x" ++ digits)
    /\ String.length digits = 40%nat.
Proof.
  destruct (proj1 canonical_address_normalizes
              "0x00000000000000000000AbCdEf0123456789aBCdEf0123456789aBCdEf012345"
              eq_refl) as (digits & Hc & _ & Hlen & _).
  exists digits. split; [exact Hc | exact Hlen].
Defined.

(* ================================================================== *)
(** * Pair addresses *)
(* ================================================================== *)

(** C10 as stated covers the empty result, for which [get_pair_address]
    returns no value. *)
Lemma pair_address_of_empty_result :
  ~ (forall r : string,
        r <> ZERO_ADDRESS ->
        pair_address_of (Some r) = Some ("0x" ++ Py.zfill 40 (Py.drop 2 r))).
Proof.
  intros H. specialize (H "" ltac:(discriminate)).
  vm_compute in H. discriminate H.
Qed.

(** C10, as amended.  For a non-empty executor result other than the
    42-character zero address, [get_pair_address] returns "0x" followed by
    the characters after position 2 zero-filled to at least 40: more than 40
    characters are all kept, so the output is longer than 42; a zero value
    of 64 digits comes back as an address, where [get_campaign_address] cuts
    it to the last 40 digits.  The empty result, like the zero address and
    the absent result, gives no value. *)
Theorem pair_address_only_pads :
  (forall r : string,
      r <> "" -> r <> ZERO_ADDRESS ->
      pair_address_of (Some r) = Some ("0x" ++ Py.zfill 40 (Py.drop 2 r))
      /\ (40 <= String.length (Py.zfill 40 (Py.drop 2 r)))%nat
      /\ ((40 < String.length (Py.drop 2 r))%nat ->
          Py.zfill 40 (Py.drop 2 r) = Py.drop 2 r
          /\ (42 < String.length ("0x" ++ Py.zfill 40 (Py.drop 2 r)))%nat))
  /\ pair_address_of (Some ("0x" ++ Py.zeros 64)) = Some ("0x" ++ Py.zeros 64)
  /\ canonical_address (Some ("0x" ++ Py.zeros 64)) = Some ZERO_ADDRESS
  /\ pair_address_of (Some "") = None
  /\ pair_address_of (Some ZERO_ADDRESS) = None
  /\ pair_address_of None = None
  /\ (forall chain self token_a token_b w result w',
         run_cast_command chain (cast self) "uniswap_helper.py:27"
           ["call"; FACTORY_ADDRESS; "getPair(address,address)(address)";
            token_a; token_b] w = (Ok result, w') ->
         get_pair_address chain self token_a token_b w
         = (Ok (pair_address_of result), w')).
Proof.
  split; [|split; [|split; [|split; [|split; [|split]]]]]; try reflexivity.
  - intros r Hne Hnz. unfold pair_address_of.
    replace (Py.truthy r) with true by (destruct r; [contradiction | reflexivity]).
    replace (String.eqb r ZERO_ADDRESS) with false
      by (symmetry; now apply String.eqb_neq).
    split; [reflexivity|]. split.
    + rewrite length_zfill. lia.
    + intros Hlong. split.
      * apply zfill_long. lia.
      * rewrite length_append, length_zfill.
        change (String.length "0x") with 2%nat. lia.
  - intros chain self token_a token_b w result w' Hrun.
    unfold get_pair_address, bind, ret. now rewrite Hrun.
Qed.

Lemma pair_address_only_pads_witness :
  pair_address_of (Some "0x1") = Some "0x0000000000000000000000000000000000000001".
Proof.
  apply (proj1 pair_address_only_pads "0x1"); discriminate.
Defined.

(* ================================================================== *)
(** * Configuration loading *)
(* ================================================================== *)

Lemma load_config_missing (getenv : string -> option string) :
  forallb (fun name => Py.truthy_opt (getenv name)) REQUIRED_VARIABLES = false ->
  _load_config getenv
  = Raise (ValueError ("Missing environment variables: "
                         ++ Py.join ", " (missing_variables getenv))).
Proof.
  intros Hsome. unfold _load_config, missing_variables.
  cbn [REQUIRED_VARIABLES forallb filter map fst snd] in *.
  rewrite Hsome. cbn [negb].
  do 2 f_equal. f_equal.
  repeat match goal with
         | |- context [Py.truthy_opt (getenv ?v)] =>
             destruct (Py.truthy_opt (getenv v))
         end; reflexivity.
Qed.

Lemma load_config_present (getenv : string -> option string) :
  forallb (fun name => Py.truthy_opt (getenv name)) REQUIRED_VARIABLES = true ->
  exists rpc creator donor fac tok,
    getenv "RPC_URL" = Some rpc
    /\ getenv "CREATOR_PRIVATE_KEY" = Some creator
    /\ getenv "DONOR_PRIVATE_KEY" = Some donor
    /\ getenv "CROWDFUNDING_FACTORY_ADDRESS" = Some fac
    /\ getenv "USDC_TOKEN_ADDRESS" = Some tok
    /\ _load_config getenv
       = Ok (TestConfig.mk rpc creator donor (mkContractAddresses fac tok)
               1000000000 120 1000000).
Proof.
  intros Hall. unfold _load_config.
  cbn [REQUIRED_VARIABLES forallb] in *.
  rewrite Hall. cbn [negb].
  repeat (apply andb_true_iff in Hall; destruct Hall as [? Hall]).
  destruct (getenv "RPC_URL") as [rpc|]; [|discriminate].
  destruct (getenv "CREATOR_PRIVATE_KEY") as [creator|]; [|discriminate].
  destruct (getenv "DONOR_PRIVATE_KEY") as [donor|]; [|discriminate].
  destruct (getenv "CROWDFUNDING_FACTORY_ADDRESS") as [fac|]; [|discriminate].
  destruct (getenv "USDC_TOKEN_ADDRESS") as [tok|]; [|discriminate].
  exists rpc, creator, donor, fac, tok. repeat split.
Qed.

(** C8.  When a required variable is unset or empty, [_load_config] raises a
    [ValueError] whose message contains the name of every required variable
    that is unset or empty; when all five are set, it returns the record
    with funding goal 1,000,000,000, duration 120 and minimum contribution
    1,000,000. *)
Theorem load_config_reports_every_missing_variable :
  forall getenv : string -> option string,
    ((exists name, In name REQUIRED_VARIABLES
                   /\ Py.truthy_opt (getenv name) = false) ->
     exists msg,
       _load_config getenv = Raise (ValueError msg)
       /\ forall name, In name REQUIRED_VARIABLES ->
                       Py.truthy_opt (getenv name) = false ->
                       Py.occurs_in name msg = true)
    /\ ((forall name, In name REQUIRED_VARIABLES ->
                      Py.truthy_opt (getenv name) = true) ->
        exists cfg,
          _load_config getenv = Ok cfg
          /\ getenv "RPC_URL" = Some (TestConfig.rpc_url cfg)
          /\ getenv "CREATOR_PRIVATE_KEY" = Some (TestConfig.creator_private_key cfg)
          /\ getenv "DONOR_PRIVATE_KEY" = Some (TestConfig.donor_private_key cfg)
          /\ getenv "CROWDFUNDING_FACTORY_ADDRESS"
             = Some (factory (TestConfig.addresses cfg))
          /\ getenv "USDC_TOKEN_ADDRESS" = Some (usdc (TestConfig.addresses cfg))
          /\ TestConfig.funding_goal cfg = 1000000000
          /\ TestConfig.campaign_duration cfg = 120
          /\ TestConfig.min_contribution cfg = 1000000).
Proof.
  intros getenv. split.
  - intros (name & Hin & Hfalsy).
    assert (Hsome : forallb (fun v => Py.truthy_opt (getenv v)) REQUIRED_VARIABLES
                    = false).
    { destruct (forallb _ _) eqn:Hall; [|reflexivity].
      rewrite forallb_forall in Hall. rewrite (Hall name Hin) in Hfalsy.
      discriminate. }
    eexists. split; [apply load_config_missing, Hsome|].
    intros v Hv Hvf.
    apply occurs_in_later, occurs_in_join.
    unfold missing_variables. apply filter_In. split; [exact Hv|].
    now rewrite Hvf.
  - intros Hall.
    destruct (load_config_present getenv) as
      (rpc & creator & donor & fac & tok & H1 & H2 & H3 & H4 & H5 & Hcfg).
    { apply forallb_forall. exact Hall. }
    eexists. split; [exact Hcfg|]. cbn. repeat split; assumption.
Qed.

Lemma load_config_reports_every_missing_variable_witness :
  (exists msg,
      _load_config partial_environ = Raise (ValueError msg)
      /\ Py.occurs_in "DONOR_PRIVATE_KEY" msg = true
      /\ Py.occurs_in "USDC_TOKEN_ADDRESS" msg = true)
  /\ (exists cfg,
         _load_config sample_environ = Ok cfg
         /\ TestConfig.funding_goal cfg = 1000000000
         /\ TestConfig.campaign_duration cfg = 120
         /\ TestConfig.min_contribution cfg = 1000000).
Proof.
  split.
  - destruct (proj1 (load_config_reports_every_missing_variable partial_environ))
      as (msg & Hraise & Hnames).
    + exists "DONOR_PRIVATE_KEY". split; [simpl; auto | reflexivity].
    + exists msg. split; [exact Hraise|]. split.
      * apply Hnames; [simpl; auto | reflexivity].
      * apply Hnames; [simpl; auto 6 | reflexivity].
  - destruct (proj2 (load_config_reports_every_missing_variable sample_environ))
      as (cfg & Hcfg & _ & _ & _ & _ & _ & Hgoal & Hdur & Hmin).
    + intros name Hin. simpl in Hin.
      repeat (destruct Hin as [<- | Hin]; [reflexivity|]). destruct Hin.
    + exists cfg. auto.
Defined.

(* ================================================================== *)
(** * Reasoning about the harness monad *)
(* ================================================================== *)

Lemma returns_settles {A} (m : M A) : returns m -> settles m.
Proof. intros H w. destruct (H w) as (a & w' & ->). discriminate. Qed.

Lemma returns_ret {A} (a : A) : returns (ret a).
Proof. intros w. now exists a, w. Qed.

Lemma returns_logger lvl msg : returns (logger lvl msg).
Proof. intros w. now eexists _, _. Qed.

Lemma returns_time_sleep secs : returns (time_sleep secs).
Proof. intros w. now eexists _, _. Qed.

Lemma returns_time_time : returns time_time.
Proof. intros w. now eexists _, _. Qed.

Lemma returns_bind {A B} (m : M A) (k : A -> M B) :
  returns m -> (forall a, returns (k a)) -> returns (bind m k).
Proof.
  intros Hm Hk w. unfold bind. destruct (Hm w) as (a & w' & ->). apply Hk.
Qed.

Lemma settles_raise {A} (e : exn) : settles (@raise A e).
Proof. intros w. discriminate. Qed.

Lemma settles_bind {A B} (m : M A) (k : A -> M B) :
  settles m -> (forall a, settles (k a)) -> settles (bind m k).
Proof.
  intros Hm Hk w. unfold bind. specialize (Hm w).
  destruct (m w) as [[a|e|] w']; simpl in *;
    [apply Hk | discriminate | contradiction].
Qed.

Lemma returns_try_except {A} (m : M A) (handler : exn -> M A) :
  settles m -> (forall e, returns (handler e)) -> returns (try_except m handler).
Proof.
  intros Hm Hh w. unfold try_except. specialize (Hm w).
  destruct (m w) as [[a|e|] w']; simpl in *;
    [now exists a, w' | apply Hh | contradiction].
Qed.

Lemma settles_py_int base s : settles (py_int base s).
Proof.
  unfold py_int. destruct (Py.parse_int base s);
    [apply returns_settles, returns_ret | apply settles_raise].
Qed.

Lemma settles_float_result {A} (r : option A) : settles (float_result r).
Proof.
  destruct r; [apply returns_settles, returns_ret | apply settles_raise].
Qed.

Lemma settles_true_division {A} (r : option A) : settles (true_division r).
Proof.
  destruct r; [apply returns_settles, returns_ret | apply settles_raise].
Qed.

(** Goals of the shape [returns m] or [settles m], for a body built from the
    combinators, the primitives and functions already known to return. *)
Create HintDb harness.
#[export] Hint Resolve returns_ret returns_logger returns_time_sleep
  returns_time_time settles_raise settles_py_int
  settles_float_result settles_true_division : harness.

Ltac harness_step :=
  match goal with
  | |- returns (bind _ _) => apply returns_bind; [|intros ?]
  | |- settles (bind _ _) => apply settles_bind; [|intros ?]
  | |- returns (try_except _ _) => apply returns_try_except; [|intros ?]
  | |- settles (try_except _ _) => apply returns_settles
  | |- returns (match ?x with _ => _ end) => destruct x
  | |- settles (match ?x with _ => _ end) => destruct x
  | |- settles _ => apply returns_settles; solve [auto with harness]
  end.

Ltac harness := repeat (first [solve [auto with harness] | harness_step]).

(* ================================================================== *)
(** * The command executor *)
(* ================================================================== *)

(** [run_cast_command] always returns: the result and the two log lines are
    fixed by the way the subprocess ended. *)
Lemma run_cast_command_spec chain self caller command w :
  let full_command := assemble_command self command in
  let r := chain (List.length (trace w)) full_command in
  run_cast_command chain self caller command w
  = (Ok (executor_result (outcome r)),
     World (clock w + Z.of_N (elapsed r))
           (trace w ++ [full_command])
           (log w ++ executor_log caller (firstn 3 full_command) (outcome r))).
Proof.
  intros full_command r.
  unfold run_cast_command, try_except, bind, subprocess_run, logger, add_log, ret.
  fold full_command. cbn [clock trace log]. fold r.
  unfold executor_result, executor_log.
  destruct (outcome r) as [rc out err | e]; cbn [clock trace log].
  - destruct (negb (rc =? 0)); cbn [clock trace log];
      rewrite <- app_assoc; reflexivity.
  - destruct e; cbn [clock trace log]; rewrite <- app_assoc; reflexivity.
Qed.

Lemma returns_run_cast_command chain self caller command :
  returns (run_cast_command chain self caller command).
Proof. intros w. rewrite run_cast_command_spec. now eexists _, _. Qed.

#[export] Hint Resolve returns_run_cast_command : harness.

(** The part of the command line that is logged never reaches the tokens
    that [assemble_command] appends for signing. *)
Lemma logged_prefix_unsigned (self : CastInteractor) (command : list string) :
  firstn 3 (assemble_command self command)
  = firstn 3 ("cast" :: command ++ ["--rpc-url"; rpc_url self])%list.
Proof.
  rewrite assemble_command_cases.
  destruct (Py.contains_token "send" command); [|now rewrite app_nil_r].
  destruct command as [|a [|b command]]; reflexivity.
Qed.

(** C4 as stated keeps the private key out of every log line of
    [run_cast_command]; the error line repeats the subprocess's stderr, which
    may carry it. *)
Lemma private_key_in_logged_stderr :
  ~ (forall chain self caller command w line,
        In line (skipn (List.length (log w))
                   (log (snd (run_cast_command chain self caller command w)))) ->
        Py.occurs_in (private_key self) (snd line) = false).
Proof.
  intros H.
  specialize (H (fun _ _ => failed 10 "error: invalid value '0xc0de01' for '--private-key'")
                (mkCastInteractor "http://localhost:8545" "0xc0de01")
                "sepolia_test.py:250"
                ["send"; sample_campaign; "refund()"]
                initial_world
                (ERROR, "[sepolia_test.py:250] Cast command failed: error: invalid value '0xc0de01' for '--private-key'")).
  vm_compute in H. discriminate H; auto.
Qed.

(** C4, as amended.  A timeout, a non-zero exit code and any other exception
    of the subprocess each make [run_cast_command] return [None], and it
    never raises.  Of the command line it logs the first three tokens only,
    which never include the signing-key flag or the key that it appends: its
    log lines are fixed by the caller, the arguments, the endpoint and the
    way the subprocess ended, and are the same under any other configured
    key. *)
Theorem run_cast_command_failures_absent :
  forall chain self caller command w,
    let o := outcome (chain (List.length (trace w)) (assemble_command self command)) in
    let after := run_cast_command chain self caller command w in
    (o = Raised TimeoutExpired -> fst after = Ok None)
    /\ (forall returncode stdout stderr,
           o = Completed returncode stdout stderr -> returncode <> 0 ->
           fst after = Ok None)
    /\ (forall e, o = Raised e -> fst after = Ok None)
    /\ (exists result, fst after = Ok result)
    /\ log (snd after)
       = (log w ++ executor_log caller
                     (firstn 3 ("cast" :: command ++ ["--rpc-url"; rpc_url self]))
                     o)%list
    /\ (forall chain' other_key,
           let self' := mkCastInteractor (rpc_url self) other_key in
           outcome (chain' (List.length (trace w)) (assemble_command self' command))
           = o ->
           log (snd (run_cast_command chain' self' caller command w))
           = log (snd after)).
Proof.
  intros chain self caller command w o after.
  assert (Hafter : after
                   = (Ok (executor_result o),
                      World (clock w + Z.of_N (elapsed (chain (List.length (trace w))
                                                          (assemble_command self command))))
                            (trace w ++ [assemble_command self command])
                            (log w ++ executor_log caller
                                       (firstn 3 (assemble_command self command)) o)))
    by apply run_cast_command_spec.
  rewrite Hafter. cbn [fst snd log].
  split; [intros ->; reflexivity|].
  split.
  { intros rc out err -> Hrc. cbn.
    destruct (Z.eqb_spec rc 0); [contradiction | reflexivity]. }
  split; [intros e ->; reflexivity|].
  split; [now eexists|].
  split; [now rewrite logged_prefix_unsigned|].
  intros chain' other_key Ho.
  rewrite run_cast_command_spec. cbn [snd log]. rewrite Ho.
  now rewrite !logged_prefix_unsigned.
Qed.

Lemma run_cast_command_failures_absent_witness :
  fst (run_cast_command (fun _ _ => Reply 60000 (Raised TimeoutExpired))
         (mkCastInteractor "http://localhost:8545" "0xc0de01")
         "sepolia_test.py:250" ["send"; sample_campaign; "refund()"] initial_world)
  = Ok None
  /\ fst (run_cast_command (fun _ _ => failed 10 "execution reverted")
            (mkCastInteractor "http://localhost:8545" "0xc0de01")
            "sepolia_test.py:250" ["send"; sample_campaign; "refund()"] initial_world)
     = Ok None
  /\ fst (run_cast_command (fun _ _ => Reply 1 (Raised (OSError "No such file or directory: 'cast'")))
            (mkCastInteractor "http://localhost:8545" "0xc0de01")
            "sepolia_test.py:250" ["send"; sample_campaign; "refund()"] initial_world)
     = Ok None.
Proof.
  split; [|split].
  - apply (run_cast_command_failures_absent
             (fun _ _ => Reply 60000 (Raised TimeoutExpired))).
    reflexivity.
  - apply (proj1 (proj2 (run_cast_command_failures_absent
                           (fun _ _ => failed 10 "execution reverted") _ _ _ _))
             1 "" "execution reverted"); [reflexivity | lia].
  - apply (proj1 (proj2 (proj2 (run_cast_command_failures_absent
                                  (fun _ _ => Reply 1 (Raised (OSError "No such file or directory: 'cast'")))
                                  _ _ _ _)))
             (OSError "No such file or directory: 'cast'")).
    reflexivity.
Defined.

(* ================================================================== *)
(** * Token balances *)
(* ================================================================== *)

(** C9.  [get_balance] is 0 when the executor returns [None] or the empty
    string and the parsed number when the result is a base-16 literal; for a
    non-empty result that is not one, such as "error", the [ValueError] of
    [int(result, 16)] leaves [get_balance]. *)
Theorem get_balance_zero_or_raises :
  forall chain self token_address account w result w',
    run_cast_command chain self "cast_interactor.py:58"
      ["call"; token_address; "balanceOf(address)(uint256)"; account] w
    = (Ok result, w') ->
    (Py.truthy_opt result = false ->
     get_balance chain self token_address account w = (Ok 0, w'))
    /\ (forall r, result = Some r -> r <> "" -> Py.parse_int 16 r = None ->
        exists msg,
          get_balance chain self token_address account w
          = (Raise (ValueError msg), w'))
    /\ (result = Some "error" ->
        get_balance chain self token_address account w
        = (Raise (ValueError "invalid literal for int() with base 16: 'error'"), w'))
    /\ (forall r v, result = Some r -> r <> "" -> Py.parse_int 16 r = Some v ->
        get_balance chain self token_address account w = (Ok v, w')).
Proof.
  intros chain self token_address account w result w' Hrun.
  unfold get_balance, bind. rewrite Hrun.
  split; [|split; [|split]].
  - destruct result as [r|]; simpl; [|reflexivity].
    intros ->. reflexivity.
  - intros r -> Hne Hparse.
    replace (Py.truthy r) with true by (destruct r; [contradiction | reflexivity]).
    unfold py_int. rewrite Hparse. now eexists.
  - intros ->. reflexivity.
  - intros r v -> Hne Hparse.
    replace (Py.truthy r) with true by (destruct r; [contradiction | reflexivity]).
    unfold py_int. now rewrite Hparse.
Qed.

Lemma get_balance_zero_or_raises_witness :
  fst (get_balance (fun _ _ => failed 10 "execution reverted")
         (mkCastInteractor "http://localhost:8545" "0xc0de02")
         sample_token "0xd0707" initial_world) = Ok 0
  /\ fst (get_balance (fun _ _ => completed 10 "error")
            (mkCastInteractor "http://localhost:8545" "0xc0de02")
            sample_token "0xd0707" initial_world)
     = Raise (ValueError "invalid literal for int() with base 16: 'error'").
Proof.
  split.
  - destruct (run_cast_command (fun _ _ => failed 10 "execution reverted")
                (mkCastInteractor "http://localhost:8545" "0xc0de02")
                "cast_interactor.py:58"
                ["call"; sample_token; "balanceOf(address)(uint256)"; "0xd0707"]
                initial_world) as [result w'] eqn:Hrun.
    vm_compute in Hrun. injection Hrun as <- <-.
    rewrite (proj1 (get_balance_zero_or_raises
                      (fun _ _ => failed 10 "execution reverted") _ _ _ _ None _
                      eq_refl) eq_refl).
    reflexivity.
  - rewrite (proj1 (proj2 (proj2 (get_balance_zero_or_raises
                                    (fun _ _ => completed 10 "error")
                                    (mkCastInteractor "http://localhost:8545" "0xc0de02")
                                    sample_token "0xd0707" initial_world
                                    (Some "error") _ eq_refl))) eq_refl).
    reflexivity.
Defined.

(* ================================================================== *)
(** * Waiting for the campaign to end *)
(* ================================================================== *)

(* ================================================================== *)
(** * Waiting for the campaign to end *)
(* ================================================================== *)

Lemma truthy_nonempty (s : string) : s <> "" -> Py.truthy s = true.
Proof. destruct s; [contradiction | reflexivity]. Qed.

(** The state refresh and read always return; the text read is the
    executor's result for the reply to the state-read command, which is the
    second command of the pass. *)
Lemma refresh_and_read_spec chain self campaign_address w :
  exists wr,
    refresh_and_read chain self campaign_address w
    = (Ok (executor_result
             (outcome (chain (S (List.length (trace w)))
                         (state_read_command self campaign_address)))), wr)
    /\ clock w <= clock wr.
Proof.
  unfold refresh_and_read, bind.
  rewrite run_cast_command_spec.
  set (r1 := chain (List.length (trace w)) _).
  assert (Hidx : forall A (l : list A) x, List.length (l ++ [x]) = S (List.length l)).
  { intros A l x. rewrite length_app. simpl. lia. }
  destruct (executor_result (outcome r1)) as [u|];
    [destruct (Py.truthy u)|];
    cbn [logger time_sleep pass_time ret add_log clock trace log];
    rewrite run_cast_command_spec; cbn [pass_time add_log clock trace log];
    rewrite Hidx; (eexists; split; [reflexivity|]); cbn [clock]; lia.
Qed.

Lemma on_state_succeeded (text : string) (w : world) :
  text <> "" -> Py.parse_int 16 text = Some 1 ->
  on_state (Some text) w = (Ok (Some true), add_log w INFO "Campaign succeeded!").
Proof.
  intros Hne Hparse. unfold on_state, bind, py_int.
  rewrite (truthy_nonempty _ Hne), Hparse. reflexivity.
Qed.

Lemma on_state_failed (text : string) (w : world) :
  text <> "" -> Py.parse_int 16 text = Some 2 ->
  on_state (Some text) w = (Ok (Some false), add_log w INFO "Campaign failed!").
Proof.
  intros Hne Hparse. unfold on_state, bind, py_int.
  rewrite (truthy_nonempty _ Hne), Hparse. reflexivity.
Qed.

(** Whatever was read, the second half of a pass issues no command, never
    runs out of fuel, and sleeps ten seconds exactly when the loop goes round
    again. *)
Lemma on_state_cases (state_result : option string) (w : world) :
  exists r w',
    on_state state_result w = (r, w')
    /\ trace w' = trace w
    /\ match r with
       | Ok None => clock w' = clock w + 10000
       | Ok (Some _) | Raise _ => clock w' = clock w
       | OutOfFuel => False
       end.
Proof.
  unfold on_state, bind, py_int.
  destruct state_result as [text|]; [destruct (Py.truthy text)|];
    try (eexists _, _; split; [reflexivity|]; split; [reflexivity|];
         cbn [clock time_sleep pass_time]; lia).
  destruct (Py.parse_int 16 text) as [state|];
    [|eexists _, _; split; [reflexivity|]; split; reflexivity].
  cbn [ret].
  destruct (state =? 0); [|destruct (state =? 1); [|destruct (state =? 2)]];
    eexists _, _; (split; [reflexivity|]); (split; [reflexivity|]);
    cbn [clock time_sleep pass_time logger add_log]; lia.
Qed.

Lemma on_state_active (r : reply) (w : world) :
  reads_active_or_fails r = true ->
  exists w',
    on_state (executor_result (outcome r)) w = (Ok None, w')
    /\ clock w' = clock w + 10000.
Proof.
  unfold reads_active_or_fails, on_state, bind, py_int.
  destruct (executor_result (outcome r)) as [text|];
    [|intros _; eexists; split; [reflexivity|]; cbn; lia].
  destruct (Py.truthy text); cbn [negb orb];
    [|intros _; eexists; split; [reflexivity|]; cbn; lia].
  destruct (Py.parse_int 16 text) as [state|]; [|discriminate].
  intros Hzero. cbn [ret]. rewrite Hzero.
  eexists; split; [reflexivity|]. cbn. lia.
Qed.

(** One pass: it never runs out of fuel, the clock does not go back, and it
    moves on by at least ten seconds when the loop goes round again. *)
Lemma poll_once_cases chain self campaign_address w :
  exists r w',
    poll_once chain self campaign_address w = (r, w')
    /\ match r with
       | Ok None => clock w + 10000 <= clock w'
       | Ok (Some _) | Raise _ => clock w <= clock w'
       | OutOfFuel => False
       end.
Proof.
  unfold poll_once, bind.
  destruct (refresh_and_read_spec chain self campaign_address w) as (wr & -> & Hclock).
  destruct (on_state_cases
              (executor_result
                 (outcome (chain (S (List.length (trace w)))
                             (state_read_command self campaign_address)))) wr)
    as (r & w' & -> & _ & Hr).
  exists r, w'. split; [reflexivity|].
  destruct r as [[b|]|e|]; lia.
Qed.

Lemma wait_loop_unfold chain fuel self campaign_address start_time max_wait w :
  wait_loop chain fuel self campaign_address start_time max_wait w
  = if clock w - start_time <? 1000 * max_wait then
      match fuel with
      | O => (OutOfFuel, w)
      | S fuel' =>
          match poll_once chain self campaign_address w with
          | (Ok (Some b), w') => (Ok b, w')
          | (Ok None, w') =>
              wait_loop chain fuel' self campaign_address start_time max_wait w'
          | (Raise e, w') => (Raise e, w')
          | (OutOfFuel, w') => (OutOfFuel, w')
          end
      end
    else (Ok false, add_log w WARNING "Timeout waiting for campaign to end").
Proof.
  destruct fuel; cbn [wait_loop]; unfold bind, time_time;
    destruct (clock w - start_time <? 1000 * max_wait); try reflexivity.
  destruct (poll_once chain self campaign_address w) as [[[b|]|e|] w'];
    reflexivity.
Qed.

(** With enough fuel the loop ends with a value or an exception. *)
Lemma wait_loop_settles chain self campaign_address start_time max_wait :
  forall fuel w,
    enough_fuel fuel start_time max_wait w ->
    fst (wait_loop chain fuel self campaign_address start_time max_wait w)
    <> OutOfFuel.
Proof.
  unfold enough_fuel.
  induction fuel as [|fuel IH]; intros w Hfuel; rewrite wait_loop_unfold;
    destruct (Z.ltb_spec (clock w - start_time) (1000 * max_wait)) as [Hin|Hout];
    try discriminate; [lia|].
  destruct (poll_once_cases chain self campaign_address w) as (r & w' & -> & Hr).
  destruct r as [[b|]|e|]; try discriminate; [|contradiction].
  apply IH. lia.
Qed.

Lemma wait_fuel_enough (max_wait : Z) (w : world) :
  enough_fuel (wait_fuel max_wait) (clock w) max_wait
    (add_log w INFO "Waiting for campaign to end...").
Proof.
  unfold enough_fuel, wait_fuel. cbn [clock add_log].
  Z.div_mod_to_equations. lia.
Qed.

Lemma wait_for_campaign_end_unfold chain self campaign_address max_wait w :
  wait_for_campaign_end chain self campaign_address max_wait w
  = wait_loop chain (wait_fuel max_wait) self campaign_address (clock w) max_wait
      (add_log w INFO "Waiting for campaign to end...").
Proof. reflexivity. Qed.

Lemma settles_wait_for_campaign_end chain self campaign_address max_wait :
  settles (wait_for_campaign_end chain self campaign_address max_wait).
Proof.
  intros w. rewrite wait_for_campaign_end_unfold.
  apply wait_loop_settles, wait_fuel_enough.
Qed.

(** When every state read fails or reads state 0, the loop runs until the
    window has elapsed and then returns false. *)
Lemma wait_loop_times_out chain self campaign_address start_time max_wait :
  (forall n, reads_active_or_fails
               (chain n (state_read_command self campaign_address)) = true) ->
  forall fuel w,
    enough_fuel fuel start_time max_wait w ->
    exists w',
      wait_loop chain fuel self campaign_address start_time max_wait w
      = (Ok false, add_log w' WARNING "Timeout waiting for campaign to end")
      /\ clock w <= clock w'
      /\ 1000 * max_wait <= clock w' - start_time.
Proof.
  intros Hactive. unfold enough_fuel.
  induction fuel as [|fuel IH]; intros w Hfuel; rewrite wait_loop_unfold;
    destruct (Z.ltb_spec (clock w - start_time) (1000 * max_wait)) as [Hin|Hout];
    try (exists w; repeat split; lia).
  unfold poll_once, bind.
  destruct (refresh_and_read_spec chain self campaign_address w) as (wr & -> & Hclock).
  destruct (on_state_active _ wr (Hactive (S (List.length (trace w)))))
    as (w1 & -> & Hw1).
  destruct (IH w1) as (w' & -> & Hle & Hdone); [lia|].
  exists w'. repeat split; lia.
Qed.

(** C6.  [wait_for_campaign_end] is the polling loop started with enough
    fuel, and a pass that goes round again leaves enough fuel.  In any pass
    inside the window, once the state read has returned text that reads as
    1 the function returns true, and as 2 false, in the world of that read
    plus one log line: no further sleep, no further command.  When every
    state read fails or reads 0, it returns false after the window (150
    seconds by default) has elapsed, on the timeout warning. *)
Theorem wait_for_campaign_end_verdicts :
  forall chain self campaign_address,
    (forall max_wait w,
        wait_for_campaign_end chain self campaign_address max_wait w
        = wait_loop chain (wait_fuel max_wait) self campaign_address (clock w)
            max_wait (add_log w INFO "Waiting for campaign to end...")
        /\ enough_fuel (wait_fuel max_wait) (clock w) max_wait
             (add_log w INFO "Waiting for campaign to end...")
        /\ fst (wait_for_campaign_end chain self campaign_address max_wait w)
           <> OutOfFuel)
    /\ (forall fuel start_time max_wait w w1,
           enough_fuel (S fuel) start_time max_wait w ->
           clock w - start_time < 1000 * max_wait ->
           poll_once chain self campaign_address w = (Ok None, w1) ->
           wait_loop chain (S fuel) self campaign_address start_time max_wait w
           = wait_loop chain fuel self campaign_address start_time max_wait w1
           /\ enough_fuel fuel start_time max_wait w1)
    /\ (forall fuel start_time max_wait w text wr,
           enough_fuel fuel start_time max_wait w ->
           clock w - start_time < 1000 * max_wait ->
           refresh_and_read chain self campaign_address w = (Ok (Some text), wr) ->
           text <> "" ->
           (Py.parse_int 16 text = Some 1 ->
            wait_loop chain fuel self campaign_address start_time max_wait w
            = (Ok true, add_log wr INFO "Campaign succeeded!"))
           /\ (Py.parse_int 16 text = Some 2 ->
               wait_loop chain fuel self campaign_address start_time max_wait w
               = (Ok false, add_log wr INFO "Campaign failed!")))
    /\ (forall max_wait w,
           (forall n, reads_active_or_fails
                        (chain n (state_read_command self campaign_address))
                      = true) ->
           exists w',
             wait_for_campaign_end chain self campaign_address max_wait w
             = (Ok false, add_log w' WARNING "Timeout waiting for campaign to end")
             /\ clock w + 1000 * max_wait <= clock w')
    /\ default_max_wait = 150.
Proof.
  intros chain self campaign_address.
  split; [|split; [|split; [|split]]].
  - intros max_wait w. split; [reflexivity|]. split.
    + apply wait_fuel_enough.
    + apply settles_wait_for_campaign_end.
  - intros fuel start_time max_wait w w1 Hfuel Hin Hpoll.
    rewrite wait_loop_unfold, Hpoll.
    apply Z.ltb_lt in Hin as Hin'. rewrite Hin'. split; [reflexivity|].
    destruct (poll_once_cases chain self campaign_address w) as (r & w' & Hp & Hr).
    rewrite Hpoll in Hp. injection Hp as <- <-.
    unfold enough_fuel in *. lia.
  - intros fuel start_time max_wait w text wr Hfuel Hin Hread Hne.
    assert (Hstep : forall b msg,
               on_state (Some text) wr = (Ok (Some b), add_log wr INFO msg) ->
               wait_loop chain fuel self campaign_address start_time max_wait w
               = (Ok b, add_log wr INFO msg)).
    { intros b msg Hon. rewrite wait_loop_unfold.
      apply Z.ltb_lt in Hin as Hin'. rewrite Hin'.
      destruct fuel as [|fuel]; [unfold enough_fuel in Hfuel; lia|].
      unfold poll_once, bind. now rewrite Hread, Hon. }
    split; intros Hparse; apply Hstep;
      [now apply on_state_succeeded | now apply on_state_failed].
  - intros max_wait w Hactive. rewrite wait_for_campaign_end_unfold.
    destruct (wait_loop_times_out chain self campaign_address (clock w) max_wait
                Hactive (wait_fuel max_wait)
                (add_log w INFO "Waiting for campaign to end..."))
      as (w' & -> & _ & Hdone); [apply wait_fuel_enough|].
    exists w'. split; [reflexivity | lia].
  - reflexivity.
Qed.

Lemma wait_for_campaign_end_verdicts_witness :
  (exists w',
      wait_for_campaign_end
        (scripted_chain (completed 50 "0xd0707") (completed 200 "0"))
        sample_suite sample_campaign default_max_wait initial_world
      = (Ok false, add_log w' WARNING "Timeout waiting for campaign to end")
      /\ clock initial_world + 1000 * default_max_wait <= clock w')
  /\ fst (wait_loop (scripted_chain (completed 50 "0xd0707") (completed 200 "1"))
            16 sample_suite sample_campaign 0 default_max_wait initial_world)
     = Ok true
  /\ fst (wait_loop (scripted_chain (completed 50 "0xd0707") (completed 200 "2"))
            16 sample_suite sample_campaign 0 default_max_wait initial_world)
     = Ok false.
Proof.
  split; [|split].
  - apply (wait_for_campaign_end_verdicts
             (scripted_chain (completed 50 "0xd0707") (completed 200 "0"))
             sample_suite sample_campaign).
    intros n. reflexivity.
  - destruct (wait_for_campaign_end_verdicts
                (scripted_chain (completed 50 "0xd0707") (completed 200 "1"))
                sample_suite sample_campaign) as (_ & _ & Hread & _).
    assert (Hfuel : enough_fuel 16 0 default_max_wait initial_world)
      by (unfold enough_fuel; vm_compute; discriminate).
    assert (Hin : clock initial_world - 0 < 1000 * default_max_wait)
      by (vm_compute; reflexivity).
    assert (Hne : "1" <> "") by discriminate.
    rewrite (proj1 (Hread 16%nat 0 default_max_wait initial_world "1" _
                      Hfuel Hin eq_refl Hne) eq_refl).
    reflexivity.
  - destruct (wait_for_campaign_end_verdicts
                (scripted_chain (completed 50 "0xd0707") (completed 200 "2"))
                sample_suite sample_campaign) as (_ & _ & Hread & _).
    assert (Hfuel : enough_fuel 16 0 default_max_wait initial_world)
      by (unfold enough_fuel; vm_compute; discriminate).
    assert (Hin : clock initial_world - 0 < 1000 * default_max_wait)
      by (vm_compute; reflexivity).
    assert (Hne : "2" <> "") by discriminate.
    rewrite (proj2 (Hread 16%nat 0 default_max_wait initial_world "2" _
                      Hfuel Hin eq_refl Hne) eq_refl).
    reflexivity.
Defined.

(* ================================================================== *)
(** * Scenario 3: failure and refund *)
(* ================================================================== *)

(** C7.  In scenario 3, when the wait returns false the scenario returns
    false in the very world in which the wait ended, so no refund command is
    issued; this is what happens when the campaign reaches state 2.  The
    scenario returns true only when creation, the contribution of half the
    goal, the wait and the refund each succeeded. *)
Theorem scenario_3_aborts_before_refund :
  forall chain fl self w,
    let entry := add_log w INFO "=== TEST SCENARIO 3: Campaign failure and refund ===" in
    let half := TestConfig.funding_goal (config self) / 2 in
    (forall campaign_id campaign_address w1 w2 w3,
        create_campaign chain self "Test Campaign 3" 0 entry
        = (Ok (Some (campaign_id, campaign_address)), w1) ->
        contribute_to_campaign chain fl self campaign_address half w1
        = (Ok true, w2) ->
        wait_for_campaign_end chain self campaign_address default_max_wait w2
        = (Ok false, w3) ->
        test_scenario_3_failure_and_refund chain fl self w = (Ok false, w3))
    /\ (forall w',
           test_scenario_3_failure_and_refund chain fl self w = (Ok true, w') ->
           exists campaign_id campaign_address w1 w2 w3 w4,
             create_campaign chain self "Test Campaign 3" 0 entry
             = (Ok (Some (campaign_id, campaign_address)), w1)
             /\ contribute_to_campaign chain fl self campaign_address half w1
                = (Ok true, w2)
             /\ wait_for_campaign_end chain self campaign_address default_max_wait w2
                = (Ok true, w3)
             /\ refund_contribution chain self campaign_address w3 = (Ok true, w4))
    /\ (let run := test_scenario_3_failure_and_refund
                     (scripted_chain (completed 50 "0xd0707") (completed 200 "2"))
                     small_float_ops sample_suite initial_world in
        fst run = Ok false
        /\ existsb (Py.contains_token "getCampaignState()(uint8)") (trace (snd run))
           = true
        /\ existsb (Py.contains_token "refund()") (trace (snd run)) = false).
Proof.
  intros chain fl self w entry half.
  split; [|split].
  - intros campaign_id campaign_address w1 w2 w3 Hcreate Hcontribute Hwait.
    unfold test_scenario_3_failure_and_refund, bind, try_except, logger.
    fold entry. rewrite Hcreate. fold half. rewrite Hcontribute. cbn [negb].
    rewrite Hwait. reflexivity.
  - intros w'.
    unfold test_scenario_3_failure_and_refund, bind, try_except, logger, ret.
    fold entry half.
    destruct (create_campaign chain self "Test Campaign 3" 0 entry)
      as [[[[campaign_id campaign_address]|]|e|] w1] eqn:Hcreate;
      try discriminate.
    destruct (contribute_to_campaign chain fl self campaign_address half w1)
      as [[[|]|e|] w2] eqn:Hcontribute; try discriminate. cbn [negb].
    destruct (wait_for_campaign_end chain self campaign_address default_max_wait w2)
      as [[[|]|e|] w3] eqn:Hwait; try discriminate. cbn [negb].
    destruct (refund_contribution chain self campaign_address w3)
      as [[[|]|e|] w4] eqn:Hrefund; try discriminate. cbn [negb].
    intros _. exists campaign_id, campaign_address, w1, w2, w3, w4.
    repeat split; assumption.
  - vm_compute. repeat split.
Qed.

Lemma scenario_3_aborts_before_refund_witness :
  fst (test_scenario_3_failure_and_refund
         (scripted_chain (completed 50 "0xd0707") (completed 200 "2"))
         small_float_ops sample_suite initial_world) = Ok false.
Proof.
  destruct (scenario_3_aborts_before_refund
              (scripted_chain (completed 50 "0xd0707") (completed 200 "2"))
              small_float_ops sample_suite initial_world) as (Habort & _).
  erewrite Habort.
  - reflexivity.
  - vm_compute. reflexivity.
  - vm_compute. reflexivity.
  - vm_compute. reflexivity.
Defined.

(* ================================================================== *)
(** * Scenario 2: success with liquidity *)
(* ================================================================== *)

Lemma returns_approve_token chain self token_address spender amount :
  returns (approve_token chain self token_address spender amount).
Proof. unfold approve_token. harness. Qed.

Lemma returns_get_pair_address chain self token_a token_b :
  returns (get_pair_address chain self token_a token_b).
Proof. unfold get_pair_address. harness. Qed.

Lemma returns_get_reserves chain self pair_address :
  returns (get_reserves chain self pair_address).
Proof. unfold get_reserves. harness. Qed.

#[export] Hint Resolve returns_approve_token returns_get_pair_address
  returns_get_reserves : harness.

Lemma returns_swap_tokens_for_usdc chain self token_address usdc_address
    token_amount min_usdc_out :
  returns (swap_tokens_for_usdc chain self token_address usdc_address
             token_amount min_usdc_out).
Proof. unfold swap_tokens_for_usdc. harness. Qed.

#[export] Hint Resolve returns_swap_tokens_for_usdc : harness.

(** The composite swap test never raises: every error inside it ends in
    [False]. *)
Lemma returns_test_token_swap chain fl self campaign_token_address usdc_address
    swap_amount :
  returns (test_token_swap chain fl self campaign_token_address usdc_address
             swap_amount).
Proof. unfold test_token_swap. harness. Qed.

Lemma bind_logger {B} lvl msg (k : unit -> M B) (w : world) :
  bind (logger lvl msg) k w = k tt (add_log w lvl msg).
Proof. reflexivity. Qed.

Lemma bind_time_sleep {B} secs (k : unit -> M B) (w : world) :
  bind (time_sleep secs) k w = k tt (pass_time w secs).
Proof. reflexivity. Qed.

Lemma bind_ok {A B} (m : M A) (k : A -> M B) (w : world) (a : A) (w' : world) :
  m w = (Ok a, w') -> bind m k w = k a w'.
Proof. intros H. unfold bind. now rewrite H. Qed.

(** After a successful lifecycle, scenario 2 is its swap probe under the
    scenario's handler. *)
Lemma scenario_2_after_lifecycle chain fl self w token w6 :
  lifecycle_2 chain fl self
    (add_log w INFO "=== TEST SCENARIO 2: Success with 50% liquidity ===")
  = (Ok (Some token), w6) ->
  test_scenario_2_success_with_liquidity chain fl self w
  = try_except (swap_probe chain fl self token)
      (fun e => logger ERROR ("❌ Scenario 2 failed: " ++ exn_str e) ;; ret false)%harness
      w6.
Proof.
  intros Hlife. unfold test_scenario_2_success_with_liquidity.
  rewrite bind_logger. unfold try_except.
  now rewrite (bind_ok _ _ _ _ _ Hlife).
Qed.

(** C1 as stated lets the donor-address fetch fail without consequence; the
    scenario checks it and returns false. *)
Lemma scenario_2_fails_without_donor_address :
  ~ (forall chain fl self w token w6,
        lifecycle_2 chain fl self
          (add_log w INFO "=== TEST SCENARIO 2: Success with 50% liquidity ===")
        = (Ok (Some token), w6) ->
        fst (test_scenario_2_success_with_liquidity chain fl self w) = Ok true).
Proof.
  intros H.
  specialize (H (scripted_chain (failed 50 "invalid private key") (completed 200 "1"))
                small_float_ops sample_suite initial_world sample_token
                (snd (lifecycle_2
                        (scripted_chain (failed 50 "invalid private key")
                           (completed 200 "1"))
                        small_float_ops sample_suite
                        (add_log initial_world INFO
                           "=== TEST SCENARIO 2: Success with 50% liquidity ===")))).
  assert (Hrun : fst (test_scenario_2_success_with_liquidity
                        (scripted_chain (failed 50 "invalid private key")
                           (completed 200 "1"))
                        small_float_ops sample_suite initial_world) = Ok false)
    by (vm_compute; reflexivity).
  rewrite Hrun in H.
  assert (Habs : @Ok bool false = Ok true); [|discriminate Habs].
  apply H. vm_compute. reflexivity.
Qed.

(** C1, as amended.  Once the lifecycle of scenario 2 has succeeded through
    "claim tokens", the scenario returns false when the donor-address fetch
    gives no address; when it gives one and the balance read returns, the
    scenario returns true whatever the balance and whatever the composite
    swap test does, which always returns and, when it returns false, only
    adds a warning. *)
Theorem scenario_2_passes_whatever_the_swap :
  forall chain fl self w token w6,
    lifecycle_2 chain fl self
      (add_log w INFO "=== TEST SCENARIO 2: Success with 50% liquidity ===")
    = (Ok (Some token), w6) ->
    forall donor_address w7,
      get_account_address chain (donor_cast self)
        (pass_time (add_log w6 INFO "Testing token swap functionality...") 10)
      = (Ok donor_address, w7) ->
      (Py.truthy_opt donor_address = false ->
       fst (test_scenario_2_success_with_liquidity chain fl self w) = Ok false)
      /\ (forall donor token_balance w8,
             donor_address = Some donor -> donor <> "" ->
             get_balance chain (donor_cast self) token donor w7
             = (Ok token_balance, w8) ->
             fst (test_scenario_2_success_with_liquidity chain fl self w) = Ok true
             /\ (exists success w9,
                    test_token_swap chain fl (uniswap self) token
                      (usdc (TestConfig.addresses (config self)))
                      (token_balance / 10) w8 = (Ok success, w9))
             /\ (forall w9,
                    0 < token_balance -> 0 < token_balance / 10 ->
                    test_token_swap chain fl (uniswap self) token
                      (usdc (TestConfig.addresses (config self)))
                      (token_balance / 10) w8 = (Ok false, w9) ->
                    test_scenario_2_success_with_liquidity chain fl self w
                    = (Ok true,
                       add_log
                         (add_log w9 WARNING
                            "⚠️ Token swap test failed, but campaign succeeded")
                         INFO "✅ Scenario 2 completed successfully!"))).
Proof.
  intros chain fl self w token w6 Hlife donor_address w7 Hdonor.
  rewrite (scenario_2_after_lifecycle _ _ _ _ _ _ Hlife).
  unfold try_except, swap_probe.
  rewrite bind_logger, bind_time_sleep, (bind_ok _ _ _ _ _ Hdonor).
  split.
  - intros Hnone. destruct donor_address as [donor|]; [|reflexivity].
    simpl in Hnone. rewrite Hnone. reflexivity.
  - intros donor token_balance w8 -> Hne Hbalance.
    rewrite (truthy_nonempty _ Hne). cbn [negb].
    rewrite (bind_ok _ _ _ _ _ Hbalance).
    destruct (returns_test_token_swap chain fl (uniswap self) token
                (usdc (TestConfig.addresses (config self)))
                (token_balance / 10) w8) as (success & w9 & Hswap).
    split; [|split].
    + unfold bind at 1.
      destruct (0 <? token_balance); [|reflexivity].
      destruct (0 <? token_balance / 10); [|reflexivity].
      rewrite (bind_ok _ _ _ _ _ Hswap). destruct success; reflexivity.
    + now exists success, w9.
    + intros w9' Hpos Hamount Hfalse.
      apply Z.ltb_lt in Hpos, Hamount.
      unfold bind at 1. rewrite Hpos, Hamount, (bind_ok _ _ _ _ _ Hfalse).
      reflexivity.
Qed.

Lemma scenario_2_passes_whatever_the_swap_witness :
  fst (test_scenario_2_success_with_liquidity
         (scripted_chain (completed 50 "0xd0707") (completed 200 "1"))
         small_float_ops sample_suite initial_world) = Ok true.
Proof.
  eapply (scenario_2_passes_whatever_the_swap
            (scripted_chain (completed 50 "0xd0707") (completed 200 "1"))
            small_float_ops sample_suite initial_world).
  - vm_compute. reflexivity.
  - vm_compute. reflexivity.
  - reflexivity.
  - discriminate.
  - vm_compute. reflexivity.
Defined.

(* ================================================================== *)
(** * Further properties: the pricing formula *)
(* ================================================================== *)

Lemma get_amount_out_positive_reserves (amount_in reserve_in reserve_out : Z) :
  0 <= amount_in -> 0 < reserve_in -> 0 < reserve_out ->
  get_amount_out amount_in reserve_in reserve_out
  = (amount_in * 997 * reserve_out) / (reserve_in * 1000 + amount_in * 997).
Proof.
  intros Ha Hri Hro. unfold get_amount_out.
  destruct (Z.eqb_spec reserve_in 0); [lia|].
  destruct (Z.eqb_spec reserve_out 0); [lia|].
  cbn [orb].
  destruct (Z.ltb_spec 0 (reserve_in * 1000 + amount_in * 997)); [reflexivity | lia].
Qed.

(** X1.  With positive reserves the quoted output is non-negative and less
    than the output reserve, the product of the reserves after the swap,
    [(reserveIn + amountIn) * (reserveOut - out)], is not below the product
    before it, and the output is never better than the spot price. *)
Theorem get_amount_out_keeps_product :
  forall amount_in reserve_in reserve_out : Z,
    0 <= amount_in -> 0 < reserve_in -> 0 < reserve_out ->
    let out := get_amount_out amount_in reserve_in reserve_out in
    0 <= out < reserve_out
    /\ reserve_in * reserve_out <= (reserve_in + amount_in) * (reserve_out - out)
    /\ out * reserve_in <= amount_in * reserve_out.
Proof.
  intros a ri ro Ha Hri Hro out. unfold out.
  rewrite get_amount_out_positive_reserves by assumption.
  set (D := ri * 1000 + a * 997).
  set (N := a * 997 * ro).
  assert (HD : 0 < D) by (unfold D; lia).
  assert (HN : 0 <= N) by (unfold N; nia).
  assert (Hq0 : 0 <= N / D) by (apply Z.div_pos; lia).
  assert (Hq1 : D * (N / D) <= N) by (apply Z.mul_div_le; exact HD).
  assert (Hlt : N / D < ro).
  { apply Z.div_lt_upper_bound; [exact HD|]. unfold N, D. nia. }
  assert (Hkey : N / D * (ri + a) <= a * ro).
  { unfold N, D in *. nia. }
  repeat split; try lia; nia.
Qed.

Lemma get_amount_out_keeps_product_witness :
  0 <= get_amount_out 1000000 100000000 200000000 < 200000000.
Proof.
  apply (get_amount_out_keeps_product 1000000 100000000 200000000); lia.
Defined.

(** X2.  With positive reserves a larger input never buys less. *)
Theorem get_amount_out_monotone :
  forall amount_1 amount_2 reserve_in reserve_out : Z,
    0 <= amount_1 -> amount_1 <= amount_2 -> 0 < reserve_in -> 0 < reserve_out ->
    get_amount_out amount_1 reserve_in reserve_out
    <= get_amount_out amount_2 reserve_in reserve_out.
Proof.
  intros a1 a2 ri ro H1 H12 Hri Hro.
  rewrite !get_amount_out_positive_reserves by lia.
  set (D1 := ri * 1000 + a1 * 997). set (N1 := a1 * 997 * ro).
  set (D2 := ri * 1000 + a2 * 997). set (N2 := a2 * 997 * ro).
  assert (HD1 : 0 < D1) by (unfold D1; lia).
  assert (HD2 : 0 < D2) by (unfold D2; lia).
  assert (HN1 : 0 <= N1) by (unfold N1; nia).
  assert (Hq0 : 0 <= N1 / D1) by (apply Z.div_pos; lia).
  assert (Hq1 : D1 * (N1 / D1) <= N1) by (apply Z.mul_div_le; exact HD1).
  apply Z.div_le_lower_bound; [exact HD2|].
  assert (Hgap : 0 <= ro * ri * (a2 - a1))
    by (apply Z.mul_nonneg_nonneg; [apply Z.mul_nonneg_nonneg|]; lia).
  assert (Hcross : N1 * D2 <= N2 * D1) by (unfold N1, N2, D1, D2; lia).
  assert (Hstep : D2 * (D1 * (N1 / D1)) <= D2 * N1)
    by (apply Z.mul_le_mono_nonneg_l; lia).
  assert (Hscaled : D1 * (D2 * (N1 / D1)) <= D1 * N2).
  { clearbody D1 D2 N1 N2. lia. }
  apply Z.mul_le_mono_pos_l in Hscaled; assumption.
Qed.

Lemma get_amount_out_monotone_witness :
  get_amount_out 10 1000 1000 <= get_amount_out 20 1000 1000.
Proof.
  apply (get_amount_out_monotone 10 20 1000 1000); lia.
Defined.

(* ================================================================== *)
(** * Further properties: the executor's clients *)
(* ================================================================== *)

Lemma get_account_address_spec chain self w :
  let r := chain (List.length (trace w)) (wallet_command self) in
  get_account_address chain self w
  = (Ok (executor_result (outcome r)),
     World (clock w + Z.of_N (elapsed r))
           (trace w ++ [wallet_command self])
           (log w ++ account_log (outcome r))).
Proof.
  intros r.
  unfold get_account_address, try_except, bind, subprocess_run, logger, add_log, ret.
  fold (wallet_command self). cbn [clock trace log]. fold r.
  unfold executor_result, account_log.
  destruct (outcome r) as [rc out err | e]; cbn [clock trace log].
  - destruct (negb (rc =? 0)); cbn [clock trace log];
      rewrite <- app_assoc; reflexivity.
  - destruct e; cbn [clock trace log]; rewrite <- app_assoc; reflexivity.
Qed.

Lemma returns_get_account_address chain self :
  returns (get_account_address chain self).
Proof. intros w. rewrite get_account_address_spec. now eexists _, _. Qed.

#[export] Hint Resolve returns_get_account_address : harness.

(** X3.  [get_account_address] never raises: it hands the subprocess the
    four tokens [cast wallet address <key>], with no endpoint flag, returns
    the stripped output on exit code 0 and [None] on a non-zero exit code, a
    timeout or any other exception, and logs two lines that do not depend on
    the key. *)
Theorem get_account_address_never_raises :
  forall chain self w,
    let o := outcome (chain (List.length (trace w))
                        ["cast"; "wallet"; "address"; private_key self]) in
    let after := get_account_address chain self w in
    trace (snd after)
    = (trace w ++ [["cast"; "wallet"; "address"; private_key self]])%list
    /\ (forall stdout stderr,
           o = Completed 0 stdout stderr -> fst after = Ok (Some (Py.strip stdout)))
    /\ (forall returncode stdout stderr,
           o = Completed returncode stdout stderr -> returncode <> 0 ->
           fst after = Ok None)
    /\ (forall e, o = Raised e -> fst after = Ok None)
    /\ log (snd after) = (log w ++ account_log o)%list.
Proof.
  intros chain self w o after. unfold after.
  rewrite get_account_address_spec. fold (wallet_command self) in o. fold o.
  cbn [fst snd trace log]. split; [reflexivity|].
  split; [intros out err ->; reflexivity|].
  split.
  { intros rc out err -> Hrc. cbn.
    destruct (Z.eqb_spec rc 0); [contradiction | reflexivity]. }
  split; [intros e ->; reflexivity | reflexivity].
Qed.

Lemma get_account_address_never_raises_witness :
  fst (get_account_address (fun _ _ => completed 30 "0xd0707 ")
         (mkCastInteractor "http://localhost:8545" "0xc0de02") initial_world)
  = Ok (Some "0xd0707")
  /\ fst (get_account_address (fun _ _ => failed 30 "bad key")
            (mkCastInteractor "http://localhost:8545" "0xc0de02") initial_world)
     = Ok None.
Proof.
  split.
  - apply (proj1 (proj2 (get_account_address_never_raises
                           (fun _ _ => completed 30 "0xd0707 ")
                           (mkCastInteractor "http://localhost:8545" "0xc0de02")
                           initial_world)) "0xd0707 " "").
    reflexivity.
  - apply (proj1 (proj2 (proj2 (get_account_address_never_raises
                                  (fun _ _ => failed 30 "bad key")
                                  (mkCastInteractor "http://localhost:8545" "0xc0de02")
                                  initial_world))) 1 "" "bad key");
      [reflexivity | discriminate].
Defined.

Lemma approve_token_spec chain self token_address spender amount w :
  let command := ["send"; token_address; "approve(address,uint256)"; spender;
                  Py.str_of_int amount] in
  let r := chain (List.length (trace w)) (assemble_command self command) in
  approve_token chain self token_address spender amount w
  = (Ok (match executor_result (outcome r) with Some _ => true | None => false end),
     World (clock w + Z.of_N (elapsed r))
           (trace w ++ [assemble_command self command])
           (log w ++ executor_log "cast_interactor.py:66"
                       (firstn 3 (assemble_command self command)) (outcome r))).
Proof.
  intros command r. unfold approve_token, bind, ret.
  fold command. rewrite run_cast_command_spec. reflexivity.
Qed.

Lemma report_spec (result : option string) (ok_prefix failed_text : string) (w : world) :
  exists line,
    report result ok_prefix failed_text w
    = (Ok (Py.truthy_opt result), World (clock w) (trace w) (log w ++ [line])).
Proof.
  unfold report, bind, logger, add_log, ret.
  destruct result as [r|]; [destruct (Py.truthy r) eqn:Ht|];
    cbn [Py.truthy_opt]; try rewrite Ht; eexists; reflexivity.
Qed.

(** X4.  [approve_token] issues one signed [approve] transaction carrying the
    amount in decimal, and returns true exactly when the subprocess exits
    with code 0: an exit code 0 with blank output still counts as approved,
    where [claim_tokens] on the same reply reports failure. *)
Theorem approve_token_true_iff_exit_zero :
  forall chain self token_address spender amount w,
    let command :=
      ["cast"; "send"; token_address; "approve(address,uint256)"; spender;
       Py.str_of_int amount; "--rpc-url"; rpc_url self;
       "--private-key"; private_key self] in
    let o := outcome (chain (List.length (trace w)) command) in
    let after := approve_token chain self token_address spender amount w in
    trace (snd after) = (trace w ++ [command])%list
    /\ (exists approved, fst after = Ok approved
                         /\ (approved = true <->
                             exists stdout stderr, o = Completed 0 stdout stderr))
    /\ fst (approve_token (fun _ _ => completed 10 "  ") self token_address
              spender amount w) = Ok true
    /\ (forall suite campaign_address,
           fst (claim_tokens (fun _ _ => completed 10 "  ") suite
                  campaign_address w) = Ok false).
Proof.
  intros chain self token_address spender amount w command o after.
  unfold after. rewrite approve_token_spec.
  change (assemble_command self
            ["send"; token_address; "approve(address,uint256)"; spender;
             Py.str_of_int amount]) with command.
  fold o. cbn [fst snd trace].
  split; [reflexivity|]. split; [|split].
  - eexists. split; [reflexivity|].
    unfold executor_result. destruct o as [rc out err | e].
    + destruct (Z.eqb_spec rc 0) as [->|Hrc]; cbn [negb].
      * split; [intros _; now exists out, err | reflexivity].
      * split; [discriminate|]. intros (out' & err' & Ho).
        injection Ho as -> _ _. contradiction.
    + split; [discriminate|]. intros (out' & err' & Ho). discriminate Ho.
  - rewrite approve_token_spec. reflexivity.
  - intros suite campaign_address.
    unfold claim_tokens, bind, logger. rewrite run_cast_command_spec.
    reflexivity.
Qed.

(** The shape shared by the four single-transaction operations. *)
Lemma logged_transaction_spec chain actor caller command intro ok_prefix failed_text w :
  let r := chain (List.length (trace w)) (assemble_command actor command) in
  let after :=
    (logger INFO intro ;;
     result <- run_cast_command chain actor caller command ;;
     report result ok_prefix failed_text)%harness w in
  fst after = Ok (Py.truthy_opt (executor_result (outcome r)))
  /\ trace (snd after) = (trace w ++ [assemble_command actor command])%list
  /\ clock (snd after) = clock w + Z.of_N (elapsed r).
Proof.
  intros r after. unfold after.
  rewrite bind_logger. unfold bind. rewrite run_cast_command_spec.
  cbn [add_log trace clock log]. fold r.
  match goal with
  | |- context [report ?res ?a ?b ?w0] =>
      destruct (report_spec res a b w0) as (line & ->)
  end.
  cbn [fst snd trace clock]. repeat split.
Qed.

(** X5.  [claim_tokens] and [refund_contribution] each issue exactly one
    transaction signed with the donor's key, [withdraw_funds] and
    [create_liquidity_pool] one signed with the creator's key; each returns
    true exactly when the executor returned non-empty text. *)
Theorem transactions_signed_by_their_actor :
  forall chain self campaign_address w,
    let tx (actor : CastInteractor) (signature : string) :=
      ["cast"; "send"; campaign_address; signature; "--rpc-url"; rpc_url actor;
       "--private-key"; private_key actor] in
    let verdict (command : list string) :=
      Py.truthy_opt
        (executor_result (outcome (chain (List.length (trace w)) command))) in
    let donor := donor_cast self in
    let creator := creator_cast self in
    (fst (claim_tokens chain self campaign_address w)
     = Ok (verdict (tx donor "claimTokens()"))
     /\ trace (snd (claim_tokens chain self campaign_address w))
        = (trace w ++ [tx donor "claimTokens()"])%list)
    /\ (fst (refund_contribution chain self campaign_address w)
        = Ok (verdict (tx donor "refund()"))
        /\ trace (snd (refund_contribution chain self campaign_address w))
           = (trace w ++ [tx donor "refund()"])%list)
    /\ (fst (withdraw_funds chain self campaign_address w)
        = Ok (verdict (tx creator "withdrawFunds()"))
        /\ trace (snd (withdraw_funds chain self campaign_address w))
           = (trace w ++ [tx creator "withdrawFunds()"])%list)
    /\ (fst (create_liquidity_pool chain self campaign_address w)
        = Ok (verdict (tx creator "createLiquidityPool()"))
        /\ trace (snd (create_liquidity_pool chain self campaign_address w))
           = (trace w ++ [tx creator "createLiquidityPool()"])%list).
Proof.
  intros chain self campaign_address w tx verdict donor creator.
  unfold claim_tokens, refund_contribution, withdraw_funds, create_liquidity_pool.
  repeat split;
    match goal with
    | |- context [run_cast_command chain ?actor ?caller ?command] =>
        match goal with
        | |- context [logger INFO ?intro] =>
            match goal with
            | |- context [report _ ?a ?b] =>
                destruct (logged_transaction_spec chain actor caller command
                            intro a b w) as (Hfst & Htrace & _)
            end
        end
    end; first [exact Hfst | exact Htrace].
Qed.

(** The trace after a bind whose continuation issues no command. *)
Lemma trace_after_read chain self caller command {A} (k : option string -> M A) w :
  (forall result w0, trace (snd (k result w0)) = trace w0) ->
  trace (snd (bind (run_cast_command chain self caller command) k w))
  = (trace w ++ [assemble_command self command])%list.
Proof.
  intros Hk. unfold bind. rewrite run_cast_command_spec. now rewrite Hk.
Qed.

Lemma unsigned_without_send (self : CastInteractor) (command : list string) :
  ~ In "send" command ->
  assemble_command self command
  = ("cast" :: command ++ ["--rpc-url"; rpc_url self])%list.
Proof.
  intros Hnot. rewrite assemble_command_cases.
  replace (Py.contains_token "send" command) with false.
  - now rewrite app_nil_r.
  - symmetry. destruct (Py.contains_token "send" command) eqn:E; [|reflexivity].
    apply contains_token_In in E. contradiction.
Qed.

Lemma trace_get_reserves chain helper pair_address w :
  trace (snd (get_reserves chain helper pair_address w))
  = (trace w ++ [assemble_command (cast helper)
                   ["call"; pair_address;
                    "getReserves()(uint112,uint112,uint32)"]])%list.
Proof.
  unfold get_reserves.
  apply trace_after_read. intros [r|] w0; [|reflexivity].
  destruct (Py.truthy r); [|reflexivity]. cbn [negb].
  unfold try_except, bind, py_int, logger, ret.
  destruct (Py.split "," (Py.strip_chars "()" r)) as [|p0 [|p1 rest]];
    try reflexivity.
  destruct (Py.parse_int 16 (Py.strip p0)); [|reflexivity].
  cbn [raise]. destruct (Py.parse_int 16 (Py.strip p1)); reflexivity.
Qed.

(** X6.  Each read operation hands exactly one command to the subprocess,
    also when it then raises or returns no value, and that command is
    [cast], the arguments and the endpoint flag, with no signing key,
    provided none of the arguments is the token ["send"]. *)
Theorem read_operations_issue_one_unsigned_command :
  forall chain (self : CastInteractor) (helper : UniswapV2Helper) w,
    (forall args, ~ In "send" args ->
                  assemble_command self args
                  = ("cast" :: args ++ ["--rpc-url"; rpc_url self])%list)
    /\ (forall token_address account,
           trace (snd (get_balance chain self token_address account w))
           = (trace w ++ [assemble_command self
                            ["call"; token_address; "balanceOf(address)(uint256)";
                             account]])%list)
    /\ (forall factory_address campaign_id,
           trace (snd (get_campaign_details chain self factory_address campaign_id w))
           = (trace w ++ [assemble_command self
                            ["call"; factory_address; "getCampaign(uint256)";
                             Py.str_of_int campaign_id]])%list)
    /\ (forall factory_address campaign_id,
           trace (snd (get_campaign_address chain self factory_address campaign_id w))
           = (trace w ++ [assemble_command self
                            ["call"; factory_address; "getCampaignAddress(uint256)";
                             Py.str_of_int campaign_id]])%list)
    /\ (forall token_a token_b,
           trace (snd (get_pair_address chain helper token_a token_b w))
           = (trace w ++ [assemble_command (cast helper)
                            ["call"; FACTORY_ADDRESS;
                             "getPair(address,address)(address)";
                             token_a; token_b]])%list)
    /\ (forall pair_address,
           trace (snd (get_reserves chain helper pair_address w))
           = (trace w ++ [assemble_command (cast helper)
                            ["call"; pair_address;
                             "getReserves()(uint112,uint112,uint32)"]])%list).
Proof.
  intros chain self helper w.
  split; [intros args; apply unsigned_without_send|].
  split; [|split; [|split; [|split]]].
  - intros token_address account. unfold get_balance.
    apply trace_after_read. intros [r|] w0; [|reflexivity].
    destruct (Py.truthy r); [|reflexivity].
    unfold py_int. destruct (Py.parse_int 16 r); reflexivity.
  - intros factory_address campaign_id. unfold get_campaign_details.
    apply trace_after_read. intros [r|] w0; [|reflexivity].
    destruct (Py.truthy r); reflexivity.
  - intros factory_address campaign_id. unfold get_campaign_address.
    apply trace_after_read. reflexivity.
  - intros token_a token_b. unfold get_pair_address.
    apply trace_after_read. reflexivity.
  - intros pair_address. apply trace_get_reserves.
Qed.

(** X7.  [contribute_to_campaign] sends the contribution only after the
    approval succeeded: when the approval gives no result it returns false
    with the approval as the only command issued; otherwise the two signed
    commands are issued in order, at least five seconds pass, and the result
    tells whether the contribution returned non-empty text.  When
    [amount / 10**6] is too large for a float, the [OverflowError] of the
    division leaves the function before anything is issued. *)
Theorem contribute_only_after_approval :
  forall chain fl self campaign_address amount w,
    let donor := donor_cast self in
    let approval :=
      ["cast"; "send"; usdc (TestConfig.addresses (config self));
       "approve(address,uint256)"; campaign_address; Py.str_of_int amount;
       "--rpc-url"; rpc_url donor; "--private-key"; private_key donor] in
    let contribution :=
      ["cast"; "send"; campaign_address; "contribute(uint256)";
       Py.str_of_int amount;
       "--rpc-url"; rpc_url donor; "--private-key"; private_key donor] in
    let n := List.length (trace w) in
    let after := contribute_to_campaign chain fl self campaign_address amount w in
    (true_div_1e6 fl amount = None ->
     after
     = (Raise (OverflowError "integer division result too large for a float"), w))
    /\ (true_div_1e6 fl amount <> None ->
        executor_result (outcome (chain n approval)) = None ->
        fst after = Ok false /\ trace (snd after) = (trace w ++ [approval])%list)
    /\ (true_div_1e6 fl amount <> None ->
        executor_result (outcome (chain n approval)) <> None ->
        fst after
        = Ok (Py.truthy_opt (executor_result (outcome (chain (S n) contribution))))
        /\ trace (snd after) = (trace w ++ [approval; contribution])%list
        /\ clock w + 5000 <= clock (snd after)).
Proof.
  intros chain fl self campaign_address amount w donor approval contribution n after.
  unfold after, contribute_to_campaign.
  assert (Happroval :
            assemble_command (donor_cast self)
              ["send"; usdc (TestConfig.addresses (config self));
               "approve(address,uint256)"; campaign_address;
               Py.str_of_int amount] = approval) by reflexivity.
  assert (Hcontribution :
            assemble_command (donor_cast self)
              ["send"; campaign_address; "contribute(uint256)";
               Py.str_of_int amount] = contribution) by reflexivity.
  unfold bind, true_division.
  destruct (true_div_1e6 fl amount) as [shown|];
    (split; [|split]); try congruence; try (intros; reflexivity);
    intros _ Happroved; cbn [ret logger].
  - rewrite approve_token_spec, Happroval. cbn [add_log trace clock log].
    fold n. rewrite Happroved. cbn [negb logger ret add_log fst snd trace].
    split; reflexivity.
  - rewrite approve_token_spec, Happroval. cbn [add_log trace clock log].
    fold n.
    destruct (executor_result (outcome (chain n approval))) as [tx|];
      [clear Happroved | contradiction].
    cbn [negb time_sleep]. rewrite run_cast_command_spec, Hcontribution.
    cbn [pass_time trace clock log].
    replace (List.length (trace w ++ [approval])) with (S n)
      by (rewrite length_app; simpl; unfold n; lia).
    match goal with
    | |- context [report ?res ?a ?b ?w0] =>
        destruct (report_spec res a b w0) as (line & ->)
    end.
    cbn [fst snd trace clock]. rewrite <- app_assoc.
    split; [reflexivity|]. split; [reflexivity | lia].
Qed.

Lemma contribute_only_after_approval_witness :
  fst (contribute_to_campaign (fun _ _ => failed 10 "insufficient allowance")
         small_float_ops sample_suite sample_campaign 1000000000 initial_world)
  = Ok false
  /\ List.length
       (trace (snd (contribute_to_campaign
                      (fun _ _ => failed 10 "insufficient allowance")
                      small_float_ops sample_suite sample_campaign 1000000000
                      initial_world))) = 1%nat.
Proof.
  destruct (contribute_only_after_approval
              (fun _ _ => failed 10 "insufficient allowance")
              small_float_ops sample_suite sample_campaign 1000000000
              initial_world) as (_ & Hfail & _).
  destruct Hfail as [Hfst Htrace]; [discriminate | reflexivity |].
  split; [exact Hfst | now rewrite Htrace].
Defined.

Lemma length_snoc {A} (l : list A) (x : A) :
  List.length (l ++ [x]) = S (List.length l).
Proof. rewrite length_app. simpl. lia. Qed.

(** X8.  When [create_campaign] returns an identifier and an address, the
    identifier is the campaign count read after the creation, minus one; the
    address is the canonical form of what the factory returned for that
    identifier and is not empty; exactly three commands were issued (the
    signed creation with the fixed creator reserve 25, the count read and
    the address read), and at least ten seconds have passed.  The name is
    one whose first four characters have their upper-case forms below code
    point 256, so that the token symbol is a [string]. *)
Theorem create_campaign_id_is_count_minus_one :
  forall chain self name liquidity_percentage w campaign_id campaign_address w',
    Py.upper_in_range (Py.take 4 name) = true ->
    create_campaign chain self name liquidity_percentage w
    = (Ok (Some (campaign_id, campaign_address)), w') ->
    let creator := creator_cast self in
    let factory_address := factory (TestConfig.addresses (config self)) in
    let creation :=
      ["cast"; "send"; factory_address;
       "createCampaign(string,string,uint256,uint256,uint256,uint256,string,string)";
       name; "ipfs://test-metadata";
       Py.str_of_int (TestConfig.funding_goal (config self));
       Py.str_of_int (TestConfig.campaign_duration (config self));
       "25"; Py.str_of_int liquidity_percentage;
       name ++ " Token"; Py.upper (Py.take 4 name);
       "--rpc-url"; rpc_url creator; "--private-key"; private_key creator] in
    let count_read :=
      assemble_command creator
        ["call"; factory_address; "getCampaignCount()(uint256)"] in
    let address_read :=
      assemble_command creator
        ["call"; factory_address; "getCampaignAddress(uint256)";
         Py.str_of_int campaign_id] in
    let n := List.length (trace w) in
    exists count,
      executor_result (outcome (chain (S n) count_read)) = Some count
      /\ Py.parse_int 10 count = Some (campaign_id + 1)
      /\ canonical_address
           (executor_result (outcome (chain (S (S n)) address_read)))
         = Some campaign_address
      /\ campaign_address <> ""
      /\ trace w' = (trace w ++ [creation; count_read; address_read])%list
      /\ clock w + 10000 <= clock w'.
Proof.
  intros chain self name liquidity_percentage w campaign_id campaign_address w'.
  intros _ Hrun creator factory_address creation count_read address_read n.
  revert Hrun. unfold create_campaign, get_campaign_address, py_int.
  fold creator factory_address.
  rewrite bind_logger. unfold bind at 1.
  rewrite run_cast_command_spec.
  change (assemble_command creator
            ["send"; factory_address;
             "createCampaign(string,string,uint256,uint256,uint256,uint256,string,string)";
             name; "ipfs://test-metadata";
             Py.str_of_int (TestConfig.funding_goal (config self));
             Py.str_of_int (TestConfig.campaign_duration (config self));
             "25"; Py.str_of_int liquidity_percentage;
             name ++ " Token"; Py.upper (Py.take 4 name)]) with creation.
  cbn [add_log trace clock log]. fold n.
  destruct (executor_result (outcome (chain n creation))) as [tx|];
    [|rewrite bind_logger; discriminate].
  destruct (Py.truthy tx); cbn [negb]; [|rewrite bind_logger; discriminate].
  rewrite bind_logger, bind_time_sleep. unfold bind at 1.
  rewrite run_cast_command_spec. fold count_read.
  cbn [pass_time add_log trace clock log]. rewrite length_snoc. fold n.
  destruct (executor_result (outcome (chain (S n) count_read))) as [count|];
    [|rewrite bind_logger; discriminate].
  destruct (Py.truthy count); cbn [negb]; [|rewrite bind_logger; discriminate].
  unfold bind at 1.
  destruct (Py.parse_int 10 count) as [total|] eqn:Hparse; [|discriminate].
  cbn [ret]. unfold bind at 1. unfold bind at 1.
  rewrite run_cast_command_spec.
  cbn [trace clock log ret]. rewrite !length_snoc. fold n.
  match goal with
  | |- context [canonical_address ?x] =>
      destruct (canonical_address x) as [address|] eqn:Hlocated
  end; [|rewrite bind_logger; discriminate].
  destruct (Py.truthy address) eqn:Htruthy; cbn [negb];
    [|rewrite bind_logger; discriminate].
  rewrite bind_logger. cbn [ret add_log].
  intros Hrun. injection Hrun as Hid Haddr Hw.
  unfold address_read. subst campaign_id campaign_address w'.
  exists count. repeat split.
  - rewrite Hparse. f_equal. lia.
  - exact Hlocated.
  - intros ->. discriminate Htruthy.
  - cbn [trace add_log]. rewrite <- !app_assoc. reflexivity.
  - cbn [clock add_log]. lia.
Qed.

Lemma create_campaign_id_is_count_minus_one_witness :
  exists count,
    executor_result
      (outcome (scripted_chain (completed 50 "0xd0707") (completed 200 "1") 1
                  (assemble_command (creator_cast sample_suite)
                     ["call"; factory (TestConfig.addresses (config sample_suite));
                      "getCampaignCount()(uint256)"])))
    = Some count
    /\ Py.parse_int 10 count = Some (0 + 1).
Proof.
  destruct (create_campaign_id_is_count_minus_one
              (scripted_chain (completed 50 "0xd0707") (completed 200 "1"))
              sample_suite "Test Campaign 2" 50 initial_world 0 sample_campaign
              (snd (create_campaign
                      (scripted_chain (completed 50 "0xd0707") (completed 200 "1"))
                      sample_suite "Test Campaign 2" 50 initial_world)))
    as (count & Hcount & Hparse & _).
  - reflexivity.
  - vm_compute. reflexivity.
  - exists count. split; [exact Hcount | exact Hparse].
Defined.

(** X9.  When the creation transaction gives no text, [create_campaign]
    returns no value without reading the campaign count.  When the count
    that was read is not a decimal literal, the [ValueError] of
    [int(count, 10)], whose message shows at most 200 characters of
    [repr(count)], leaves [create_campaign] and no address is read.  The
    name is one whose first four characters have their upper-case forms
    below code point 256. *)
Theorem create_campaign_failure_paths :
  forall chain self name liquidity_percentage w,
    Py.upper_in_range (Py.take 4 name) = true ->
    let creator := creator_cast self in
    let factory_address := factory (TestConfig.addresses (config self)) in
    let creation :=
      assemble_command creator
        ["send"; factory_address;
         "createCampaign(string,string,uint256,uint256,uint256,uint256,string,string)";
         name; "ipfs://test-metadata";
         Py.str_of_int (TestConfig.funding_goal (config self));
         Py.str_of_int (TestConfig.campaign_duration (config self));
         "25"; Py.str_of_int liquidity_percentage;
         name ++ " Token"; Py.upper (Py.take 4 name)] in
    let count_read :=
      assemble_command creator
        ["call"; factory_address; "getCampaignCount()(uint256)"] in
    let n := List.length (trace w) in
    let after := create_campaign chain self name liquidity_percentage w in
    (Py.truthy_opt (executor_result (outcome (chain n creation))) = false ->
     fst after = Ok None /\ trace (snd after) = (trace w ++ [creation])%list)
    /\ (Py.truthy_opt (executor_result (outcome (chain n creation))) = true ->
        forall count,
          executor_result (outcome (chain (S n) count_read)) = Some count ->
          count <> "" ->
          Py.parse_int 10 count = None ->
          fst after
          = Raise (ValueError ("invalid literal for int() with base 10: "
                                 ++ Py.take 200 (Py.repr count)))
          /\ trace (snd after) = (trace w ++ [creation; count_read])%list).
Proof.
  intros chain self name liquidity_percentage w _ creator factory_address
    creation count_read n after.
  unfold after. clear after.
  destruct (create_campaign chain self name liquidity_percentage w)
    as [r wf] eqn:Hrun.
  cbn [fst snd].
  unfold create_campaign, py_int in Hrun. fold creator factory_address in Hrun.
  rewrite bind_logger in Hrun. unfold bind at 1 in Hrun.
  rewrite run_cast_command_spec in Hrun. fold creation in Hrun.
  cbn [add_log trace clock log] in Hrun. fold n in Hrun.
  split.
  - intros Hfalsy.
    destruct (executor_result (outcome (chain n creation))) as [tx|];
      [cbn [Py.truthy_opt] in Hfalsy; rewrite Hfalsy in Hrun; cbn [negb] in Hrun|];
      rewrite bind_logger in Hrun; injection Hrun as <- <-; split; reflexivity.
  - intros Htruthy count Hcount Hne Hparse.
    destruct (executor_result (outcome (chain n creation))) as [tx|];
      [|discriminate Htruthy].
    cbn [Py.truthy_opt] in Htruthy. rewrite Htruthy in Hrun. cbn [negb] in Hrun.
    rewrite bind_logger, bind_time_sleep in Hrun. unfold bind at 1 in Hrun.
    rewrite run_cast_command_spec in Hrun. fold count_read in Hrun.
    cbn [pass_time add_log trace clock log] in Hrun.
    rewrite length_snoc in Hrun. fold n in Hrun.
    rewrite Hcount, (truthy_nonempty _ Hne) in Hrun. cbn [negb] in Hrun.
    unfold bind at 1 in Hrun. rewrite Hparse in Hrun.
    cbn [raise] in Hrun. injection Hrun as <- <-.
    cbn [trace]. rewrite <- app_assoc. split; reflexivity.
Qed.

Lemma create_campaign_failure_paths_witness :
  fst (create_campaign (fun _ _ => failed 10 "execution reverted")
         sample_suite "Test Campaign 3" 0 initial_world) = Ok None
  /\ fst (create_campaign (fun _ _ => completed 10 "0x5ea1ed")
            sample_suite "Test Campaign 3" 0 initial_world)
     = Raise (ValueError "invalid literal for int() with base 10: '0x5ea1ed'").
Proof.
  split.
  - apply (proj1 (create_campaign_failure_paths
                    (fun _ _ => failed 10 "execution reverted")
                    sample_suite "Test Campaign 3" 0 initial_world eq_refl)).
    reflexivity.
  - apply (proj2 (create_campaign_failure_paths
                    (fun _ _ => completed 10 "0x5ea1ed")
                    sample_suite "Test Campaign 3" 0 initial_world eq_refl)
             eq_refl "0x5ea1ed"); [reflexivity | discriminate | reflexivity].
Defined.

(* ================================================================== *)
(** * Further properties: decoding what the chain returned *)
(* ================================================================== *)

Lemma canonical_token_address_shape (field token : string) :
  canonical_token_address field = Some token ->
  String.length token = 42%nat
  /\ Py.startswith "0x" token = true
  /\ canonical_token_address token = Some token.
Proof.
  unfold canonical_token_address at 1.
  destruct (Py.startswith "0x" field) eqn:H0x; [|discriminate].
  destruct (canonical_address_0x field H0x) as (digits & Hc & Hlen & _).
  unfold canonical_address in Hc. rewrite H0x in Hc.
  replace (Py.truthy field) with true in Hc
    by (destruct field; [discriminate H0x | reflexivity]).
  cbn [andb] in Hc. rewrite Hc. intros Heq. injection Heq as <-.
  pose proof (startswith_append "0x" digits) as Hstart.
  cbn [append] in *.
  split; [|split].
  - cbn [String.length]. now rewrite Hlen.
  - exact Hstart.
  - unfold canonical_token_address. rewrite Hstart.
    cbn [Py.drop]. rewrite Hlen. reflexivity.
Qed.

Lemma returns_get_campaign_token_address chain self campaign_id :
  returns (get_campaign_token_address chain self campaign_id).
Proof. unfold get_campaign_token_address. harness. Qed.

#[export] Hint Resolve returns_get_campaign_token_address : harness.

(** X10.  [get_campaign_token_address] never raises.  An address it returns
    is the ninth comma-separated field of the factory's answer, stripped and
    canonicalized: it starts with "0x", has 42 characters and is left
    unchanged by the same canonicalization.  With fewer than nine fields, or
    a ninth field that does not start with "0x", it returns no value. *)
Theorem campaign_token_address_is_canonical :
  forall chain self campaign_id w,
    let answer :=
      executor_result
        (outcome (chain (List.length (trace w))
                    (assemble_command (creator_cast self)
                       ["call"; factory (TestConfig.addresses (config self));
                        "getCampaign(uint256)"; Py.str_of_int campaign_id]))) in
    let after := get_campaign_token_address chain self campaign_id w in
    (exists result, fst after = Ok result)
    /\ (forall token,
           fst after = Ok (Some token) ->
           String.length token = 42%nat
           /\ Py.startswith "0x" token = true
           /\ canonical_token_address token = Some token
           /\ exists text field,
                answer = Some text
                /\ nth_error (Py.split "," (Py.strip_chars "()" text)) 8 = Some field
                /\ canonical_token_address (Py.strip field) = Some token)
    /\ (forall text,
           answer = Some text ->
           (List.length (Py.split "," (Py.strip_chars "()" text)) < 9)%nat ->
           fst after = Ok None).
Proof.
  intros chain self campaign_id w answer after.
  unfold after, get_campaign_token_address, bind.
  rewrite run_cast_command_spec. fold answer.
  destruct answer as [text|]; cbn [ret fst].
  2:{ split; [now eexists|]. split; [discriminate | discriminate]. }
  destruct (Py.truthy text); cbn [negb ret fst].
  2:{ split; [now eexists|]. split; [discriminate|]. reflexivity. }
  unfold try_except.
  destruct (nth_error (Py.split "," (Py.strip_chars "()" text)) 8)
    as [field|] eqn:Hfield; cbn [ret fst].
  - split; [now eexists|]. split.
    + intros token Htoken. injection Htoken as Htoken.
      destruct (canonical_token_address_shape _ _ Htoken) as (Hlen & H0x & Hfix).
      repeat split; try assumption. now exists text, field.
    + intros text' Htext Hshort. injection Htext as <-.
      assert (Hnone : nth_error (Py.split "," (Py.strip_chars "()" text)) 8 = None)
        by (apply nth_error_None; lia).
      congruence.
  - split; [now eexists|]. split; [discriminate | reflexivity].
Qed.

Lemma campaign_token_address_is_canonical_witness :
  fst (get_campaign_token_address (fun _ _ => completed 10 "(0xaa, name, 7)")
         sample_suite 0 initial_world) = Ok None.
Proof.
  apply (proj2 (proj2 (campaign_token_address_is_canonical
                         (fun _ _ => completed 10 "(0xaa, name, 7)")
                         sample_suite 0 initial_world)) "(0xaa, name, 7)").
  - reflexivity.
  - vm_compute. lia.
Defined.

(** X11.  [get_reserves] never raises.  It returns reserves exactly when
    the answer is non-empty and, with the surrounding parentheses stripped,
    its first two comma-separated fields are base-16 literals, whose values
    it returns; the third field is ignored.  When one of the two is not a
    literal the [ValueError] is logged and no value is returned, as when
    there is a single field. *)
Theorem get_reserves_decodes_two_fields :
  forall chain self pair_address w,
    let answer :=
      executor_result
        (outcome (chain (List.length (trace w))
                    (assemble_command (cast self)
                       ["call"; pair_address;
                        "getReserves()(uint112,uint112,uint32)"]))) in
    let after := get_reserves chain self pair_address w in
    (exists result, fst after = Ok result)
    /\ (forall text p0 p1 rest,
           answer = Some text -> text <> "" ->
           Py.split "," (Py.strip_chars "()" text) = p0 :: p1 :: rest ->
           fst after
           = Ok (match Py.parse_int 16 (Py.strip p0), Py.parse_int 16 (Py.strip p1) with
                 | Some reserve0, Some reserve1 => Some (reserve0, reserve1)
                 | _, _ => None
                 end))
    /\ (forall text p0,
           answer = Some text ->
           Py.split "," (Py.strip_chars "()" text) = [p0] ->
           fst after = Ok None)
    /\ (Py.truthy_opt answer = false -> fst after = Ok None).
Proof.
  intros chain self pair_address w answer after.
  unfold after, get_reserves, bind.
  rewrite run_cast_command_spec. fold answer.
  split; [|split; [|split]].
  - destruct (returns_get_reserves chain self pair_address w) as (a & w' & Hr).
    unfold get_reserves, bind in Hr. rewrite run_cast_command_spec in Hr.
    fold answer in Hr. rewrite Hr. now exists a.
  - intros text p0 p1 rest -> Hne Hsplit.
    rewrite (truthy_nonempty _ Hne), Hsplit. cbn [negb].
    unfold try_except, bind, py_int.
    destruct (Py.parse_int 16 (Py.strip p0)); [|reflexivity].
    cbn [ret]. destruct (Py.parse_int 16 (Py.strip p1)); reflexivity.
  - intros text p0 -> Hsplit. destruct (Py.truthy text); [|reflexivity].
    cbn [negb]. now rewrite Hsplit.
  - destruct answer as [text|]; [|reflexivity].
    cbn [Py.truthy_opt]. intros ->. reflexivity.
Qed.

Lemma get_reserves_decodes_two_fields_witness :
  fst (get_reserves (fun _ _ => completed 10 "(0x64, c8, 0x65a1b2c3)")
         (mkUniswapV2Helper (mkCastInteractor "http://localhost:8545" "0xc0de02"))
         sample_campaign initial_world) = Ok (Some (100, 200))
  /\ fst (get_reserves (fun _ _ => completed 10 "(1e18, 0x1)")
            (mkUniswapV2Helper (mkCastInteractor "http://localhost:8545" "0xc0de02"))
            sample_campaign initial_world) = Ok (Some (7704, 1))
  /\ fst (get_reserves (fun _ _ => completed 10 "(1.5, 0x1)")
            (mkUniswapV2Helper (mkCastInteractor "http://localhost:8545" "0xc0de02"))
            sample_campaign initial_world) = Ok None.
Proof.
  split; [|split].
  - apply (proj1 (proj2 (get_reserves_decodes_two_fields
                           (fun _ _ => completed 10 "(0x64, c8, 0x65a1b2c3)")
                           (mkUniswapV2Helper
                              (mkCastInteractor "http://localhost:8545" "0xc0de02"))
                           sample_campaign initial_world))
             "(0x64, c8, 0x65a1b2c3)" "0x64" " c8" [" 0x65a1b2c3"]);
      [reflexivity | discriminate | reflexivity].
  - apply (proj1 (proj2 (get_reserves_decodes_two_fields
                           (fun _ _ => completed 10 "(1e18, 0x1)")
                           (mkUniswapV2Helper
                              (mkCastInteractor "http://localhost:8545" "0xc0de02"))
                           sample_campaign initial_world))
             "(1e18, 0x1)" "1e18" " 0x1" []);
      [reflexivity | discriminate | reflexivity].
  - apply (proj1 (proj2 (get_reserves_decodes_two_fields
                           (fun _ _ => completed 10 "(1.5, 0x1)")
                           (mkUniswapV2Helper
                              (mkCastInteractor "http://localhost:8545" "0xc0de02"))
                           sample_campaign initial_world))
             "(1.5, 0x1)" "1.5" " 0x1" []);
      [reflexivity | discriminate | reflexivity].
Defined.

(* ================================================================== *)
(** * Further properties: the swap path *)
(* ================================================================== *)

Lemma get_pair_address_spec chain self token_a token_b w :
  let command := ["call"; FACTORY_ADDRESS; "getPair(address,address)(address)";
                  token_a; token_b] in
  let r := chain (List.length (trace w)) (assemble_command (cast self) command) in
  get_pair_address chain self token_a token_b w
  = (Ok (pair_address_of (executor_result (outcome r))),
     World (clock w + Z.of_N (elapsed r))
           (trace w ++ [assemble_command (cast self) command])
           (log w ++ executor_log "uniswap_helper.py:27"
                       (firstn 3 (assemble_command (cast self) command))
                       (outcome r))).
Proof.
  intros command r. unfold get_pair_address, bind, ret.
  fold command. rewrite run_cast_command_spec. reflexivity.
Qed.

Lemma pair_address_of_truthy (result : option string) (pair_address : string) :
  pair_address_of result = Some pair_address -> Py.truthy pair_address = true.
Proof.
  unfold pair_address_of. destruct result as [r|]; [|discriminate].
  destruct (Py.truthy r && negb (String.eqb r ZERO_ADDRESS)); [|discriminate].
  intros Heq. injection Heq as <-. reflexivity.
Qed.

(** X12.  [test_token_swap] returns false without approving or swapping
    anything when the pair lookup gives no pair, when the reserves cannot be
    read, and when either reserve is 0: the commands it has issued by then
    are the pair lookup and, with a pair, the reserves read. *)
Theorem swap_test_stops_without_liquidity :
  forall chain fl self campaign_token_address usdc_address swap_amount w,
    let entry := add_log w INFO "Testing token swap functionality" in
    let lookup :=
      assemble_command (cast self)
        ["call"; FACTORY_ADDRESS; "getPair(address,address)(address)";
         campaign_token_address; usdc_address] in
    let reserves_read (pair_address : string) :=
      assemble_command (cast self)
        ["call"; pair_address; "getReserves()(uint112,uint112,uint32)"] in
    let after :=
      test_token_swap chain fl self campaign_token_address usdc_address
        swap_amount w in
    (forall w1,
        get_pair_address chain self campaign_token_address usdc_address entry
        = (Ok None, w1) ->
        fst after = Ok false /\ trace (snd after) = (trace w ++ [lookup])%list)
    /\ (forall pair_address w1 reserves w2,
           get_pair_address chain self campaign_token_address usdc_address entry
           = (Ok (Some pair_address), w1) ->
           get_reserves chain self pair_address
             (add_log w1 INFO ("Found Uniswap pair at: " ++ pair_address))
           = (Ok reserves, w2) ->
           match reserves with
           | None => True
           | Some (reserve0, reserve1) => reserve0 = 0 \/ reserve1 = 0
           end ->
           fst after = Ok false
           /\ trace (snd after)
              = (trace w ++ [lookup; reserves_read pair_address])%list).
Proof.
  intros chain fl self campaign_token_address usdc_address swap_amount w
    entry lookup reserves_read after.
  unfold after. clear after.
  destruct (test_token_swap chain fl self campaign_token_address usdc_address
              swap_amount w) as [r wf] eqn:Hrun.
  cbn [fst snd]. unfold test_token_swap in Hrun.
  rewrite bind_logger in Hrun. fold entry in Hrun. unfold try_except in Hrun.
  split.
  - intros w1 Hpair. rewrite (bind_ok _ _ _ _ _ Hpair), bind_logger in Hrun.
    cbn [ret] in Hrun. injection Hrun as <- <-.
    rewrite get_pair_address_spec in Hpair. injection Hpair as _ <-.
    split; reflexivity.
  - intros pair_address w1 reserves w2 Hpair Hreserves Hempty.
    rewrite (bind_ok _ _ _ _ _ Hpair) in Hrun.
    assert (Htruthy : Py.truthy pair_address = true).
    { rewrite get_pair_address_spec in Hpair. injection Hpair as Hp _.
      exact (pair_address_of_truthy _ _ Hp). }
    rewrite Htruthy in Hrun. cbn [negb] in Hrun.
    rewrite bind_logger, (bind_ok _ _ _ _ _ Hreserves) in Hrun.
    assert (Htrace : trace w2 = (trace w ++ [lookup; reserves_read pair_address])%list).
    { pose proof (trace_get_reserves chain self pair_address
                    (add_log w1 INFO ("Found Uniswap pair at: " ++ pair_address)))
        as Hone.
      rewrite Hreserves in Hone. cbn [snd add_log trace] in Hone.
      rewrite Hone. rewrite get_pair_address_spec in Hpair.
      injection Hpair as _ <-. cbn [trace entry add_log].
      rewrite <- app_assoc. reflexivity. }
    destruct reserves as [[reserve0 reserve1]|].
    + rewrite bind_logger in Hrun.
      assert (Hzero : (reserve0 =? 0) || (reserve1 =? 0) = true).
      { destruct Hempty as [-> | ->]; [reflexivity | apply orb_true_r]. }
      rewrite Hzero, bind_logger in Hrun. cbn [ret] in Hrun.
      injection Hrun as <- <-. split; [reflexivity | exact Htrace].
    + rewrite bind_logger in Hrun. cbn [ret] in Hrun.
      injection Hrun as <- <-. split; [reflexivity | exact Htrace].
Qed.

Lemma swap_test_stops_without_liquidity_witness :
  fst (test_token_swap (fun _ _ => completed 10 ZERO_ADDRESS) small_float_ops
         (mkUniswapV2Helper (mkCastInteractor "http://localhost:8545" "0xc0de02"))
         sample_token "0x00000000000000000000000000000000000000dc" 100
         initial_world) = Ok false
  /\ List.length
       (trace (snd (test_token_swap (fun _ _ => completed 10 ZERO_ADDRESS)
                      small_float_ops
                      (mkUniswapV2Helper
                         (mkCastInteractor "http://localhost:8545" "0xc0de02"))
                      sample_token "0x00000000000000000000000000000000000000dc" 100
                      initial_world))) = 1%nat.
Proof.
  destruct (proj1 (swap_test_stops_without_liquidity
                     (fun _ _ => completed 10 ZERO_ADDRESS) small_float_ops
                     (mkUniswapV2Helper
                        (mkCastInteractor "http://localhost:8545" "0xc0de02"))
                     sample_token "0x00000000000000000000000000000000000000dc" 100
                     initial_world)
              (snd (get_pair_address (fun _ _ => completed 10 ZERO_ADDRESS)
                      (mkUniswapV2Helper
                         (mkCastInteractor "http://localhost:8545" "0xc0de02"))
                      sample_token "0x00000000000000000000000000000000000000dc"
                      (add_log initial_world INFO "Testing token swap functionality"))))
    as [Hfst Htrace].
  - reflexivity.
  - split; [exact Hfst | now rewrite Htrace].
Defined.

(** X13.  [swap_tokens_for_usdc] sends the swap only after the router was
    approved and the account address was obtained: a failed approval ends it
    after one command, a missing address after two.  Otherwise the third
    command is the signed swap along the path [[token,usdc]] to the stripped
    account address, with the deadline 600 seconds after the whole seconds
    of the clock, and the result tells whether it returned non-empty text. *)
Theorem swap_only_after_approval_and_address :
  forall chain self token_address usdc_address token_amount min_usdc_out w,
    let actor := cast self in
    let approval :=
      ["cast"; "send"; token_address; "approve(address,uint256)"; ROUTER_ADDRESS;
       Py.str_of_int token_amount;
       "--rpc-url"; rpc_url actor; "--private-key"; private_key actor] in
    let wallet :=
      assemble_command actor ["wallet"; "address"; private_key actor] in
    let n := List.length (trace w) in
    let after :=
      swap_tokens_for_usdc chain self token_address usdc_address token_amount
        min_usdc_out w in
    (executor_result (outcome (chain n approval)) = None ->
     fst after = Ok false /\ trace (snd after) = (trace w ++ [approval])%list)
    /\ (executor_result (outcome (chain n approval)) <> None ->
        Py.truthy_opt (executor_result (outcome (chain (S n) wallet))) = false ->
        fst after = Ok false
        /\ trace (snd after) = (trace w ++ [approval; wallet])%list)
    /\ (executor_result (outcome (chain n approval)) <> None ->
        forall account,
          executor_result (outcome (chain (S n) wallet)) = Some account ->
          account <> "" ->
          let now := clock w + Z.of_N (elapsed (chain n approval))
                     + Z.of_N (elapsed (chain (S n) wallet)) in
          let swap :=
            ["cast"; "send"; ROUTER_ADDRESS;
             "swapExactTokensForTokens(uint256,uint256,address[],address,uint256)";
             Py.str_of_int token_amount; Py.str_of_int min_usdc_out;
             "[" ++ token_address ++ "," ++ usdc_address ++ "]";
             Py.strip account; Py.str_of_int (Z.quot now 1000 + 600);
             "--rpc-url"; rpc_url actor; "--private-key"; private_key actor] in
          fst after
          = Ok (Py.truthy_opt (executor_result (outcome (chain (S (S n)) swap))))
          /\ trace (snd after) = (trace w ++ [approval; wallet; swap])%list).
Proof.
  intros chain self token_address usdc_address token_amount min_usdc_out w
    actor approval wallet n after.
  unfold after. clear after.
  destruct (swap_tokens_for_usdc chain self token_address usdc_address
              token_amount min_usdc_out w) as [r wf] eqn:Hrun.
  cbn [fst snd]. unfold swap_tokens_for_usdc in Hrun. fold actor in Hrun.
  rewrite bind_logger in Hrun. unfold bind at 1 in Hrun.
  rewrite approve_token_spec in Hrun.
  change (assemble_command actor
            ["send"; token_address; "approve(address,uint256)"; ROUTER_ADDRESS;
             Py.str_of_int token_amount]) with approval in Hrun.
  cbn [add_log trace clock log] in Hrun. fold n in Hrun.
  split; [|split].
  - intros Hnone. rewrite Hnone in Hrun. cbn [negb] in Hrun.
    rewrite bind_logger in Hrun. cbn [ret] in Hrun.
    injection Hrun as <- <-. split; reflexivity.
  - intros Hsome Hfalsy.
    destruct (executor_result (outcome (chain n approval))) as [tx|];
      [clear Hsome | contradiction].
    cbn [negb] in Hrun. unfold bind at 1 in Hrun.
    rewrite run_cast_command_spec in Hrun. fold wallet in Hrun.
    cbn [trace clock log] in Hrun. rewrite length_snoc in Hrun. fold n in Hrun.
    destruct (executor_result (outcome (chain (S n) wallet))) as [account|];
      [cbn [Py.truthy_opt] in Hfalsy; rewrite Hfalsy in Hrun; cbn [negb] in Hrun|];
      rewrite bind_logger in Hrun; cbn [ret] in Hrun;
      injection Hrun as <- <-; cbn [trace add_log]; rewrite <- app_assoc;
      split; reflexivity.
  - intros Hsome account Haccount Hne.
    set (moment := clock w + Z.of_N (elapsed (chain n approval))
                   + Z.of_N (elapsed (chain (S n) wallet))).
    set (swap := ["cast"; "send"; ROUTER_ADDRESS;
                  "swapExactTokensForTokens(uint256,uint256,address[],address,uint256)";
                  Py.str_of_int token_amount; Py.str_of_int min_usdc_out;
                  "[" ++ token_address ++ "," ++ usdc_address ++ "]";
                  Py.strip account; Py.str_of_int (Z.quot moment 1000 + 600);
                  "--rpc-url"; rpc_url actor; "--private-key"; private_key actor]).
    destruct (executor_result (outcome (chain n approval))) as [tx|];
      [clear Hsome | contradiction].
    cbn [negb] in Hrun. unfold bind at 1 in Hrun.
    rewrite run_cast_command_spec in Hrun. fold wallet in Hrun.
    cbn [trace clock log] in Hrun. rewrite length_snoc in Hrun. fold n in Hrun.
    rewrite Haccount, (truthy_nonempty _ Hne) in Hrun. cbn [negb] in Hrun.
    unfold bind at 1 in Hrun. cbn [time_time clock] in Hrun. fold moment in Hrun.
    unfold bind at 1 in Hrun. rewrite run_cast_command_spec in Hrun.
    change (assemble_command actor
              ["send"; ROUTER_ADDRESS;
               "swapExactTokensForTokens(uint256,uint256,address[],address,uint256)";
               Py.str_of_int token_amount; Py.str_of_int min_usdc_out;
               "[" ++ token_address ++ "," ++ usdc_address ++ "]";
               Py.strip account; Py.str_of_int (Z.quot moment 1000 + 600)])
      with swap in Hrun.
    cbn [trace clock log] in Hrun. rewrite !length_snoc in Hrun. fold n in Hrun.
    destruct (executor_result (outcome (chain (S (S n)) swap))) as [text|];
      [destruct (Py.truthy text) eqn:Htext|];
      rewrite bind_logger in Hrun; cbn [ret] in Hrun;
      injection Hrun as <- <-; cbn [trace add_log Py.truthy_opt];
      rewrite <- !app_assoc; try rewrite Htext; split; reflexivity.
Qed.

Lemma swap_only_after_approval_and_address_witness :
  fst (swap_tokens_for_usdc (fun _ _ => failed 10 "execution reverted")
         (mkUniswapV2Helper (mkCastInteractor "http://localhost:8545" "0xc0de02"))
         sample_token "0x00000000000000000000000000000000000000dc" 100 95
         initial_world) = Ok false
  /\ fst (swap_tokens_for_usdc (fun _ _ => completed 1500 "0xd0707")
            (mkUniswapV2Helper (mkCastInteractor "http://localhost:8545" "0xc0de02"))
            sample_token "0x00000000000000000000000000000000000000dc" 100 95
            initial_world) = Ok true.
Proof.
  split.
  - apply (proj1 (swap_only_after_approval_and_address
                    (fun _ _ => failed 10 "execution reverted")
                    (mkUniswapV2Helper
                       (mkCastInteractor "http://localhost:8545" "0xc0de02"))
                    sample_token "0x00000000000000000000000000000000000000dc" 100 95
                    initial_world)).
    reflexivity.
  - apply (proj2 (proj2 (swap_only_after_approval_and_address
                           (fun _ _ => completed 1500 "0xd0707")
                           (mkUniswapV2Helper
                              (mkCastInteractor "http://localhost:8545" "0xc0de02"))
                           sample_token "0x00000000000000000000000000000000000000dc"
                           100 95 initial_world))
             ltac:(discriminate) "0xd0707"); [reflexivity | discriminate].
Defined.

(** X14.  [add_liquidity] approves the router for the first token, then for
    the second, then asks for the account address, and only then sends the
    [addLiquidity] transaction: it returns false after one command when the
    first approval fails, after two when the second fails, after three when
    no address comes back.  When the transaction is sent the result is true
    exactly when the executor returned a value, blank or not. *)
Theorem add_liquidity_only_after_both_approvals :
  forall chain self token_a token_b amount_a amount_b min_a min_b w,
    let actor := cast self in
    let approval (token : string) (amount : Z) :=
      ["cast"; "send"; token; "approve(address,uint256)"; ROUTER_ADDRESS;
       Py.str_of_int amount;
       "--rpc-url"; rpc_url actor; "--private-key"; private_key actor] in
    let wallet :=
      assemble_command actor ["wallet"; "address"; private_key actor] in
    let n := List.length (trace w) in
    let answer (k : nat) (command : list string) :=
      executor_result (outcome (chain (k + n)%nat command)) in
    let after :=
      add_liquidity chain self token_a token_b amount_a amount_b min_a min_b w in
    (answer 0%nat (approval token_a amount_a) = None ->
     fst after = Ok false
     /\ trace (snd after) = (trace w ++ [approval token_a amount_a])%list)
    /\ (answer 0%nat (approval token_a amount_a) <> None ->
        answer 1%nat (approval token_b amount_b) = None ->
        fst after = Ok false
        /\ trace (snd after)
           = (trace w ++ [approval token_a amount_a; approval token_b amount_b])%list)
    /\ (answer 0%nat (approval token_a amount_a) <> None ->
        answer 1%nat (approval token_b amount_b) <> None ->
        Py.truthy_opt (answer 2%nat wallet) = false ->
        fst after = Ok false
        /\ trace (snd after)
           = (trace w ++ [approval token_a amount_a; approval token_b amount_b;
                          wallet])%list)
    /\ (answer 0%nat (approval token_a amount_a) <> None ->
        answer 1%nat (approval token_b amount_b) <> None ->
        Py.truthy_opt (answer 2%nat wallet) = true ->
        exists deposit,
          trace (snd after)
          = (trace w ++ [approval token_a amount_a; approval token_b amount_b;
                         wallet; deposit])%list
          /\ firstn 5 deposit
             = ["cast"; "send"; ROUTER_ADDRESS;
                "addLiquidity(address,address,uint256,uint256,uint256,uint256,address,uint256)";
                token_a]
          /\ fst after
             = Ok (match answer 3%nat deposit with Some _ => true | None => false end)).
Proof.
  intros chain self token_a token_b amount_a amount_b min_a min_b w
    actor approval wallet n answer after.
  unfold after. clear after.
  destruct (add_liquidity chain self token_a token_b amount_a amount_b min_a min_b w)
    as [r wf] eqn:Hrun.
  cbn [fst snd]. unfold add_liquidity in Hrun. fold actor in Hrun.
  rewrite bind_logger in Hrun. unfold bind at 1 in Hrun.
  rewrite approve_token_spec in Hrun.
  change (assemble_command actor
            ["send"; token_a; "approve(address,uint256)"; ROUTER_ADDRESS;
             Py.str_of_int amount_a]) with (approval token_a amount_a) in Hrun.
  cbn [add_log trace clock log] in Hrun. fold n in Hrun.
  change (executor_result (outcome (chain n (approval token_a amount_a))))
    with (answer 0%nat (approval token_a amount_a)) in Hrun.
  destruct (answer 0%nat (approval token_a amount_a)) as [tx_a|].
  2:{ cbn [negb ret] in Hrun. injection Hrun as <- <-.
      split; [intros _; split; reflexivity|].
      split; [intros H; contradiction|].
      split; intros H; contradiction. }
  split; [discriminate|].
  cbn [negb] in Hrun. unfold bind at 1 in Hrun.
  rewrite approve_token_spec in Hrun.
  change (assemble_command actor
            ["send"; token_b; "approve(address,uint256)"; ROUTER_ADDRESS;
             Py.str_of_int amount_b]) with (approval token_b amount_b) in Hrun.
  cbn [trace clock log] in Hrun. rewrite length_snoc in Hrun. fold n in Hrun.
  change (executor_result (outcome (chain (S n) (approval token_b amount_b))))
    with (answer 1%nat (approval token_b amount_b)) in Hrun.
  destruct (answer 1%nat (approval token_b amount_b)) as [tx_b|].
  2:{ cbn [negb ret] in Hrun. injection Hrun as <- <-.
      cbn [trace]. rewrite <- app_assoc.
      split; [intros _ _; split; reflexivity|].
      split; intros _ H; contradiction. }
  split; [intros _; discriminate|].
  cbn [negb] in Hrun. unfold bind at 1 in Hrun.
  rewrite run_cast_command_spec in Hrun. fold wallet in Hrun.
  cbn [trace clock log] in Hrun. rewrite !length_snoc in Hrun. fold n in Hrun.
  change (executor_result (outcome (chain (S (S n)) wallet)))
    with (answer 2%nat wallet) in Hrun.
  destruct (answer 2%nat wallet) as [account|].
  2:{ cbn [ret] in Hrun. injection Hrun as <- <-.
      cbn [trace]. rewrite <- !app_assoc.
      split; [intros _ _ _; split; reflexivity|].
      intros _ _ H. discriminate H. }
  cbn [Py.truthy_opt]. destruct (Py.truthy account) eqn:Haccount;
    cbn [negb] in Hrun.
  2:{ cbn [ret] in Hrun. injection Hrun as <- <-.
      cbn [trace]. rewrite <- !app_assoc.
      split; [intros _ _ _; split; reflexivity|].
      intros _ _ H. discriminate H. }
  split; [intros _ _ H; discriminate H|]. intros _ _ _.
  unfold bind at 1 in Hrun. cbn [time_time clock] in Hrun.
  unfold bind at 1 in Hrun. rewrite run_cast_command_spec in Hrun.
  cbn [trace clock log] in Hrun. rewrite !length_snoc in Hrun. fold n in Hrun.
  cbn [ret] in Hrun. injection Hrun as <- <-.
  eexists. cbn [trace]. rewrite <- !app_assoc.
  split; [reflexivity|]. split; reflexivity.
Qed.

Lemma add_liquidity_only_after_both_approvals_witness :
  fst (add_liquidity (fun n _ => if Nat.eqb n 1 then failed 10 "execution reverted"
                                 else completed 10 "0x5ea1ed")
         (mkUniswapV2Helper (mkCastInteractor "http://localhost:8545" "0xc0de02"))
         sample_token "0x00000000000000000000000000000000000000dc" 100 200 0 0
         initial_world) = Ok false.
Proof.
  apply (proj1 (proj2 (add_liquidity_only_after_both_approvals
                         (fun n _ => if Nat.eqb n 1 then failed 10 "execution reverted"
                                     else completed 10 "0x5ea1ed")
                         (mkUniswapV2Helper
                            (mkCastInteractor "http://localhost:8545" "0xc0de02"))
                         sample_token "0x00000000000000000000000000000000000000dc"
                         100 200 0 0 initial_world)));
    [discriminate | reflexivity].
Defined.

(* ================================================================== *)
(** * Further properties: the scenarios and the entry points *)
(* ================================================================== *)

Lemma returns_report result ok_prefix failed_text :
  returns (report result ok_prefix failed_text).
Proof. unfold report. harness. Qed.

Lemma returns_get_campaign_address chain self factory_address campaign_id :
  returns (get_campaign_address chain self factory_address campaign_id).
Proof. unfold get_campaign_address. harness. Qed.

#[export] Hint Resolve returns_report returns_get_campaign_address
  returns_test_token_swap : harness.

Lemma returns_claim_tokens chain self campaign_address :
  returns (claim_tokens chain self campaign_address).
Proof. unfold claim_tokens. harness. Qed.

Lemma returns_withdraw_funds chain self campaign_address :
  returns (withdraw_funds chain self campaign_address).
Proof. unfold withdraw_funds. harness. Qed.

Lemma returns_create_liquidity_pool chain self campaign_address :
  returns (create_liquidity_pool chain self campaign_address).
Proof. unfold create_liquidity_pool. harness. Qed.

Lemma returns_refund_contribution chain self campaign_address :
  returns (refund_contribution chain self campaign_address).
Proof. unfold refund_contribution. harness. Qed.

Lemma settles_create_campaign chain self name liquidity_percentage :
  settles (create_campaign chain self name liquidity_percentage).
Proof. unfold create_campaign. harness. Qed.

Lemma settles_contribute_to_campaign chain fl self campaign_address amount :
  settles (contribute_to_campaign chain fl self campaign_address amount).
Proof. unfold contribute_to_campaign. harness. Qed.

Lemma settles_get_balance chain self token_address account :
  settles (get_balance chain self token_address account).
Proof. unfold get_balance. harness. Qed.

#[export] Hint Resolve returns_claim_tokens returns_withdraw_funds
  returns_create_liquidity_pool returns_refund_contribution
  settles_create_campaign settles_contribute_to_campaign settles_get_balance
  settles_wait_for_campaign_end : harness.

Lemma settles_swap_probe chain fl self campaign_token_address :
  settles (swap_probe chain fl self campaign_token_address).
Proof. unfold swap_probe. harness. Qed.

Lemma settles_lifecycle_2 chain fl self :
  settles (lifecycle_2 chain fl self).
Proof. unfold lifecycle_2. harness. Qed.

#[export] Hint Resolve settles_swap_probe settles_lifecycle_2 : harness.

(** X15.  Each of the three scenarios ends with a boolean from every world
    and whatever the chain answers, and the polling loop always ends.  An
    exception raised by a step is caught by the scenario and turned into
    false, with one error line that names the scenario and the exception:
    so it is for the creation (the [ValueError] of an unreadable count),
    the contribution (the [OverflowError] of its first line) and the wait
    (the [ValueError] of an unreadable state) in each scenario, and for the
    swap probe of scenario 2 (the [ValueError] of an unreadable balance). *)
Theorem scenarios_always_return_a_verdict :
  forall chain fl self w,
    let goal := TestConfig.funding_goal (config self) in
    let entry_1 := add_log w INFO "=== TEST SCENARIO 1: Success with 0% liquidity ===" in
    let entry_2 := add_log w INFO "=== TEST SCENARIO 2: Success with 50% liquidity ===" in
    let entry_3 := add_log w INFO "=== TEST SCENARIO 3: Campaign failure and refund ===" in
    let scenario_1 := test_scenario_1_success_no_liquidity chain fl self in
    let scenario_2 := test_scenario_2_success_with_liquidity chain fl self in
    let scenario_3 := test_scenario_3_failure_and_refund chain fl self in
    let caught (label : string) (e : exn) (w' : world) : res bool * world :=
      (Ok false, add_log w' ERROR (label ++ exn_str e)) in
    ((exists passed w', scenario_1 w = (Ok passed, w'))
     /\ (exists passed w', scenario_2 w = (Ok passed, w'))
     /\ (exists passed w', scenario_3 w = (Ok passed, w')))
    /\ ((forall e w1,
            create_campaign chain self "Test Campaign 1" 0 entry_1 = (Raise e, w1) ->
            scenario_1 w = caught "❌ Scenario 1 failed: " e w1)
        /\ (forall campaign_id campaign_address w1 e w2,
               create_campaign chain self "Test Campaign 1" 0 entry_1
               = (Ok (Some (campaign_id, campaign_address)), w1) ->
               contribute_to_campaign chain fl self campaign_address goal w1
               = (Raise e, w2) ->
               scenario_1 w = caught "❌ Scenario 1 failed: " e w2)
        /\ (forall campaign_id campaign_address w1 w2 e w3,
               create_campaign chain self "Test Campaign 1" 0 entry_1
               = (Ok (Some (campaign_id, campaign_address)), w1) ->
               contribute_to_campaign chain fl self campaign_address goal w1
               = (Ok true, w2) ->
               wait_for_campaign_end chain self campaign_address default_max_wait w2
               = (Raise e, w3) ->
               scenario_1 w = caught "❌ Scenario 1 failed: " e w3))
    /\ ((forall e w1,
            create_campaign chain self "Test Campaign 2" 50 entry_2 = (Raise e, w1) ->
            scenario_2 w = caught "❌ Scenario 2 failed: " e w1)
        /\ (forall campaign_id campaign_address w1 e w2,
               create_campaign chain self "Test Campaign 2" 50 entry_2
               = (Ok (Some (campaign_id, campaign_address)), w1) ->
               contribute_to_campaign chain fl self campaign_address goal w1
               = (Raise e, w2) ->
               scenario_2 w = caught "❌ Scenario 2 failed: " e w2)
        /\ (forall campaign_id campaign_address w1 w2 e w3,
               create_campaign chain self "Test Campaign 2" 50 entry_2
               = (Ok (Some (campaign_id, campaign_address)), w1) ->
               contribute_to_campaign chain fl self campaign_address goal w1
               = (Ok true, w2) ->
               wait_for_campaign_end chain self campaign_address default_max_wait w2
               = (Raise e, w3) ->
               scenario_2 w = caught "❌ Scenario 2 failed: " e w3)
        /\ (forall e w1,
               lifecycle_2 chain fl self entry_2 = (Raise e, w1) ->
               scenario_2 w = caught "❌ Scenario 2 failed: " e w1)
        /\ (forall campaign_token_address w1 e w2,
               lifecycle_2 chain fl self entry_2 = (Ok (Some campaign_token_address), w1) ->
               swap_probe chain fl self campaign_token_address w1 = (Raise e, w2) ->
               scenario_2 w = caught "❌ Scenario 2 failed: " e w2))
    /\ ((forall e w1,
            create_campaign chain self "Test Campaign 3" 0 entry_3 = (Raise e, w1) ->
            scenario_3 w = caught "❌ Scenario 3 failed: " e w1)
        /\ (forall campaign_id campaign_address w1 e w2,
               create_campaign chain self "Test Campaign 3" 0 entry_3
               = (Ok (Some (campaign_id, campaign_address)), w1) ->
               contribute_to_campaign chain fl self campaign_address (goal / 2) w1
               = (Raise e, w2) ->
               scenario_3 w = caught "❌ Scenario 3 failed: " e w2)
        /\ (forall campaign_id campaign_address w1 w2 e w3,
               create_campaign chain self "Test Campaign 3" 0 entry_3
               = (Ok (Some (campaign_id, campaign_address)), w1) ->
               contribute_to_campaign chain fl self campaign_address (goal / 2) w1
               = (Ok true, w2) ->
               wait_for_campaign_end chain self campaign_address default_max_wait w2
               = (Raise e, w3) ->
               scenario_3 w = caught "❌ Scenario 3 failed: " e w3)).
Proof.
  intros chain fl self w goal entry_1 entry_2 entry_3
    scenario_1 scenario_2 scenario_3 caught.
  assert (H1 : returns scenario_1)
    by (unfold scenario_1, test_scenario_1_success_no_liquidity; harness).
  assert (H2 : returns scenario_2)
    by (unfold scenario_2, test_scenario_2_success_with_liquidity; harness).
  assert (H3 : returns scenario_3)
    by (unfold scenario_3, test_scenario_3_failure_and_refund; harness).
  split; [split; [apply H1 | split; [apply H2 | apply H3]]|].
  clear H1 H2 H3.
  unfold scenario_1, scenario_2, scenario_3, caught,
    test_scenario_1_success_no_liquidity,
    test_scenario_2_success_with_liquidity,
    test_scenario_3_failure_and_refund.
  rewrite !bind_logger. fold entry_1 entry_2 entry_3.
  unfold try_except, lifecycle_2, bind. subst goal.
  repeat split; intros;
    repeat match goal with
           | H : _ = (_, _) |- _ => rewrite H; clear H; cbn [negb]
           end;
    reflexivity.
Qed.

Lemma scenarios_always_return_a_verdict_witness :
  test_scenario_2_success_with_liquidity (fun _ _ => completed 10 "0x5ea1ed")
    small_float_ops sample_suite initial_world
  = (Ok false,
     add_log
       (snd (create_campaign (fun _ _ => completed 10 "0x5ea1ed") sample_suite
               "Test Campaign 2" 50
               (add_log initial_world INFO
                  "=== TEST SCENARIO 2: Success with 50% liquidity ===")))
       ERROR
       "❌ Scenario 2 failed: invalid literal for int() with base 10: '0x5ea1ed'").
Proof.
  apply (proj1 (proj1 (proj2 (proj2 (scenarios_always_return_a_verdict
                                       (fun _ _ => completed 10 "0x5ea1ed")
                                       small_float_ops sample_suite
                                       initial_world))))
           (ValueError "invalid literal for int() with base 10: '0x5ea1ed'")).
  reflexivity.
Defined.

(** X16.  Scenario 1 returns true only when creation, the contribution of
    the full goal, the wait, the token claim and the withdrawal each
    succeeded, in that order.  When the claim fails the scenario returns
    false in the world in which the claim ended, so the withdrawal is not
    attempted. *)
Theorem scenario_1_needs_every_step :
  forall chain fl self w,
    let entry := add_log w INFO "=== TEST SCENARIO 1: Success with 0% liquidity ===" in
    let goal := TestConfig.funding_goal (config self) in
    (forall w',
        test_scenario_1_success_no_liquidity chain fl self w = (Ok true, w') ->
        exists campaign_id campaign_address w1 w2 w3 w4 w5,
          create_campaign chain self "Test Campaign 1" 0 entry
          = (Ok (Some (campaign_id, campaign_address)), w1)
          /\ contribute_to_campaign chain fl self campaign_address goal w1
             = (Ok true, w2)
          /\ wait_for_campaign_end chain self campaign_address default_max_wait w2
             = (Ok true, w3)
          /\ claim_tokens chain self campaign_address w3 = (Ok true, w4)
          /\ withdraw_funds chain self campaign_address w4 = (Ok true, w5)
          /\ w' = add_log w5 INFO "✅ Scenario 1 completed successfully!")
    /\ (forall campaign_id campaign_address w1 w2 w3 w4,
           create_campaign chain self "Test Campaign 1" 0 entry
           = (Ok (Some (campaign_id, campaign_address)), w1) ->
           contribute_to_campaign chain fl self campaign_address goal w1
           = (Ok true, w2) ->
           wait_for_campaign_end chain self campaign_address default_max_wait w2
           = (Ok true, w3) ->
           claim_tokens chain self campaign_address w3 = (Ok false, w4) ->
           test_scenario_1_success_no_liquidity chain fl self w = (Ok false, w4)).
Proof.
  intros chain fl self w entry goal.
  split.
  - intros w'.
    unfold test_scenario_1_success_no_liquidity, bind, try_except, logger, ret.
    fold entry goal.
    destruct (create_campaign chain self "Test Campaign 1" 0 entry)
      as [[[[campaign_id campaign_address]|]|e|] w1] eqn:Hcreate;
      try discriminate.
    destruct (contribute_to_campaign chain fl self campaign_address goal w1)
      as [[[|]|e|] w2] eqn:Hcontribute; try discriminate. cbn [negb].
    destruct (wait_for_campaign_end chain self campaign_address default_max_wait w2)
      as [[[|]|e|] w3] eqn:Hwait; try discriminate. cbn [negb].
    destruct (claim_tokens chain self campaign_address w3)
      as [[[|]|e|] w4] eqn:Hclaim; try discriminate. cbn [negb].
    destruct (withdraw_funds chain self campaign_address w4)
      as [[[|]|e|] w5] eqn:Hwithdraw; try discriminate. cbn [negb].
    intros Heq. injection Heq as <-.
    exists campaign_id, campaign_address, w1, w2, w3, w4, w5.
    repeat split; assumption.
  - intros campaign_id campaign_address w1 w2 w3 w4 Hcreate Hcontribute Hwait Hclaim.
    unfold test_scenario_1_success_no_liquidity, bind, try_except, logger.
    fold entry. rewrite Hcreate. fold goal. rewrite Hcontribute. cbn [negb].
    rewrite Hwait. cbn [negb]. rewrite Hclaim. reflexivity.
Qed.

Lemma scenario_1_needs_every_step_witness :
  exists w',
    test_scenario_1_success_no_liquidity
      (fun n cmd => if Nat.eqb n 7 then failed 10 "execution reverted"
                    else scripted_chain (completed 50 "0xd0707")
                           (completed 200 "1") n cmd)
      small_float_ops sample_suite initial_world = (Ok false, w')
    /\ List.length (trace w') = 8%nat.
Proof.
  eexists. split.
  - eapply (proj2 (scenario_1_needs_every_step
                     (fun n cmd => if Nat.eqb n 7 then failed 10 "execution reverted"
                                   else scripted_chain (completed 50 "0xd0707")
                                          (completed 200 "1") n cmd)
                     small_float_ops sample_suite initial_world)).
    + vm_compute. reflexivity.
    + vm_compute. reflexivity.
    + vm_compute. reflexivity.
    + vm_compute. reflexivity.
  - reflexivity.
Defined.

(* ================================================================== *)
(** * Further properties: the polling loop *)
(* ================================================================== *)

Lemma trace_refresh_and_read chain self campaign_address w :
  trace (snd (refresh_and_read chain self campaign_address w))
  = (trace w ++ [assemble_command (creator_cast self)
                   ["send"; campaign_address; "updateCampaignState()"];
                 state_read_command self campaign_address])%list.
Proof.
  unfold refresh_and_read, bind.
  rewrite run_cast_command_spec.
  destruct (executor_result _) as [u|]; [destruct (Py.truthy u)|];
    cbn [logger time_sleep pass_time ret add_log clock trace log];
    rewrite run_cast_command_spec;
    cbn [snd pass_time add_log clock trace log];
    rewrite <- app_assoc; reflexivity.
Qed.

Lemma trace_poll_once chain self campaign_address w :
  List.length (trace (snd (poll_once chain self campaign_address w)))
  = (List.length (trace w) + 2)%nat.
Proof.
  unfold poll_once, bind.
  pose proof (trace_refresh_and_read chain self campaign_address w) as Hread.
  destruct (refresh_and_read_spec chain self campaign_address w) as (wr & Hspec & _).
  rewrite Hspec in *. cbn [snd] in Hread.
  destruct (on_state_cases
              (executor_result
                 (outcome (chain (S (List.length (trace w)))
                             (state_read_command self campaign_address)))) wr)
    as (r & w' & -> & Htrace & _).
  cbn [snd]. rewrite Htrace, Hread, length_app. reflexivity.
Qed.

Lemma wait_loop_bounds chain self campaign_address start_time max_wait :
  forall fuel w,
    let after := wait_loop chain fuel self campaign_address start_time max_wait w in
    (List.length (trace (snd after)) <= List.length (trace w) + 2 * fuel)%nat
    /\ clock w <= clock (snd after).
Proof.
  induction fuel as [|fuel IH]; intros w after; unfold after;
    rewrite wait_loop_unfold;
    destruct (clock w - start_time <? 1000 * max_wait);
    try (cbn [snd add_log trace clock]; split; lia).
  pose proof (trace_poll_once chain self campaign_address w) as Hlen.
  destruct (poll_once_cases chain self campaign_address w) as (r & w' & Hpoll & Hr).
  rewrite Hpoll in *. cbn [snd] in Hlen.
  destruct r as [[b|]|e|]; cbn [snd]; try (split; lia).
  destruct (IH w') as [Htrace Hclock]. split; lia.
Qed.

(** X17.  [wait_for_campaign_end] issues at most two commands for each of
    its at most [max_wait / 10 + 1] passes, whatever it returns or raises,
    and the clock never goes back.  With a maximum wait of zero or less it
    returns false at once, having issued no command. *)
Theorem wait_for_campaign_end_is_bounded :
  forall chain self campaign_address max_wait w,
    let after := wait_for_campaign_end chain self campaign_address max_wait w in
    (List.length (trace (snd after))
     <= List.length (trace w) + 2 * Z.to_nat (max_wait / 10 + 1))%nat
    /\ clock w <= clock (snd after)
    /\ (max_wait <= 0 ->
        after
        = (Ok false,
           add_log (add_log w INFO "Waiting for campaign to end...")
             WARNING "Timeout waiting for campaign to end")).
Proof.
  intros chain self campaign_address max_wait w after. unfold after.
  rewrite wait_for_campaign_end_unfold.
  destruct (wait_loop_bounds chain self campaign_address (clock w) max_wait
              (wait_fuel max_wait)
              (add_log w INFO "Waiting for campaign to end..."))
    as [Htrace Hclock].
  split; [exact Htrace|]. split; [exact Hclock|].
  intros Hneg. rewrite wait_loop_unfold. cbn [add_log clock].
  destruct (Z.ltb_spec (clock w - clock w) (1000 * max_wait)); [lia | reflexivity].
Qed.

Lemma wait_for_campaign_end_is_bounded_witness :
  wait_for_campaign_end (fun _ _ => failed 10 "unreachable") sample_suite
    sample_campaign 0 initial_world
  = (Ok false,
     add_log (add_log initial_world INFO "Waiting for campaign to end...")
       WARNING "Timeout waiting for campaign to end").
Proof.
  apply (wait_for_campaign_end_is_bounded (fun _ _ => failed 10 "unreachable")
           sample_suite sample_campaign 0 initial_world).
  lia.
Defined.

(** X18.  Inside the window, a state read whose text is not a base-16
    literal makes [wait_for_campaign_end] raise the [ValueError] of
    [int(state_result, 16)], whose message shows at most 200 characters of
    [repr(state_result)], in the world of that read; a state other than
    0, 1 and 2 is neither success nor failure: the pass sleeps ten seconds
    and the loop goes round again. *)
Theorem wait_for_campaign_end_unexpected_state :
  forall chain self campaign_address fuel start_time max_wait w text wr,
    enough_fuel fuel start_time max_wait w ->
    clock w - start_time < 1000 * max_wait ->
    refresh_and_read chain self campaign_address w = (Ok (Some text), wr) ->
    text <> "" ->
    (Py.parse_int 16 text = None ->
     wait_loop chain fuel self campaign_address start_time max_wait w
     = (Raise (ValueError ("invalid literal for int() with base 16: "
                             ++ Py.take 200 (Py.repr text))), wr))
    /\ (forall state,
           Py.parse_int 16 text = Some state ->
           state <> 0 -> state <> 1 -> state <> 2 ->
           exists fuel',
             fuel = S fuel'
             /\ wait_loop chain fuel self campaign_address start_time max_wait w
                = wait_loop chain fuel' self campaign_address start_time max_wait
                    (pass_time wr 10)).
Proof.
  intros chain self campaign_address fuel start_time max_wait w text wr
    Hfuel Hin Hread Hne.
  destruct fuel as [|fuel']; [unfold enough_fuel in Hfuel; lia|].
  apply Z.ltb_lt in Hin as Hin'.
  split.
  - intros Hparse. rewrite wait_loop_unfold, Hin'.
    unfold poll_once, bind. rewrite Hread.
    unfold on_state, bind, py_int.
    rewrite (truthy_nonempty _ Hne), Hparse. reflexivity.
  - intros state Hparse H0 H1 H2. exists fuel'. split; [reflexivity|].
    rewrite wait_loop_unfold, Hin'.
    unfold poll_once, bind. rewrite Hread.
    unfold on_state, bind, py_int.
    rewrite (truthy_nonempty _ Hne), Hparse. cbn [ret].
    destruct (Z.eqb_spec state 0); [contradiction|].
    destruct (Z.eqb_spec state 1); [contradiction|].
    destruct (Z.eqb_spec state 2); [contradiction|].
    reflexivity.
Qed.

Lemma wait_for_campaign_end_unexpected_state_witness :
  fst (wait_loop (scripted_chain (completed 50 "0xd0707") (completed 200 "Active"))
         16 sample_suite sample_campaign 0 default_max_wait initial_world)
  = Raise (ValueError "invalid literal for int() with base 16: 'Active'").
Proof.
  assert (Hfuel : enough_fuel 16 0 default_max_wait initial_world)
    by (unfold enough_fuel; vm_compute; discriminate).
  assert (Hin : clock initial_world - 0 < 1000 * default_max_wait)
    by (vm_compute; reflexivity).
  assert (Hne : "Active" <> "") by discriminate.
  rewrite (proj1 (wait_for_campaign_end_unexpected_state
                    (scripted_chain (completed 50 "0xd0707") (completed 200 "Active"))
                    sample_suite sample_campaign 16 0 default_max_wait
                    initial_world "Active" _ Hfuel Hin eq_refl Hne) eq_refl).
  reflexivity.
Defined.

(* ================================================================== *)
(** * Further properties: the entry points *)
(* ================================================================== *)

Lemma returns_scenario_2 chain fl self :
  returns (test_scenario_2_success_with_liquidity chain fl self).
Proof. unfold test_scenario_2_success_with_liquidity. harness. Qed.

Lemma returns_announce chain self : returns (announce chain self).
Proof. unfold announce. harness. Qed.

Lemma log_results_spec (results : list (string * bool)) (w : world) :
  exists lines,
    log_results results w = (Ok tt, World (clock w) (trace w) (log w ++ lines)).
Proof.
  revert w. induction results as [|[scenario passed] rest IH]; intros w.
  - exists []. cbn. rewrite app_nil_r. now destruct w.
  - cbn [log_results]. rewrite bind_logger.
    destruct (IH (add_log w INFO
                    (scenario ++ ": " ++ (if passed then "✅ PASSED" else "❌ FAILED"))))
      as (lines & ->).
    cbn [add_log clock trace log]. rewrite <- app_assoc. now eexists.
Qed.

(** What [run_all_tests] returns once the accounts are announced and
    scenario 2 has run. *)
Lemma run_all_tests_spec chain fl self w wa passed wb :
  announce chain self w = (Ok tt, wa) ->
  test_scenario_2_success_with_liquidity chain fl self wa = (Ok passed, wb) ->
  exists wc,
    run_all_tests chain fl self w
    = (Ok [("scenario_2_success_with_liquidity", passed)], wc)
    /\ trace wc = trace wb /\ clock wc = clock wb.
Proof.
  intros Hannounce Hscenario. unfold run_all_tests.
  rewrite (bind_ok _ _ _ _ _ Hannounce), (bind_ok _ _ _ _ _ Hscenario).
  rewrite bind_logger. unfold bind at 1.
  destruct (log_results_spec [("scenario_2_success_with_liquidity", passed)]
              (add_log wb INFO (newline ++ "=== TEST RESULTS SUMMARY ===")))
    as (lines & ->).
  rewrite bind_logger. cbn [ret add_log trace clock]. now eexists.
Qed.

(** X19.  [main] ends with exit status 1, having issued no command, when the
    suite cannot be constructed; otherwise its exit status is 0 when scenario
    2 reported true and 1 when it reported false, and the last command
    issued is the scenario's last.  It never ends otherwise. *)
Theorem main_exit_status :
  forall chain fl getenv w,
    (forall e,
        init_suite getenv = Raise e ->
        main chain fl getenv w
        = (Ok 1, add_log w ERROR ("Test suite failed to initialize: " ++ exn_str e)))
    /\ (forallb (fun name => Py.truthy_opt (getenv name)) REQUIRED_VARIABLES = false ->
        fst (main chain fl getenv w) = Ok 1
        /\ trace (snd (main chain fl getenv w)) = trace w)
    /\ (forall suite wa passed wb,
           init_suite getenv = Ok suite ->
           announce chain suite w = (Ok tt, wa) ->
           test_scenario_2_success_with_liquidity chain fl suite wa = (Ok passed, wb) ->
           fst (main chain fl getenv w) = Ok (if passed then 0 else 1)
           /\ trace (snd (main chain fl getenv w)) = trace wb)
    /\ (exists status w',
           main chain fl getenv w = (Ok status, w') /\ (status = 0 \/ status = 1)).
Proof.
  intros chain fl getenv w.
  assert (Hraise : forall e,
             init_suite getenv = Raise e ->
             main chain fl getenv w
             = (Ok 1, add_log w ERROR
                        ("Test suite failed to initialize: " ++ exn_str e))).
  { intros e He. unfold main, try_except, bind. rewrite He. reflexivity. }
  assert (Hrun : forall suite wa passed wb,
             init_suite getenv = Ok suite ->
             announce chain suite w = (Ok tt, wa) ->
             test_scenario_2_success_with_liquidity chain fl suite wa
             = (Ok passed, wb) ->
             exists wc,
               main chain fl getenv w = (Ok (if passed then 0 else 1), wc)
               /\ trace wc = trace wb).
  { intros suite wa passed wb Hsuite Hannounce Hscenario.
    destruct (run_all_tests_spec chain fl suite w wa passed wb Hannounce Hscenario)
      as (wc & Hall & Htrace & _).
    exists wc. split; [|exact Htrace].
    unfold main, try_except. unfold bind at 1. rewrite Hsuite.
    rewrite (bind_ok _ _ _ _ _ Hall). cbn [forallb snd andb].
    destruct passed; reflexivity. }
  split; [exact Hraise|]. split; [|split].
  - intros Hmissing.
    assert (Hinit : init_suite getenv
                    = Raise (ValueError ("Missing environment variables: "
                                           ++ Py.join ", " (missing_variables getenv)))).
    { unfold init_suite. now rewrite (load_config_missing getenv Hmissing). }
    rewrite (Hraise _ Hinit). split; reflexivity.
  - intros suite wa passed wb Hsuite Hannounce Hscenario.
    destruct (Hrun suite wa passed wb Hsuite Hannounce Hscenario) as (wc & -> & Htrace).
    split; [reflexivity | exact Htrace].
  - destruct (init_suite getenv) as [suite|e|] eqn:Hsuite.
    + destruct (returns_announce chain suite w) as ([] & wa & Hannounce).
      destruct (returns_scenario_2 chain fl suite wa) as (passed & wb & Hscenario).
      destruct (Hrun suite wa passed wb eq_refl Hannounce Hscenario) as (wc & -> & _).
      eexists _, _. split; [reflexivity|]. destruct passed; auto.
    + rewrite (Hraise e eq_refl). eexists _, _. split; [reflexivity | auto].
    + exfalso. unfold init_suite in Hsuite.
      unfold _load_config in Hsuite.
      destruct (negb _) in Hsuite; [discriminate|].
      destruct (getenv "RPC_URL"), (getenv "CREATOR_PRIVATE_KEY"),
        (getenv "DONOR_PRIVATE_KEY"), (getenv "CROWDFUNDING_FACTORY_ADDRESS"),
        (getenv "USDC_TOKEN_ADDRESS"); discriminate.
Qed.

Lemma main_exit_status_witness :
  fst (main (scripted_chain (completed 50 "0xd0707") (completed 200 "1"))
         small_float_ops partial_environ initial_world) = Ok 1
  /\ fst (main (scripted_chain (completed 50 "0xd0707") (completed 200 "1"))
            small_float_ops sample_environ initial_world) = Ok 0
  /\ fst (main (scripted_chain (completed 50 "0xd0707") (completed 200 "2"))
            small_float_ops sample_environ initial_world) = Ok 1.
Proof.
  split; [|split].
  - apply (proj1 (proj2 (main_exit_status
                           (scripted_chain (completed 50 "0xd0707") (completed 200 "1"))
                           small_float_ops partial_environ initial_world))).
    reflexivity.
  - apply (proj1 (proj2 (proj2 (main_exit_status
                                  (scripted_chain (completed 50 "0xd0707")
                                     (completed 200 "1"))
                                  small_float_ops sample_environ initial_world)))
             sample_suite
             (snd (announce (scripted_chain (completed 50 "0xd0707")
                               (completed 200 "1")) sample_suite initial_world))
             true
             (snd (test_scenario_2_success_with_liquidity
                     (scripted_chain (completed 50 "0xd0707") (completed 200 "1"))
                     small_float_ops sample_suite
                     (snd (announce (scripted_chain (completed 50 "0xd0707")
                                       (completed 200 "1")) sample_suite
                             initial_world))))).
    + reflexivity.
    + vm_compute. reflexivity.
    + vm_compute. reflexivity.
  - apply (proj1 (proj2 (proj2 (main_exit_status
                                  (scripted_chain (completed 50 "0xd0707")
                                     (completed 200 "2"))
                                  small_float_ops sample_environ initial_world)))
             sample_suite
             (snd (announce (scripted_chain (completed 50 "0xd0707")
                               (completed 200 "2")) sample_suite initial_world))
             false
             (snd (test_scenario_2_success_with_liquidity
                     (scripted_chain (completed 50 "0xd0707") (completed 200 "2"))
                     small_float_ops sample_suite
                     (snd (announce (scripted_chain (completed 50 "0xd0707")
                                       (completed 200 "2")) sample_suite
                             initial_world))))).
    + reflexivity.
    + vm_compute. reflexivity.
    + vm_compute. reflexivity.
Defined.

Lemma attempt_account chain self printed (k : option string -> M (bool * list string)) w :
  let r := chain (List.length (trace w)) (wallet_command self) in
  attempt (get_account_address chain self) printed k w
  = k (executor_result (outcome r))
      (World (clock w + Z.of_N (elapsed r))
             (trace w ++ [wallet_command self])
             (log w ++ account_log (outcome r))).
Proof.
  intros r. unfold attempt. rewrite get_account_address_spec. reflexivity.
Qed.

(** X20.  The wallet smoke check needs only the two keys and the endpoint:
    when one of them is unset or empty it returns false without running
    anything.  Otherwise it derives the creator's address first; when that
    gives nothing starting with "0x" it returns false and the donor's address
    is never derived.  It returns true only when both derived addresses
    start with "0x", after exactly the two derivations, and it never
    raises. *)
Theorem wallet_check_derives_creator_then_donor :
  forall chain getenv w,
    let after := test_wallet_address chain getenv w in
    let present (name : string) := Py.truthy_opt (getenv name) in
    (present "CREATOR_PRIVATE_KEY" && present "DONOR_PRIVATE_KEY" && present "RPC_URL"
     = false ->
     after = (Ok (false, ["❌ Missing environment variables"]), w))
    /\ (forall creator_key donor_key url,
           getenv "CREATOR_PRIVATE_KEY" = Some creator_key ->
           getenv "DONOR_PRIVATE_KEY" = Some donor_key ->
           getenv "RPC_URL" = Some url ->
           creator_key <> "" -> donor_key <> "" -> url <> "" ->
           let creator := ["cast"; "wallet"; "address"; creator_key] in
           let donor := ["cast"; "wallet"; "address"; donor_key] in
           let n := List.length (trace w) in
           let first := executor_result (outcome (chain n creator)) in
           let second := executor_result (outcome (chain (S n) donor)) in
           (match first with
            | Some address => Py.startswith "0x" address = false
            | None => True
            end ->
            fst after = Ok (false, ["❌ Failed to get creator address"])
            /\ trace (snd after) = (trace w ++ [creator])%list)
           /\ (forall printed,
                  fst after = Ok (true, printed) ->
                  (exists address, first = Some address
                                   /\ Py.startswith "0x" address = true)
                  /\ (exists address, second = Some address
                                      /\ Py.startswith "0x" address = true)
                  /\ trace (snd after) = (trace w ++ [creator; donor])%list))
    /\ (exists verdict printed, fst after = Ok (verdict, printed)).
Proof.
  intros chain getenv w after present. unfold after, present. clear after present.
  unfold test_wallet_address.
  split; [|split].
  - destruct (getenv "CREATOR_PRIVATE_KEY") as [ck|];
      destruct (getenv "DONOR_PRIVATE_KEY") as [dk|];
      destruct (getenv "RPC_URL") as [url|]; cbn [Py.truthy_opt];
      try reflexivity.
    intros ->. reflexivity.
  - intros creator_key donor_key url -> -> -> Hck Hdk Hurl.
    rewrite !truthy_nonempty by assumption. cbn [andb].
    rewrite attempt_account. unfold wallet_command. cbn [private_key trace].
    set (creator := ["cast"; "wallet"; "address"; creator_key]).
    set (donor := ["cast"; "wallet"; "address"; donor_key]).
    set (n := List.length (trace w)).
    set (first := executor_result (outcome (chain n creator))).
    split.
    + intros Hfirst. destruct first as [address|]; [|split; reflexivity].
      rewrite Hfirst, andb_false_r. split; reflexivity.
    + intros printed.
      destruct first as [address|] eqn:Efirst; [|discriminate].
      destruct (Py.truthy address && Py.startswith "0x" address) eqn:Hcreator;
        [|discriminate].
      apply andb_true_iff in Hcreator as [_ Hcreator].
      rewrite attempt_account. unfold wallet_command. cbn [private_key trace].
      rewrite length_snoc. fold donor n.
      set (second := executor_result (outcome (chain (S n) donor))).
      destruct second as [address'|] eqn:Esecond; [|discriminate].
      destruct (Py.truthy address' && Py.startswith "0x" address') eqn:Hdonor;
        [|discriminate].
      apply andb_true_iff in Hdonor as [_ Hdonor].
      intros _. split; [now exists address|]. split; [now exists address'|].
      cbn [ret snd trace]. rewrite <- app_assoc. reflexivity.
  - destruct (getenv "CREATOR_PRIVATE_KEY") as [ck|];
      destruct (getenv "DONOR_PRIVATE_KEY") as [dk|];
      destruct (getenv "RPC_URL") as [url|];
      try (now eexists _, _).
    destruct (Py.truthy ck && Py.truthy dk && Py.truthy url);
      [|now eexists _, _].
    rewrite attempt_account.
    destruct (executor_result _) as [address|]; [|now eexists _, _].
    destruct (Py.truthy address && Py.startswith "0x" address);
      [|now eexists _, _].
    rewrite attempt_account.
    destruct (executor_result _) as [address'|]; [|now eexists _, _].
    destruct (Py.truthy address' && Py.startswith "0x" address');
      now eexists _, _.
Qed.

Lemma wallet_check_derives_creator_then_donor_witness :
  test_wallet_address (fun _ _ => completed 30 "0xd0707")
    (fun name => if String.eqb name "RPC_URL" then None else sample_environ name)
    initial_world
  = (Ok (false, ["❌ Missing environment variables"]), initial_world)
  /\ fst (test_wallet_address (fun _ _ => completed 30 "d0707") sample_environ
            initial_world)
     = Ok (false, ["❌ Failed to get creator address"]).
Proof.
  split.
  - apply (proj1 (wallet_check_derives_creator_then_donor
                    (fun _ _ => completed 30 "0xd0707")
                    (fun name => if String.eqb name "RPC_URL" then None
                                 else sample_environ name)
                    initial_world)).
    reflexivity.
  - apply (proj1 (proj1 (proj2 (wallet_check_derives_creator_then_donor
                                  (fun _ _ => completed 30 "d0707") sample_environ
                                  initial_world))
                    "0xc0de01" "0xc0de02" "http://localhost:8545"
                    eq_refl eq_refl eq_refl
                    ltac:(discriminate) ltac:(discriminate) ltac:(discriminate))).
    reflexivity.
Defined.

(** X21.  The error of [_load_config] lists the required variables that are
    unset or empty, and no others, in the order of declaration, joined by
    ", "; it is raised exactly when that list is not empty, and
    [_load_config] never ends otherwise than with that error or a record. *)
Theorem load_config_lists_exactly_the_missing :
  forall getenv : string -> option string,
    (forall name,
        In name (missing_variables getenv)
        <-> In name REQUIRED_VARIABLES /\ Py.truthy_opt (getenv name) = false)
    /\ (missing_variables getenv <> [] ->
        _load_config getenv
        = Raise (ValueError ("Missing environment variables: "
                               ++ Py.join ", " (missing_variables getenv))))
    /\ (missing_variables getenv = [] -> exists cfg, _load_config getenv = Ok cfg)
    /\ missing_variables partial_environ = ["DONOR_PRIVATE_KEY"; "USDC_TOKEN_ADDRESS"].
Proof.
  intros getenv.
  assert (Hiff : forall name,
             In name (missing_variables getenv)
             <-> In name REQUIRED_VARIABLES /\ Py.truthy_opt (getenv name) = false).
  { intros name. unfold missing_variables. rewrite filter_In.
    split; intros [Hin Hf]; (split; [exact Hin|]).
    - now apply negb_true_iff.
    - now rewrite Hf. }
  split; [exact Hiff|]. split; [|split; [|reflexivity]].
  - intros Hsome. apply load_config_missing.
    destruct (forallb _ REQUIRED_VARIABLES) eqn:Hall; [|reflexivity].
    exfalso. apply Hsome.
    destruct (missing_variables getenv) as [|name rest] eqn:Hm; [reflexivity|].
    assert (Hin : In name (name :: rest)) by now left.
    apply Hiff in Hin as [Hreq Hfalsy].
    rewrite forallb_forall in Hall. rewrite (Hall name Hreq) in Hfalsy.
    discriminate.
  - intros Hnone.
    destruct (load_config_present getenv) as (rpc & c & d & f & t & _ & _ & _ & _ & _ & Hcfg).
    + apply forallb_forall. intros name Hreq.
      destruct (Py.truthy_opt (getenv name)) eqn:Hp; [reflexivity|].
      assert (Hin : In name (missing_variables getenv)) by (apply Hiff; now split).
      rewrite Hnone in Hin. destruct Hin.
    + eexists. exact Hcfg.
Qed.

Lemma load_config_lists_exactly_the_missing_witness :
  _load_config partial_environ
  = Raise (ValueError
             "Missing environment variables: DONOR_PRIVATE_KEY, USDC_TOKEN_ADDRESS").
Proof.
  rewrite (proj1 (proj2 (load_config_lists_exactly_the_missing partial_environ)));
    [reflexivity | discriminate].
Defined.

(* ================================================================== *)
(** * Further properties: what the executor returns *)
(* ================================================================== *)

Lemma rstrip_by_idempotent (p : ascii -> bool) (s : string) :
  Py.rstrip_by p (Py.rstrip_by p s) = Py.rstrip_by p s.
Proof.
  induction s as [|c s IH]; [reflexivity|].
  cbn [Py.rstrip_by].
  destruct (Py.rstrip_by p s) as [|d r] eqn:Hr.
  - destruct (p c) eqn:Hc; [reflexivity|].
    cbn [Py.rstrip_by]. now rewrite Hc.
  - cbn [Py.rstrip_by] in *. rewrite IH. reflexivity.
Qed.

Lemma lstrip_by_head (p : ascii -> bool) (s : string) :
  Py.lstrip_by p s = ""
  \/ exists c t, Py.lstrip_by p s = String c t /\ p c = false.
Proof.
  induction s as [|c s IH]; [now left|].
  cbn [Py.lstrip_by]. destruct (p c) eqn:Hc; [exact IH|].
  right. now exists c, s.
Qed.

Lemma strip_by_idempotent (p : ascii -> bool) (s : string) :
  Py.strip_by p (Py.strip_by p s) = Py.strip_by p s.
Proof.
  unfold Py.strip_by.
  destruct (lstrip_by_head p s) as [-> | (c & t & -> & Hc)]; [reflexivity|].
  assert (Hkeep : Py.lstrip_by p (Py.rstrip_by p (String c t))
                  = Py.rstrip_by p (String c t)).
  { cbn [Py.rstrip_by]. rewrite Hc.
    destruct (Py.rstrip_by p t); cbn [Py.lstrip_by]; now rewrite Hc. }
  rewrite Hkeep. apply rstrip_by_idempotent.
Qed.

(** X22.  Text returned by [run_cast_command] or [get_account_address] is
    already stripped: stripping it again, as [swap_tokens_for_usdc] and
    [add_liquidity] do with the account address, changes nothing. *)
Theorem executor_text_is_stripped :
  forall chain self caller command w text,
    (fst (run_cast_command chain self caller command w) = Ok (Some text) ->
     Py.strip text = text)
    /\ (fst (get_account_address chain self w) = Ok (Some text) ->
        Py.strip text = text).
Proof.
  intros chain self caller command w text.
  rewrite run_cast_command_spec, get_account_address_spec. cbn [fst].
  unfold executor_result.
  split; intros Hok;
    match type of Hok with
    | Ok (match outcome ?r with _ => _ end) = _ =>
        destruct (outcome r) as [rc out err | e]; [|discriminate];
        destruct (negb (rc =? 0)); [discriminate|];
        injection Hok as <-; apply strip_by_idempotent
    end.
Qed.

Lemma executor_text_is_stripped_witness :
  Py.strip "0xd0707" = "0xd0707".
Proof.
  apply (proj1 (executor_text_is_stripped (fun _ _ => completed 10 "  0xd0707
")
                  (mkCastInteractor "http://localhost:8545" "0xc0de02")
                  "uniswap_helper.py:84" ["wallet"; "address"; "0xc0de02"]
                  initial_world "0xd0707")).
  reflexivity.
Defined.
